(** * Loan-Management: the repayment ledger of the loan-details dialog
      and the analytics metrics, embedded from the TypeScript sources

    Sources embedded here:
    - [src/components/ui/loan-details-modal.tsx] (component [LoanDetailsModal]):
      [fetchRepayments], [openPaymentModal], [updateLoanStatus],
      [validatePaymentInput], [handleChange], [handlePaymentMethodChange],
      [calculateInterest], [handleSubmitPayment], [handleMarkAsFinished], the
      effect that shows a loan, and the two JSX guards of the footer and of
      the mark-as-finished panel;
    - the analytics page ([fetchLoanMetrics]).

    Modelling conventions.
    - A [Date] is its [getTime()] value: milliseconds since the epoch, in [Z].
    - React component state is an explicit record threaded through the
      handlers; the [loan] prop is a value of its own, separate from the row
      of the [loans] table that [updateLoanStatus] writes.
    - The store is one loan's status cell and its repayment table, a list in
      recording order.
    - The ledger handlers are embedded twice.  The first embedding fixes what
      the environment decides: a JavaScript [number] holding money or a rate
      is an exact rational [Q] (equality is [==]); reads of the store
      succeed, and [order(repayment_date)] is a stable sort on recording
      order, reversed for a descending read, so that of two rows of equal
      date the one recorded last is the later; [setMonth] is done in UTC.
      The second embedding, [Hosted], takes the environment as a parameter
      [Host]: what each ordered read returns, an error included, and
      [setMonth] in the browser's time zone.
    - [F64] has the interest computations on IEEE 754 doubles, rounding
      included. *)

From Stdlib Require Import ZArith QArith Qround Qminmax Qabs Lqa Lia.
From Stdlib Require Import List Sorted Permutation Bool String.
From Stdlib Require Import Floats.SpecFloat.
Import ListNotations.

Open Scope Q_scope.

(** ** JavaScript primitives *)

Module JS.

(** [a < b] on numbers, from the library's [<=]. *)
Definition Qlt_bool (a b : Q) : bool := negb (Qle_bool b a).

(** [Math.max(a, b)]. *)
Definition Math_max (a b : Q) : Q := Qmax a b.

(** [Math.abs] on a difference of two [getTime()] values. *)
Definition Math_abs (t : Z) : Z := Z.abs t.

(** [Math.ceil]. *)
Definition Math_ceil (x : Q) : Z := Qceiling x.

(** [parseFloat(x.toFixed(2))]: the integer [n] with [n / 100] closest to
    [|x|], the larger one at a tie, with the sign of [x] put back. *)
Definition toFixed2 (x : Q) : Q :=
  if Qlt_bool x 0
  then - (inject_Z (Qfloor ((- x) * 100 + (1 # 2))) / 100)
  else inject_Z (Qfloor (x * 100 + (1 # 2))) / 100.

(** [1000 * 60 * 60 * 24]. *)
Definition msPerDay : Z := (1000 * 60 * 60 * 24)%Z.

(** *** Calendar, for [Date.prototype.setMonth] (UTC) *)

(** Day number of the civil date [(y, m, d)], month [m] in [1..12]; linear
    in [d], so a day past the end of the month runs into the next one. *)
Definition days_from_civil (y m d : Z) : Z :=
  (let y' := if m <=? 2 then y - 1 else y in
   let era := y' / 400 in
   let yoe := y' - era * 400 in
   let mp := (m + 9) mod 12 in
   let doy := (153 * mp + 2) / 5 + d - 1 in
   let doe := yoe * 365 + yoe / 4 - yoe / 100 + doy in
   era * 146097 + doe - 719468)%Z.

(** Civil date [(y, m, d)] of a day number. *)
Definition civil_from_days (z : Z) : Z * Z * Z :=
  (let z' := z + 719468 in
   let era := z' / 146097 in
   let doe := z' - era * 146097 in
   let yoe := (doe - doe / 1460 + doe / 36524 - doe / 146096) / 365 in
   let y := yoe + era * 400 in
   let doy := doe - (365 * yoe + yoe / 4 - yoe / 100) in
   let mp := (5 * doy + 2) / 153 in
   let d := doy - (153 * mp + 2) / 5 + 1 in
   let m := if mp <? 10 then mp + 3 else mp - 9 in
   (if m <=? 2 then y + 1 else y, m, d))%Z.

(** [d.setMonth(d.getMonth() + k)] on a time value, for a browser whose
    time zone is UTC: the month index moves by [k] (years carried), the day
    of the month and the time within the day are kept. *)
Definition addMonths (t k : Z) : Z :=
  (let day := t / msPerDay in
   let tod := t mod msPerDay in
   let '(y, m, d) := civil_from_days day in
   let mi := (m - 1) + k in
   let ym := y + mi / 12 in
   let mn := mi mod 12 in
   (days_from_civil ym (mn + 1) 1 + (d - 1)) * msPerDay + tod)%Z.

End JS.

(** ** Data model *)

(** The values the code writes to and compares with [loans.status]:
    ['active'], ['principal paid'], ['finished']. *)
Inductive LoanStatus : Type :=
| Active
| PrincipalPaid
| Finished.

Definition LoanStatus_eqb (a b : LoanStatus) : bool :=
  match a, b with
  | Active, Active | PrincipalPaid, PrincipalPaid | Finished, Finished => true
  | _, _ => false
  end.

(** [interface Loan]; the borrower's name, payment method, notes and
    creation time play no part in the ledger and are left out. *)
Record Loan : Type := mkLoan {
  id : Z;
  amount : Q;
  interest_rate : Q;
  term_months : Z;
  start_date : Z;
  status : LoanStatus
}.

(** [interface Repayment] (the store's [id], [loan_id], [created_at] left
    out). *)
Record Repayment : Type := mkRepayment {
  repayment_date : Z;
  amount_paid : Q;
  interest_amount : Q;
  remaining_balance : Q;
  payment_method : string;
  notes : string
}.

(** [interface PaymentFormData]. *)
Record PaymentFormData : Type := mkForm {
  amountPaid : Q;
  paymentMethod : string;
  repaymentDate : Z;
  form_notes : string
}.

(** The message held in [validationErrors.amountError]. *)
Inductive AmountError : Type :=
| NoAmountError
| AmountMustBePositive
| AmountExceedsBalance (balance : Q).

(** The message held in [validationErrors.dateError]. *)
Inductive DateError : Type :=
| NoDateError
| DateBeforePrevious (previous : Z)
| DateExceedsTerm (endDate : Z).

Record ValidationErrors : Type := mkErrors {
  amountError : AmountError;
  dateError : DateError
}.

(** The [useState] cells of [LoanDetailsModal] that the ledger handlers read
    or write.  The cells that only drive rendering (the active tab, the
    spinners, whether the payment dialog is open) are left out, and the
    contents of the payment form are passed to the submit handler. *)
Record ComponentState : Type := mkState {
  repayments : list Repayment;
  daysSinceLastRepayment : Z;
  projectedInterest : Q;
  isPrincipalPaid : bool;
  totalAmountPaid : Q;
  remainingPrincipal : Q;
  remainingBalance : Q;
  validationErrors : ValidationErrors;
  submitError : option string;
  submitSuccess : bool
}.

(** The component's state at mount. *)
Definition initialState : ComponentState :=
  mkState [] 0 0 false 0 0 0 (mkErrors NoAmountError NoDateError) None false.

(** The store, seen from one loan: the [status] column of its [loans] row
    and its repayment table in recording order. *)
Record Database : Type := mkDb {
  loan_status : LoanStatus;
  repayment_table : list Repayment
}.

(** ** The store's operations *)

Module Store.

(** Place [r] after every row whose date is not later than its own. *)
Fixpoint insert_by_date (r : Repayment) (l : list Repayment) : list Repayment :=
  match l with
  | [] => [r]
  | x :: l' =>
      if (repayment_date r <? repayment_date x)%Z
      then r :: x :: l'
      else x :: insert_by_date r l'
  end.

(** [.select('*').order('repayment_date', { ascending: true })]. *)
Definition order_asc (t : list Repayment) : list Repayment :=
  fold_left (fun acc r => insert_by_date r acc) t [].

(** [.select('*').order('repayment_date', { ascending: false })], with, of
    the rows of equal date, the one recorded last first.  The query orders
    by the date alone: [order_desc_stable] below is another answer the
    store may give. *)
Definition order_desc (t : list Repayment) : list Repayment :=
  rev (order_asc t).

(** Place [r] after every row whose date is not earlier than its own. *)
Fixpoint insert_by_date_desc (r : Repayment) (l : list Repayment)
    : list Repayment :=
  match l with
  | [] => [r]
  | x :: l' =>
      if (repayment_date x <? repayment_date r)%Z
      then r :: x :: l'
      else x :: insert_by_date_desc r l'
  end.

(** Another descending read by [repayment_date]: rows of equal date come
    back in the order they were recorded, as they do in [order_asc]. *)
Definition order_desc_stable (t : list Repayment) : list Repayment :=
  fold_left (fun acc r => insert_by_date_desc r acc) t [].

(** [.limit(1)]. *)
Definition limit1 (l : list Repayment) : list Repayment := firstn 1 l.

(** [.insert([r])]. *)
Definition insert (db : Database) (r : Repayment) : Database :=
  mkDb (loan_status db) (repayment_table db ++ [r]).

(** [.from('loans').update({ status }).eq('id', loanId)]. *)
Definition update_status (db : Database) (s : LoanStatus) : Database :=
  mkDb s (repayment_table db).

End Store.

(** ** The handlers of [LoanDetailsModal] *)

(** The argument of [validatePaymentInput]: the field and its value. *)
Inductive Field : Type :=
| AmountField (value : Q)
| DateField (value : Z).

(** How [handleSubmitPayment] ends: the early [return] after a failed
    validation, the [catch] branch with its message, or the insert. *)
Inductive SubmitOutcome : Type :=
| ValidationRejected
| SubmitFailed (message : string)
| Recorded (r : Repayment).

Section Setters.

Variable st : ComponentState.

Definition setRepayments (v : list Repayment) : ComponentState :=
  mkState v (daysSinceLastRepayment st) (projectedInterest st)
    (isPrincipalPaid st) (totalAmountPaid st) (remainingPrincipal st)
    (remainingBalance st) (validationErrors st) (submitError st)
    (submitSuccess st).

Definition setDaysSinceLastRepayment (v : Z) : ComponentState :=
  mkState (repayments st) v (projectedInterest st)
    (isPrincipalPaid st) (totalAmountPaid st) (remainingPrincipal st)
    (remainingBalance st) (validationErrors st) (submitError st)
    (submitSuccess st).

Definition setProjectedInterest (v : Q) : ComponentState :=
  mkState (repayments st) (daysSinceLastRepayment st) v
    (isPrincipalPaid st) (totalAmountPaid st) (remainingPrincipal st)
    (remainingBalance st) (validationErrors st) (submitError st)
    (submitSuccess st).

Definition setIsPrincipalPaid (v : bool) : ComponentState :=
  mkState (repayments st) (daysSinceLastRepayment st) (projectedInterest st)
    v (totalAmountPaid st) (remainingPrincipal st)
    (remainingBalance st) (validationErrors st) (submitError st)
    (submitSuccess st).

Definition setTotalAmountPaid (v : Q) : ComponentState :=
  mkState (repayments st) (daysSinceLastRepayment st) (projectedInterest st)
    (isPrincipalPaid st) v (remainingPrincipal st)
    (remainingBalance st) (validationErrors st) (submitError st)
    (submitSuccess st).

Definition setRemainingPrincipal (v : Q) : ComponentState :=
  mkState (repayments st) (daysSinceLastRepayment st) (projectedInterest st)
    (isPrincipalPaid st) (totalAmountPaid st) v
    (remainingBalance st) (validationErrors st) (submitError st)
    (submitSuccess st).

Definition setRemainingBalance (v : Q) : ComponentState :=
  mkState (repayments st) (daysSinceLastRepayment st) (projectedInterest st)
    (isPrincipalPaid st) (totalAmountPaid st) (remainingPrincipal st)
    v (validationErrors st) (submitError st)
    (submitSuccess st).

Definition setValidationErrors (v : ValidationErrors) : ComponentState :=
  mkState (repayments st) (daysSinceLastRepayment st) (projectedInterest st)
    (isPrincipalPaid st) (totalAmountPaid st) (remainingPrincipal st)
    (remainingBalance st) v (submitError st)
    (submitSuccess st).

Definition setSubmitError (v : option string) : ComponentState :=
  mkState (repayments st) (daysSinceLastRepayment st) (projectedInterest st)
    (isPrincipalPaid st) (totalAmountPaid st) (remainingPrincipal st)
    (remainingBalance st) (validationErrors st) v
    (submitSuccess st).

Definition setSubmitSuccess (v : bool) : ComponentState :=
  mkState (repayments st) (daysSinceLastRepayment st) (projectedInterest st)
    (isPrincipalPaid st) (totalAmountPaid st) (remainingPrincipal st)
    (remainingBalance st) (validationErrors st) (submitError st)
    v.

End Setters.

(** [Math.ceil(Math.abs(a - b) / (1000 * 60 * 60 * 24))] on two time
    values, as [fetchRepayments] and [calculateInterest] compute it. *)
Definition diffDays (a b : Z) : Z :=
  let diffTime := JS.Math_abs (a - b) in
  JS.Math_ceil (inject_Z diffTime / inject_Z JS.msPerDay).

(** [interest_rate / 100 / 365]. *)
Definition dailyInterestRate (interestRate : Q) : Q := interestRate / 100 / 365.

(** [fetchRepayments(loanData)], run at time [today]. *)
Definition fetchRepayments (loanData : Loan) (today : Z)
    (st : ComponentState) (db : Database) : ComponentState :=
  let data := Store.order_desc (repayment_table db) in
  let st := setRepayments st data in
  match data with
  | lastRepayment :: _ =>
      let st := setDaysSinceLastRepayment st
                  (diffDays today (repayment_date lastRepayment)) in
      let remainingBalance := remaining_balance lastRepayment in
      let projected :=
        remainingBalance * dailyInterestRate (interest_rate loanData) * 30 in
      let st := setProjectedInterest st (JS.toFixed2 projected) in
      setRemainingBalance st (remaining_balance lastRepayment)
  | [] =>
      let st := setDaysSinceLastRepayment st 0%Z in
      let st := setProjectedInterest st 0 in
      setRemainingBalance st (amount loanData)
  end.

(** [updateLoanStatus(loanId, status)]. *)
Definition updateLoanStatus (db : Database) (s : LoanStatus) : Database :=
  Store.update_status db s.

(** [data.reduce((sum, repayment) => sum + repayment.amount_paid, 0)]. *)
Definition sumAmountPaid (data : list Repayment) : Q :=
  fold_left (fun sum repayment => sum + amount_paid repayment) data 0.

(** [openPaymentModal()]. *)
Definition openPaymentModal (loan : Loan)
    (st : ComponentState) (db : Database) : ComponentState * Database :=
  let st := setSubmitError st None in
  let st := setSubmitSuccess st false in
  let st := setValidationErrors st (mkErrors NoAmountError NoDateError) in
  let data := Store.order_asc (repayment_table db) in
  let '(total, st) :=
    match data with
    | _ :: _ =>
        let total := sumAmountPaid data in
        let st := setTotalAmountPaid st total in
        let latestRepayment := last data (mkRepayment 0 0 0 0 "" "") in
        (total, setRemainingBalance st (remaining_balance latestRepayment))
    | [] => (0, setRemainingBalance st (amount loan))
    end in
  let st := setRemainingPrincipal st (JS.Math_max 0 (amount loan - total)) in
  let isPaid := Qle_bool (amount loan) total in
  let st := setIsPrincipalPaid st isPaid in
  if isPaid && LoanStatus_eqb (status loan) Active
  then (st, updateLoanStatus db PrincipalPaid)
  else (st, db).

(** [validatePaymentInput(field, value)]: the verdict and the [newErrors]
    it passes to [setValidationErrors]. *)
Definition validatePaymentInput (loan : Loan) (st : ComponentState)
    (field : Field) : bool * ValidationErrors :=
  let newErrors := validationErrors st in
  match field with
  | AmountField amountValue =>
      if Qle_bool amountValue 0
      then (false, mkErrors AmountMustBePositive (dateError newErrors))
      else if JS.Qlt_bool (remainingBalance st) amountValue
      then (false, mkErrors (AmountExceedsBalance (remainingBalance st))
                     (dateError newErrors))
      else (true, mkErrors NoAmountError (dateError newErrors))
  | DateField selectedDate =>
      let startDate := start_date loan in
      let mostRecentRepaymentDate :=
        match repayments st with
        | r0 :: _ => repayment_date r0
        | [] => startDate
        end in
      let endDate := JS.addMonths startDate (term_months loan) in
      if (selectedDate <? mostRecentRepaymentDate)%Z
      then (false, mkErrors (amountError newErrors)
                     (DateBeforePrevious mostRecentRepaymentDate))
      else if (endDate <? selectedDate)%Z
      then (false, mkErrors (amountError newErrors) (DateExceedsTerm endDate))
      else (true, mkErrors (amountError newErrors) NoDateError)
  end.

(** [calculateInterest(previousRepayment, currentRepaymentDate, interestRate)];
    [isPrincipalPaid] is the state cell the closure reads.  Numbers are
    exact here; [F64.calculateInterest] is the computation on doubles. *)
Definition calculateInterest (st : ComponentState)
    (previousRepayment : Repayment) (currentRepaymentDate : Z)
    (interestRate : Q) : Q :=
  if isPrincipalPaid st then 0
  else
    let prevDate := repayment_date previousRepayment in
    let currentDate := currentRepaymentDate in
    let diffTime := JS.Math_abs (currentDate - prevDate) in
    let diffDays := JS.Math_ceil (inject_Z diffTime / inject_Z JS.msPerDay) in
    let dailyInterestRate := interestRate / 100 / 365 in
    let interestAmount :=
      remaining_balance previousRepayment * dailyInterestRate
      * inject_Z diffDays in
    JS.toFixed2 interestAmount.

(** [handleSubmitPayment(e)], run at time [today] with the form's contents
    [paymentFormData].  Both validations read the [validationErrors] of the
    same render; the second [setValidationErrors] is the one that stays. *)
Definition handleSubmitPayment (loan : Loan) (today : Z)
    (paymentFormData : PaymentFormData)
    (st : ComponentState) (db : Database)
    : SubmitOutcome * ComponentState * Database :=
  let '(isAmountValid, _) :=
    validatePaymentInput loan st (AmountField (amountPaid paymentFormData)) in
  let '(isDateValid, newErrors) :=
    validatePaymentInput loan st (DateField (repaymentDate paymentFormData)) in
  let st := setValidationErrors st newErrors in
  if negb isAmountValid || negb isDateValid
  then (ValidationRejected, st, db)
  else
    let st := setSubmitError st None in
    let latestRepayment :=
      Store.limit1 (Store.order_desc (repayment_table db)) in
    match latestRepayment with
    | [] =>
        (SubmitFailed "No previous repayment record found",
         setSubmitError st (Some "No previous repayment record found"%string),
         db)
    | previousRepayment :: _ =>
        let interestAmount :=
          calculateInterest st previousRepayment
            (repaymentDate paymentFormData) (interest_rate loan) in
        let newRemainingBalance :=
          if isPrincipalPaid st
          then remaining_balance previousRepayment - amountPaid paymentFormData
          else remaining_balance previousRepayment - amountPaid paymentFormData
               + interestAmount in
        let newTotalPaid := totalAmountPaid st + amountPaid paymentFormData in
        let willPrincipalBePaid :=
          negb (isPrincipalPaid st) && Qle_bool (amount loan) newTotalPaid in
        let '(st, db) :=
          if willPrincipalBePaid
          then (setIsPrincipalPaid st true, updateLoanStatus db PrincipalPaid)
          else (st, db) in
        let db :=
          if Qle_bool newRemainingBalance 0
          then updateLoanStatus db Finished
          else db in
        let r :=
          mkRepayment (repaymentDate paymentFormData)
            (amountPaid paymentFormData)
            interestAmount
            (JS.Math_max 0 newRemainingBalance)
            (paymentMethod paymentFormData)
            (form_notes paymentFormData) in
        let db := Store.insert db r in
        let st := setSubmitSuccess st true in
        let st := fetchRepayments loan today st db in
        (Recorded r, st, db)
    end.

(** [new Date().toISOString().split('T')[0]], read back as a time value:
    the start of the UTC day of [today]. *)
Definition todayDate (today : Z) : Z := (today / JS.msPerDay * JS.msPerDay)%Z.

(** [handleMarkAsFinished()], run at time [today]. *)
Definition handleMarkAsFinished (loan : Loan) (today : Z)
    (st : ComponentState) (db : Database) : ComponentState * Database :=
  let db := updateLoanStatus db Finished in
  if JS.Qlt_bool 0 (remainingBalance st)
  then
    let db :=
      Store.insert db
        (mkRepayment (todayDate today) (remainingBalance st) 0 0 "System"
           "Loan marked as finished (balance less than ₹100)") in
    (fetchRepayments loan today st db, db)
  else (st, db).

(** The JSX condition under which the "Mark as Finished" button is
    rendered:
    [remainingBalance > 0 && remainingBalance < 100 && loan.status !== 'finished']. *)
Definition markAsFinishedOffered (loan : Loan) (st : ComponentState) : bool :=
  JS.Qlt_bool 0 (remainingBalance st)
  && JS.Qlt_bool (remainingBalance st) 100
  && negb (LoanStatus_eqb (status loan) Finished).

(** The JSX condition under which the "Record New Payment" button is
    rendered: [loan.status !== 'finished']. *)
Definition recordNewPaymentOffered (loan : Loan) : bool :=
  negb (LoanStatus_eqb (status loan) Finished).

(** A click on "Mark as Finished": the handler runs when the button is
    there. *)
Definition clickMarkAsFinished (loan : Loan) (today : Z)
    (st : ComponentState) (db : Database) : ComponentState * Database :=
  if markAsFinishedOffered loan st
  then handleMarkAsFinished loan today st db
  else (st, db).

(** A click on "Record New Payment". *)
Definition clickRecordNewPayment (loan : Loan)
    (st : ComponentState) (db : Database) : ComponentState * Database :=
  if recordNewPaymentOffered loan
  then openPaymentModal loan st db
  else (st, db).

(** Recording one payment, as the dialog sequences it: the history is loaded
    when the dialog shows the loan ([fetchRepayments]), the payment form is
    opened ([openPaymentModal]) and submitted ([handleSubmitPayment]). *)
Definition recordPayment (loan : Loan) (today : Z)
    (paymentFormData : PaymentFormData)
    (st : ComponentState) (db : Database)
    : SubmitOutcome * ComponentState * Database :=
  let st := fetchRepayments loan today st db in
  let '(st, db) := openPaymentModal loan st db in
  handleSubmitPayment loan today paymentFormData st db.

(** Successive [recordPayment] calls, each with its clock and form. *)
Fixpoint recordPayments (loan : Loan)
    (proposals : list (Z * PaymentFormData))
    (st : ComponentState) (db : Database) : ComponentState * Database :=
  match proposals with
  | [] => (st, db)
  | (today, form) :: rest =>
      let '(_, st', db') := recordPayment loan today form st db in
      recordPayments loan rest st' db'
  end.

(** ** The analytics page *)

(** The [metrics] state of [AnalyticsPage]. *)
Record Metrics : Type := mkMetrics {
  activeLoans : nat;
  interestToBePaid : Q;
  totalPrincipal : Q;
  outstandingAmount : Q
}.

(** One turn of the [for (const loan of activeLoans)] loop of
    [fetchLoanMetrics] on the two running totals; [repaymentsOf] is the read
    of the loan's repayment table, [None] when the store reports an error
    (the loop then goes on to the next loan). *)
Definition metricsStep (repaymentsOf : Z -> option (list Repayment))
    (totals : Q * Q) (loan : Loan) : Q * Q :=
  let '(totalInterestToBePaid, totalOutstandingAmount) := totals in
  match repaymentsOf (id loan) with
  | None => (totalInterestToBePaid, totalOutstandingAmount)
  | Some table =>
      match Store.limit1 (Store.order_desc table) with
      | r0 :: _ =>
          let currentBalance := remaining_balance r0 in
          let dailyInterestRate := interest_rate loan / 100 / 365 in
          let projectedInterest := currentBalance * dailyInterestRate * 30 in
          (totalInterestToBePaid + projectedInterest,
           totalOutstandingAmount + currentBalance)
      | [] =>
          let dailyInterestRate := interest_rate loan / 100 / 365 in
          let projectedInterest := amount loan * dailyInterestRate * 30 in
          (totalInterestToBePaid + projectedInterest,
           totalOutstandingAmount + amount loan)
      end
  end.

(** [fetchLoanMetrics()] over the rows of the [loans] table. *)
Definition fetchLoanMetrics (loans : list Loan)
    (repaymentsOf : Z -> option (list Repayment)) : Metrics :=
  let activeLoans :=
    filter (fun loan => LoanStatus_eqb (status loan) Active) loans in
  let totalPrincipal :=
    fold_left (fun sum loan => sum + amount loan) activeLoans 0 in
  let '(totalInterestToBePaid, totalOutstandingAmount) :=
    fold_left (metricsStep repaymentsOf) activeLoans (0, 0) in
  mkMetrics (List.length activeLoans) totalInterestToBePaid totalPrincipal
    (totalOutstandingAmount + totalPrincipal).

(** ** Quantities the specification names *)

(** The most recent repayment by date. *)
Definition latestRepayment (table : list Repayment) : option Repayment :=
  hd_error (Store.order_desc table).

(** The current balance of a loan: the remaining balance of its most recent
    repayment, or the principal when it has none. *)
Definition currentBalance (loan : Loan) (table : list Repayment) : Q :=
  match latestRepayment table with
  | Some r => remaining_balance r
  | None => amount loan
  end.

(** The date a new repayment may not precede: that of the most recent
    repayment, or the loan's start date. *)
Definition mostRecentDate (loan : Loan) (table : list Repayment) : Z :=
  match latestRepayment table with
  | Some r => repayment_date r
  | None => start_date loan
  end.

(** The end of the loan's term: the start date moved by [term_months]. *)
Definition loanEndDate (loan : Loan) : Z :=
  JS.addMonths (start_date loan) (term_months loan).

(** Whether the payments of a history reach the principal. *)
Definition principalPaidOff (loan : Loan) (history : list Repayment) : bool :=
  Qle_bool (amount loan) (sumAmountPaid history).

(** [y] is [x] rounded to two decimal places: a whole number of hundredths
    at most half a hundredth away. *)
Definition rounded2 (x y : Q) : Prop :=
  (exists n : Z, y == inject_Z n / 100) /\ Qabs (y - x) <= 1 # 200.

(** A history in which no repayment is dated before an earlier-recorded one. *)
Definition date_le (a b : Repayment) : Prop :=
  (repayment_date a <= repayment_date b)%Z.

Definition dateSorted (table : list Repayment) : Prop :=
  StronglySorted date_le table.

(** The balance-chaining equation of a repayment [r] recorded after
    [history]. *)
Definition chainEquation (loan : Loan) (history : list Repayment)
    (r : Repayment) : Prop :=
  let previousBalance :=
    match rev history with
    | p :: _ => remaining_balance p
    | [] => amount loan
    end in
  if principalPaidOff loan history
  then remaining_balance r == Qmax 0 (previousBalance - amount_paid r)
  else remaining_balance r ==
       Qmax 0 (previousBalance - amount_paid r + interest_amount r).

(** Every repayment of [table] from position [n] on satisfies the chaining
    equation against the repayments recorded before it. *)
Definition chainedFrom (loan : Loan) (n : nat) (table : list Repayment) : Prop :=
  forall i r, (n <= i)%nat -> nth_error table i = Some r ->
    chainEquation loan (firstn i table) r.

(** The rank of a status in [active -> principal paid -> finished]. *)
Definition statusRank (s : LoanStatus) : Z :=
  match s with
  | Active => 0
  | PrincipalPaid => 1
  | Finished => 2
  end.

(** The sum of a list of amounts. *)
Definition sumQ (l : list Q) : Q := fold_right Qplus 0 l.

(** ** Concrete loans and payments used in the examples *)

Module Scenario.

(** 2025-01-01T00:00:00Z. *)
Definition D0 : Z := (JS.days_from_civil 2025 1 1 * JS.msPerDay)%Z.

Definition day (n : Z) : Z := (D0 + n * JS.msPerDay)%Z.

(** Principal 10000 at 12% for 12 months from [D0]. *)
Definition loanA : Loan := mkLoan 1 10000 12 12 D0 Active.

(** A payment of 2000 thirty days after [D0]. *)
Definition formA : PaymentFormData := mkForm 2000 "Cash" (day 30) "".

(** The store of a loan that has no repayment yet. *)
Definition emptyDb : Database := mkDb Active [].

(** A repayment table that starts with an opening row: nothing paid, the
    principal as the balance, dated at the start of the loan. *)
Definition openingRow (loan : Loan) : Repayment :=
  mkRepayment (start_date loan) 0 0 (amount loan) "System" "".

Definition openedDb (loan : Loan) : Database := mkDb Active [openingRow loan].

End Scenario.

Module Scenario1.

(** Scenario A's payment, then 3000 sixty days after the start. *)
Definition proposals : list (Z * PaymentFormData) :=
  [(Scenario.day 30, Scenario.formA);
   (Scenario.day 60, mkForm 3000 "UPI" (Scenario.day 60) "")].

End Scenario1.

Module Scenario4.



End Scenario4.

Module Scenario5.

(** Principal 1000 at 36.5%: the daily rate is one thousandth. *)
Definition loanP : Loan := mkLoan 3 1000 (365 # 10) 12 Scenario.D0 Active.

(** The whole principal paid a hundred days after the start: a hundred of
    interest stays as the balance. *)
Definition formP : PaymentFormData :=
  mkForm 1000 "Cash" (Scenario.day 100) "".

Definition dbP : Database :=
  snd (recordPayment loanP (Scenario.day 100) formP initialState
         (Scenario.openedDb loanP)).

End Scenario5.

Module Scenario7.

(** Principal 1000 without interest. *)
Definition loanZ : Loan := mkLoan 4 1000 0 12 Scenario.D0 Active.

(** The whole principal, ten days after the start. *)
Definition formZ : PaymentFormData :=
  mkForm 1000 "Cash" (Scenario.day 10) "".

(** The dialog records the payment... *)
Definition afterPayment : SubmitOutcome * ComponentState * Database :=
  recordPayment loanZ (Scenario.day 10) formZ initialState
    (Scenario.openedDb loanZ).

(** ... and, still showing the same [loan] prop, has "Record New Payment"
    clicked again. *)
Definition afterSecondClick : ComponentState * Database :=
  clickRecordNewPayment loanZ (snd (fst afterPayment)) (snd afterPayment).

(** Principal 50 without interest, no repayment yet. *)
Definition loanS : Loan := mkLoan 5 50 0 12 Scenario.D0 Active.

(** The dialog shows the loan, "Mark as Finished" is clicked... *)
Definition afterMarking : ComponentState * Database :=
  clickMarkAsFinished loanS (Scenario.day 10)
    (fetchRepayments loanS (Scenario.day 10) initialState Scenario.emptyDb)
    Scenario.emptyDb.

(** ... and then, on the same [loan] prop, "Record New Payment". *)
Definition afterMarkingThenClick : ComponentState * Database :=
  clickRecordNewPayment loanS (fst afterMarking) (snd afterMarking).

End Scenario7.

Module Scenario8.

(** On the loan of [Scenario5], whose principal is paid and whose balance
    is 100: 40 paid ten days later. *)
Definition proposals : list (Z * PaymentFormData) :=
  [(Scenario.day 110, mkForm 40 "Cash" (Scenario.day 110) "")].

End Scenario8.

(** A read in descending date order: no row is dated after a row before
    it. *)
Definition date_ge (a b : Repayment) : Prop :=
  (repayment_date b <= repayment_date a)%Z.

(** * JavaScript numbers as IEEE 754 doubles

    The interest computations again, on binary64 values: every [/] and [*]
    rounds to the nearest double, ties to even, and [toFixed(2)] rounds the
    exact value of the double it is given.  The day count and the product
    are computed as the source computes them; only the time values are
    integers ([getTime()] is an integer below 2^53 in magnitude, so their
    difference is rounded once, by [ofZ]). *)

Module F64.

Definition prec : Z := 53.
Definition emax : Z := 1024.

(** The double nearest to an integer: the integer itself below 2^53. *)
Definition ofZ (n : Z) : spec_float := binary_normalize prec emax n 0 false.

(** [x * y] and [x / y] on numbers. *)
Definition mul (x y : spec_float) : spec_float := SFmul prec emax x y.
Definition div (x y : spec_float) : spec_float := SFdiv prec emax x y.

(** The double nearest to [num / den], with sign [s]: what reading a decimal
    literal or a [numeric] column gives. *)
Definition ofRatio (s : bool) (num den : positive) : spec_float :=
  let '(mz, ez, lz) :=
    SFdiv_core_binary prec emax (Zpos num) 0 (Zpos den) 0 in
  binary_round_aux prec emax s mz ez lz.

Definition ofQ (q : Q) : spec_float :=
  match Qnum q with
  | Z0 => S754_zero false
  | Zpos n => ofRatio false n (Qden q)
  | Zneg n => ofRatio true n (Qden q)
  end.

(** [2 ^ e]. *)
Definition pow2 (e : Z) : Q :=
  match e with
  | Z0 => 1
  | Zpos p => inject_Z (Z.pow_pos 2 p)
  | Zneg p => / inject_Z (Z.pow_pos 2 p)
  end.

(** The exact absolute value of the finite double with mantissa [m] and
    exponent [e]. *)
Definition magnitude (m : positive) (e : Z) : Q := inject_Z (Zpos m) * pow2 e.

Definition isFinite (x : spec_float) : bool :=
  match x with
  | S754_zero _ | S754_finite _ _ _ => true
  | _ => false
  end.

Definition isZero (x : spec_float) : bool :=
  match x with
  | S754_zero _ => true
  | _ => false
  end.

(** The sign bit; [false] for [NaN]. *)
Definition isNegative (x : spec_float) : bool :=
  match x with
  | S754_zero s | S754_infinity s | S754_finite s _ _ => s
  | S754_nan => false
  end.

(** [Math.ceil]. *)
Definition Math_ceil (x : spec_float) : spec_float :=
  match x with
  | S754_finite s m e =>
      binary_normalize prec emax
        (Qceiling (if s then - magnitude m e else magnitude m e)) 0 s
  | _ => x
  end.

(** The integer [n] that [toFixed(2)] prints as [n / 100]: the one with
    [n / 100] closest to the exact value, the larger one at a tie. *)
Definition hundredths (m : positive) (e : Z) : Z :=
  Qfloor (magnitude m e * 100 + (1 # 2)).

(** [parseFloat] of the digits of [n] hundredths with sign [s]. *)
Definition ofHundredths (s : bool) (n : Z) : spec_float :=
  match n with
  | Zpos p => ofRatio s p 100
  | _ => S754_zero s
  end.

(** [parseFloat(x.toFixed(2))].  From 10^21 on, and for [NaN] and the
    infinities, [toFixed] prints the number itself. *)
Definition toFixed2 (x : spec_float) : spec_float :=
  match x with
  | S754_finite s m e =>
      if Qle_bool (inject_Z (10 ^ 21)) (magnitude m e) then x
      else ofHundredths s (hundredths m e)
  | S754_zero _ => S754_zero false
  | _ => x
  end.

(** The two fields of a [Repayment] that [calculateInterest] reads. *)
Record Repayment : Type := mkRepayment {
  repayment_date : Z;
  remaining_balance : spec_float
}.

(** [Math.ceil(Math.abs(a - b) / (1000 * 60 * 60 * 24))]. *)
Definition diffDays (a b : Z) : spec_float :=
  let diffTime := ofZ (JS.Math_abs (a - b)) in
  Math_ceil (div diffTime (ofZ JS.msPerDay)).

(** Whether two numbers are the same double. *)
Definition eqb (x y : spec_float) : bool :=
  match x, y with
  | S754_zero a, S754_zero b => Bool.eqb a b
  | S754_infinity a, S754_infinity b => Bool.eqb a b
  | S754_nan, S754_nan => true
  | S754_finite a m e, S754_finite b m' e' =>
      Bool.eqb a b && Pos.eqb m m' && Z.eqb e e'
  | _, _ => false
  end.

(** Whether two dates [n] whole days apart are counted as [n] days. *)
Definition countsWholeDays (n : Z) : bool :=
  eqb (diffDays (n * JS.msPerDay) 0) (ofZ n).

(** [count] consecutive day counts from [start] on. *)
Fixpoint daysFrom (start : Z) (count : nat) : list Z :=
  match count with
  | O => []
  | S k => start :: daysFrom (start + 1) k
  end.

(** The day counts from 0 to 36525, a century. *)
Definition centuryOfDays : list Z := daysFrom 0 (Z.to_nat 36526).

(** [calculateInterest(previousRepayment, currentRepaymentDate, interestRate)]. *)
Definition calculateInterest (st : ComponentState)
    (previousRepayment : Repayment) (currentRepaymentDate : Z)
    (interestRate : spec_float) : spec_float :=
  if isPrincipalPaid st then S754_zero false
  else
    let prevDate := repayment_date previousRepayment in
    let currentDate := currentRepaymentDate in
    let diffTime := ofZ (JS.Math_abs (currentDate - prevDate)) in
    let diffDays := Math_ceil (div diffTime (ofZ JS.msPerDay)) in
    let dailyInterestRate := div (div interestRate (ofZ 100)) (ofZ 365) in
    let interestAmount :=
      mul (mul (remaining_balance previousRepayment) dailyInterestRate)
        diffDays in
    toFixed2 interestAmount.

(** The projection of [fetchRepayments]:
    [parseFloat((remainingBalance * dailyInterestRate * 30).toFixed(2))]. *)
Definition projectedInterest (remainingBalance interest_rate : spec_float)
    : spec_float :=
  let dailyInterestRate := div (div interest_rate (ofZ 100)) (ofZ 365) in
  let projected := mul (mul remainingBalance dailyInterestRate) (ofZ 30) in
  toFixed2 projected.

End F64.

Module ScenarioTie.

(** A previous balance of 1934.50; at 5% over 31 days the interest is
    exactly 8.215. *)
Definition previous : F64.Repayment :=
  F64.mkRepayment Scenario.D0 (F64.ofQ (19345 # 10)).

Definition previousExact : Repayment :=
  mkRepayment Scenario.D0 0 0 (19345 # 10) "Cash" "".

End ScenarioTie.

(** * The dialog in its host environment

    The handlers once more, with what the environment decides made
    explicit: the rows the store returns for the two ordered reads of a
    repayment table ([None] when it reports an error; the order among rows
    of equal date is the store's), and [Date.prototype.setMonth], which
    works in the browser's local time zone.  The form of the payment dialog
    is filled by change events before it is submitted. *)

Record Host : Type := mkHost {
  (** [.select('*').order('repayment_date', { ascending: true })] *)
  selectAscending : list Repayment -> option (list Repayment);
  (** [.select('*').order('repayment_date', { ascending: false })] *)
  selectDescending : list Repayment -> option (list Repayment);
  (** [d.setMonth(d.getMonth() + k)] on a time value, in local time *)
  addMonths : Z -> Z -> Z
}.

(** The host of the first part of this file: reads succeed and are stable
    on recording order, reversed for the descending one. *)
Definition stableHost (monthsLater : Z -> Z -> Z) : Host :=
  mkHost (fun t => Some (Store.order_asc t))
         (fun t => Some (Store.order_desc t))
         monthsLater.

Module Hosted.

(** The argument of [validatePaymentInput]: the field and its value, the
    amount after [parseFloat] ([None] is [NaN]). *)
Inductive Field : Type :=
| AmountField (value : option Q)
| DateField (value : Z).

(** The change events of the payment form: the input's [id] and its
    [value], the amount after [parseFloat]. *)
Inductive ChangeEvent : Type :=
| AmountPaidInput (value : option Q)
| RepaymentDateInput (value : Z)
| NotesInput (value : string).

(** What the user does in the payment form before submitting it. *)
Inductive Action : Type :=
| Change (e : ChangeEvent)
| PickMethod (method : string).

(** [fetchRepayments(loanData)], run at time [today]. *)
Definition fetchRepayments (host : Host) (loanData : Loan) (today : Z)
    (st : ComponentState) (db : Database) : ComponentState :=
  match selectDescending host (repayment_table db) with
  | None => st
  | Some data =>
      let st := setRepayments st data in
      match data with
      | lastRepayment :: _ =>
          let st := setDaysSinceLastRepayment st
                      (diffDays today (repayment_date lastRepayment)) in
          let remainingBalance := remaining_balance lastRepayment in
          let projected :=
            remainingBalance * dailyInterestRate (interest_rate loanData) * 30 in
          let st := setProjectedInterest st (JS.toFixed2 projected) in
          setRemainingBalance st (remaining_balance lastRepayment)
      | [] =>
          let st := setDaysSinceLastRepayment st 0%Z in
          let st := setProjectedInterest st 0 in
          setRemainingBalance st (amount loanData)
      end
  end.

(** The effect on [[isOpen, loan?.id]]: the dialog is shown for [loan].
    The component and its state cells are the ones that showed the loan
    before. *)
Definition openDialog (host : Host) (loan : Loan) (today : Z)
    (st : ComponentState) (db : Database) : ComponentState :=
  let st := setRepayments st [] in
  fetchRepayments host loan today st db.

(** The form [openPaymentModal] resets [paymentFormData] to. *)
Definition blankForm (today : Z) : PaymentFormData :=
  mkForm 0 "Cash" (todayDate today) "".

(** [openPaymentModal()]. *)
Definition openPaymentModal (host : Host) (loan : Loan)
    (st : ComponentState) (db : Database) : ComponentState * Database :=
  let st := setSubmitError st None in
  let st := setSubmitSuccess st false in
  let st := setValidationErrors st (mkErrors NoAmountError NoDateError) in
  match selectAscending host (repayment_table db) with
  | None => (st, db)
  | Some data =>
      let '(total, st) :=
        match data with
        | _ :: _ =>
            let total := sumAmountPaid data in
            let st := setTotalAmountPaid st total in
            let latestRepayment := last data (mkRepayment 0 0 0 0 "" "") in
            (total, setRemainingBalance st (remaining_balance latestRepayment))
        | [] => (0, setRemainingBalance st (amount loan))
        end in
      let st := setRemainingPrincipal st (JS.Math_max 0 (amount loan - total)) in
      let isPaid := Qle_bool (amount loan) total in
      let st := setIsPrincipalPaid st isPaid in
      if isPaid && LoanStatus_eqb (status loan) Active
      then (st, updateLoanStatus db PrincipalPaid)
      else (st, db)
  end.

(** [validatePaymentInput(field, value)]: the verdict and the [newErrors]
    it passes to [setValidationErrors].  Both comparisons are false on
    [NaN]. *)
Definition validatePaymentInput (host : Host) (loan : Loan)
    (st : ComponentState) (field : Field) : bool * ValidationErrors :=
  let newErrors := validationErrors st in
  match field with
  | AmountField None =>
      (true, mkErrors NoAmountError (dateError newErrors))
  | AmountField (Some amountValue) =>
      if Qle_bool amountValue 0
      then (false, mkErrors AmountMustBePositive (dateError newErrors))
      else if JS.Qlt_bool (remainingBalance st) amountValue
      then (false, mkErrors (AmountExceedsBalance (remainingBalance st))
                     (dateError newErrors))
      else (true, mkErrors NoAmountError (dateError newErrors))
  | DateField selectedDate =>
      let startDate := start_date loan in
      let mostRecentRepaymentDate :=
        match repayments st with
        | r0 :: _ => repayment_date r0
        | [] => startDate
        end in
      let endDate := addMonths host startDate (term_months loan) in
      if (selectedDate <? mostRecentRepaymentDate)%Z
      then (false, mkErrors (amountError newErrors)
                     (DateBeforePrevious mostRecentRepaymentDate))
      else if (endDate <? selectedDate)%Z
      then (false, mkErrors (amountError newErrors) (DateExceedsTerm endDate))
      else (true, mkErrors (amountError newErrors) NoDateError)
  end.

(** [handleChange(e)] on the form's contents and the state: the field is
    stored ([parseFloat(value) || 0] for the number input) and the amount
    and the date are validated as they are typed. *)
Definition handleChange (host : Host) (loan : Loan) (e : ChangeEvent)
    (paymentFormData : PaymentFormData) (st : ComponentState)
    : PaymentFormData * ComponentState :=
  match e with
  | AmountPaidInput value =>
      let parsed :=
        match value with
        | Some v => if Qeq_bool v 0 then 0 else v
        | None => 0
        end in
      (mkForm parsed (paymentMethod paymentFormData)
         (repaymentDate paymentFormData) (form_notes paymentFormData),
       setValidationErrors st
         (snd (validatePaymentInput host loan st (AmountField value))))
  | RepaymentDateInput value =>
      (mkForm (amountPaid paymentFormData) (paymentMethod paymentFormData)
         value (form_notes paymentFormData),
       setValidationErrors st
         (snd (validatePaymentInput host loan st (DateField value))))
  | NotesInput value =>
      (mkForm (amountPaid paymentFormData) (paymentMethod paymentFormData)
         (repaymentDate paymentFormData) value,
       st)
  end.

(** [handlePaymentMethodChange(method)]. *)
Definition handlePaymentMethodChange (method : string)
    (paymentFormData : PaymentFormData) : PaymentFormData :=
  mkForm (amountPaid paymentFormData) method
    (repaymentDate paymentFormData) (form_notes paymentFormData).

(** [handleSubmitPayment(e)], run at time [today].  When the read of the
    latest repayment fails, the message is the source's prefix; the store's
    own message, which the source appends, is left out. *)
Definition handleSubmitPayment (host : Host) (loan : Loan) (today : Z)
    (paymentFormData : PaymentFormData)
    (st : ComponentState) (db : Database)
    : SubmitOutcome * ComponentState * Database :=
  let '(isAmountValid, _) :=
    validatePaymentInput host loan st
      (AmountField (Some (amountPaid paymentFormData))) in
  let '(isDateValid, newErrors) :=
    validatePaymentInput host loan st
      (DateField (repaymentDate paymentFormData)) in
  let st := setValidationErrors st newErrors in
  if negb isAmountValid || negb isDateValid
  then (ValidationRejected, st, db)
  else
    let st := setSubmitError st None in
    match selectDescending host (repayment_table db) with
    | None =>
        (SubmitFailed "Error fetching latest repayment",
         setSubmitError st (Some "Error fetching latest repayment"%string),
         db)
    | Some data =>
        match Store.limit1 data with
        | [] =>
            (SubmitFailed "No previous repayment record found",
             setSubmitError st
               (Some "No previous repayment record found"%string),
             db)
        | previousRepayment :: _ =>
            let interestAmount :=
              calculateInterest st previousRepayment
                (repaymentDate paymentFormData) (interest_rate loan) in
            let newRemainingBalance :=
              if isPrincipalPaid st
              then remaining_balance previousRepayment
                   - amountPaid paymentFormData
              else remaining_balance previousRepayment
                   - amountPaid paymentFormData + interestAmount in
            let newTotalPaid :=
              totalAmountPaid st + amountPaid paymentFormData in
            let willPrincipalBePaid :=
              negb (isPrincipalPaid st)
              && Qle_bool (amount loan) newTotalPaid in
            let '(st, db) :=
              if willPrincipalBePaid
              then (setIsPrincipalPaid st true,
                    updateLoanStatus db PrincipalPaid)
              else (st, db) in
            let db :=
              if Qle_bool newRemainingBalance 0
              then updateLoanStatus db Finished
              else db in
            let r :=
              mkRepayment (repaymentDate paymentFormData)
                (amountPaid paymentFormData)
                interestAmount
                (JS.Math_max 0 newRemainingBalance)
                (paymentMethod paymentFormData)
                (form_notes paymentFormData) in
            let db := Store.insert db r in
            let st := setSubmitSuccess st true in
            let st := fetchRepayments host loan today st db in
            (Recorded r, st, db)
        end
    end.

(** [handleMarkAsFinished()], run at time [today]. *)
Definition handleMarkAsFinished (host : Host) (loan : Loan) (today : Z)
    (st : ComponentState) (db : Database) : ComponentState * Database :=
  let db := updateLoanStatus db Finished in
  if JS.Qlt_bool 0 (remainingBalance st)
  then
    let db :=
      Store.insert db
        (mkRepayment (todayDate today) (remainingBalance st) 0 0 "System"
           "Loan marked as finished (balance less than ₹100)") in
    (fetchRepayments host loan today st db, db)
  else (st, db).

(** A click on "Mark as Finished": the handler runs when the button is
    there. *)
Definition clickMarkAsFinished (host : Host) (loan : Loan) (today : Z)
    (st : ComponentState) (db : Database) : ComponentState * Database :=
  if markAsFinishedOffered loan st
  then handleMarkAsFinished host loan today st db
  else (st, db).

(** One action on the form's contents and the state. *)
Definition act (host : Host) (loan : Loan)
    (fs : PaymentFormData * ComponentState) (a : Action)
    : PaymentFormData * ComponentState :=
  match a with
  | Change e => handleChange host loan e (fst fs) (snd fs)
  | PickMethod method => (handlePaymentMethodChange method (fst fs), snd fs)
  end.

(** The actions in turn. *)
Definition fill (host : Host) (loan : Loan) (actions : list Action)
    (fs : PaymentFormData * ComponentState)
    : PaymentFormData * ComponentState :=
  fold_left (act host loan) actions fs.

(** Whether an action leaves the amount field alone. *)
Definition keepsAmount (a : Action) : bool :=
  match a with
  | Change (AmountPaidInput _) => false
  | _ => true
  end.

(** Recording one payment, as the dialog sequences it: the dialog shows the
    loan ([openDialog]), the payment form is opened ([openPaymentModal]),
    filled in, and submitted ([handleSubmitPayment]). *)
Definition recordPayment (host : Host) (loan : Loan) (today : Z)
    (actions : list Action)
    (st : ComponentState) (db : Database)
    : SubmitOutcome * ComponentState * Database :=
  let st := openDialog host loan today st db in
  let '(st, db) := openPaymentModal host loan st db in
  let '(paymentFormData, st) := fill host loan actions (blankForm today, st) in
  handleSubmitPayment host loan today paymentFormData st db.

End Hosted.

Module Scenario6.

(** On the loan of scenario A, thirty days after its start: an amount of
    20000 is typed, twice the balance, a payment method is picked, and a
    date one day before the opening row is typed. *)
Definition actions : list Hosted.Action :=
  [Hosted.Change (Hosted.AmountPaidInput (Some 20000));
   Hosted.PickMethod "UPI";
   Hosted.Change (Hosted.RepaymentDateInput (Scenario.day (-1)))].

End Scenario6.

Module ScenarioSameDay.

(** A store that returns rows of equal date in the order they were
    recorded, whichever the direction of the read. *)
Definition host : Host :=
  mkHost (fun t => Some (Store.order_asc t))
         (fun t => Some (Store.order_desc_stable t))
         JS.addMonths.

(** On the loan of scenario A: 2000 paid on the day the loan starts, the
    date of the opening row... *)
Definition first : SubmitOutcome * ComponentState * Database :=
  Hosted.recordPayment host Scenario.loanA (Scenario.day 0)
    [Hosted.Change (Hosted.AmountPaidInput (Some 2000));
     Hosted.Change (Hosted.RepaymentDateInput Scenario.D0)]
    initialState (Scenario.openedDb Scenario.loanA).

(** ... then 1000 thirty days later. *)
Definition second : SubmitOutcome * ComponentState * Database :=
  Hosted.recordPayment host Scenario.loanA (Scenario.day 30)
    [Hosted.Change (Hosted.AmountPaidInput (Some 1000));
     Hosted.Change (Hosted.RepaymentDateInput (Scenario.day 30))]
    (snd (fst first)) (snd first).

End ScenarioSameDay.

Module ScenarioStale.

(** Principal 100000 at 12%, nothing paid yet. *)
Definition loanB : Loan := mkLoan 6 100000 12 12 Scenario.D0 Active.

Definition dbB : Database := Scenario.openedDb loanB.

(** A store whose reads of the repayment table fail. *)
Definition failing : Host :=
  mkHost (fun _ => None) (fun _ => None) JS.addMonths.

(** The dialog shows the loan of principal 50 without repayments... *)
Definition showingS : ComponentState :=
  Hosted.openDialog (stableHost JS.addMonths) Scenario7.loanS
    (Scenario.day 10) initialState Scenario.emptyDb.

(** ... is then shown for [loanB] while the read of its table fails... *)
Definition showingB : ComponentState :=
  Hosted.openDialog failing loanB (Scenario.day 10) showingS dbB.

(** ... and "Mark as Finished" is clicked. *)
Definition afterClick : ComponentState * Database :=
  Hosted.clickMarkAsFinished failing loanB (Scenario.day 10) showingB dbB.

End ScenarioStale.

(** * The other modules: reminders, one-time codes, sessions, the loan form *)

(** A JavaScript string as the sequence of its UTF-16 code units: [length]
    is the length of the list and [===] is equality of lists. *)
Definition jsstring : Type := list N.

(** The JavaScript string of an ASCII literal. *)
Definition js (s : string) : jsstring :=
  map Ascii.N_of_ascii (list_ascii_of_string s).

(** [a === b] on strings. *)
Fixpoint str_eqb (a b : jsstring) : bool :=
  match a, b with
  | [], [] => true
  | x :: a', y :: b' => N.eqb x y && str_eqb a' b'
  | _, _ => false
  end.

(** [s.includes('@')]. *)
Definition includesAt (s : jsstring) : bool := existsb (N.eqb 64) s.

(** ** Payment reminders ([/api/reminders/send]) *)

Module Reminders.

(** [calculateRemainingDays(dueDateStr)], run at time [today]. *)
Definition calculateRemainingDays (dueDate today : Z) : Z :=
  let diffTime := (dueDate - today)%Z in
  JS.Math_ceil (inject_Z diffTime / inject_Z JS.msPerDay).

End Reminders.

(** ** One-time codes ([lib/otp]) *)

Module Otp.

(** A row of the [otps] table ([created_at] left out). *)
Record OtpRow : Type := mkOtpRow {
  email : jsstring;
  otp : jsstring;
  expires_at : Z
}.

Definition OTP_EXPIRY_MINUTES : Z := 10.

(** [.from('otps').select('*').eq('email', email).single()]: the row when
    exactly one matches; no row or several rows is the store's error. *)
Definition selectSingle (otps : list OtpRow) (e : jsstring) : option OtpRow :=
  match filter (fun row => str_eqb (email row) e) otps with
  | [row] => Some row
  | _ => None
  end.

(** [.from('otps').delete().eq('email', email)]. *)
Definition deleteByEmail (otps : list OtpRow) (e : jsstring) : list OtpRow :=
  filter (fun row => negb (str_eqb (email row) e)) otps.

(** [checkExistingValidOTP(email)], run at time [now]. *)
Definition checkExistingValidOTP (otps : list OtpRow) (e : jsstring)
    (now : Z) : bool :=
  match selectSingle otps e with
  | None => false
  | Some data => (now <? expires_at data)%Z
  end.

(** How [storeOTP] answers (its store calls succeed here). *)
Inductive StoreResult : Type :=
| UsingExisting
| Stored.

(** [storeOTP(email, otp)], run at time [now]; [setMinutes] adds ten
    minutes to the time value. *)
Definition storeOTP (otps : list OtpRow) (e o : jsstring) (now : Z)
    : StoreResult * list OtpRow :=
  let expiresAt := (now + OTP_EXPIRY_MINUTES * 60000)%Z in
  let hasExisting := checkExistingValidOTP otps e now in
  if hasExisting
  then (UsingExisting, otps)
  else (Stored, deleteByEmail otps e ++ [mkOtpRow e o expiresAt]).

(** [verifyOTP(email, otpAttempt)], run at time [now]. *)
Definition verifyOTP (otps : list OtpRow) (e otpAttempt : jsstring)
    (now : Z) : bool * list OtpRow :=
  match selectSingle otps e with
  | None => (false, otps)
  | Some data =>
      let expiresAt := expires_at data in
      if (expiresAt <? now)%Z
      then (false, deleteByEmail otps e)
      else
        let isValid := str_eqb (otp data) otpAttempt in
        if isValid
        then (true, deleteByEmail otps e)
        else (false, otps)
  end.

(** [requestOTP(email)], run at time [now]: [generated] is what
    [generateOTP()] returned and [sendOk] is the answer of [sendOTPEmail].
    The result is the [success] field, the code that was mailed, and the
    table. *)
Definition requestOTP (otps : list OtpRow) (e generated : jsstring)
    (now : Z) (sendOk : bool) : bool * jsstring * list OtpRow :=
  let otp := generated in
  let '(_, otps) := storeOTP otps e otp now in
  (sendOk, otp, otps).

End Otp.

(** ** Sessions ([/api/otp/verify], [/api/auth/check-session],
    [/api/auth/logout]) *)

Module Session.

(** A row of the [user_sessions] table ([created_at] left out). *)
Record SessionRow : Type := mkSessionRow {
  email : jsstring;
  session_id : jsstring;
  expires_at : Z;
  verified : bool
}.

(** What a route handler works on: the two tables and the request's
    [session_id] cookie. *)
Record World : Type := mkWorld {
  otps : list Otp.OtpRow;
  user_sessions : list SessionRow;
  cookie : option jsstring
}.

(** [.from('user_sessions').select('*').eq('session_id', v).single()]. *)
Definition selectSingle (sessions : list SessionRow) (v : jsstring)
    : option SessionRow :=
  match filter (fun row => str_eqb (session_id row) v) sessions with
  | [row] => Some row
  | _ => None
  end.

(** [.from('user_sessions').delete().eq('session_id', v)]. *)
Definition deleteById (sessions : list SessionRow) (v : jsstring)
    : list SessionRow :=
  filter (fun row => negb (str_eqb (session_id row) v)) sessions.

(** The answers of the verification route. *)
Inductive VerifyResponse : Type :=
| EmailRequired            (* 400 'Valid email is required' *)
| OtpRequired              (* 400 'Valid 6-digit OTP is required' *)
| InvalidOrExpired         (* 401 'Invalid or expired OTP' *)
| Verified (email : jsstring).  (* 200, redirectUrl '/dashboard' *)

(** [POST /api/otp/verify] with body [{ email, otp }], run at time [now];
    [sessionId] is what [Math.random().toString(36).substring(2, 15)]
    returned.  [setDate(getDate() + 1)] adds a day to the time value. *)
Definition verifyPOST (w : World) (e o : jsstring) (sessionId : jsstring)
    (now : Z) : VerifyResponse * World :=
  if match e with [] => true | _ => false end || negb (includesAt e)
  then (EmailRequired, w)
  else if match o with [] => true | _ => false end
          || negb (Nat.eqb (List.length o) 6)
  then (OtpRequired, w)
  else
    let '(isValid, otps') := Otp.verifyOTP (otps w) e o now in
    if negb isValid
    then (InvalidOrExpired, mkWorld otps' (user_sessions w) (cookie w))
    else
      let expiresAt := (now + JS.msPerDay)%Z in
      (Verified e,
       mkWorld otps'
         (user_sessions w ++ [mkSessionRow e sessionId expiresAt true])
         (Some sessionId)).

(** The answers of the session check. *)
Inductive CheckResponse : Type :=
| NoSessionCookie
| InvalidSession
| SessionExpired
| Authenticated (email : jsstring) (verified : bool).

(** [GET /api/auth/check-session], run at time [now]. *)
Definition checkSessionGET (w : World) (now : Z) : CheckResponse * World :=
  match cookie w with
  | None => (NoSessionCookie, w)
  | Some value =>
      match selectSingle (user_sessions w) value with
      | None => (InvalidSession, w)
      | Some data =>
          if (expires_at data <? now)%Z
          then (SessionExpired,
                mkWorld (otps w) (deleteById (user_sessions w) value)
                  (cookie w))
          else (Authenticated (email data) (verified data), w)
      end
  end.

(** [POST /api/auth/logout]. *)
Definition logoutPOST (w : World) : World :=
  match cookie w with
  | Some value =>
      mkWorld (otps w) (deleteById (user_sessions w) value) None
  | None => w
  end.

End Session.

(** ** The loan form ([LoanFormDialog]) *)

Module LoanForm.

(** [interface LoanFormData]. *)
Record LoanFormData : Type := mkLoanFormData {
  firstName : jsstring;
  lastName : jsstring;
  amount : Q;
  interestRate : Q;
  termMonths : Q;
  startDate : jsstring;
  paymentMethod : jsstring;
  notes : jsstring
}.

(** The row [handleSubmit] inserts into [loans]. *)
Record LoanRow : Type := mkLoanRow {
  first_name : jsstring;
  last_name : jsstring;
  row_amount : Q;
  interest_rate : Q;
  term_months : Q;
  start_date : jsstring;
  payment_method : jsstring;
  row_notes : jsstring
}.

(** The messages [handleSubmit] throws. *)
Inductive FormError : Type :=
| NamesRequired       (* "First name and last name are required" *)
| AmountNotPositive   (* "Loan amount must be greater than zero" *)
| RateNegative        (* "Interest rate cannot be negative" *)
| TermNotPositive     (* "Loan term must be greater than zero" *)
| StartDateRequired.  (* "Start date is required" *)

(** [!s] on a string. *)
Definition isEmpty (s : jsstring) : bool :=
  match s with [] => true | _ => false end.

(** [handleSubmit(e)] on the [loans] table: the error it shows, if any, and
    the table. *)
Definition handleSubmit (loans : list LoanRow) (formData : LoanFormData)
    : option FormError * list LoanRow :=
  if isEmpty (firstName formData) || isEmpty (lastName formData)
  then (Some NamesRequired, loans)
  else if Qle_bool (amount formData) 0
  then (Some AmountNotPositive, loans)
  else if JS.Qlt_bool (interestRate formData) 0
  then (Some RateNegative, loans)
  else if Qle_bool (termMonths formData) 0
  then (Some TermNotPositive, loans)
  else if isEmpty (startDate formData)
  then (Some StartDateRequired, loans)
  else
    (None,
     loans ++ [mkLoanRow (firstName formData) (lastName formData)
                 (amount formData) (interestRate formData)
                 (termMonths formData) (startDate formData)
                 (paymentMethod formData) (notes formData)]).

End LoanForm.

(** ** Requesting a code ([/api/otp/request], [isAuthorizedEmail]) and the
    route guard ([middleware]) *)

Module Request.

(** The code units that [String.prototype.trim] strips: white space and
    line terminators. *)
Definition isWhiteSpace (c : N) : bool :=
  (N.eqb c 9 || N.eqb c 10 || N.eqb c 11 || N.eqb c 12 || N.eqb c 13
   || N.eqb c 32 || N.eqb c 160 || N.eqb c 5760
   || (N.leb 8192 c && N.leb c 8202)
   || N.eqb c 8232 || N.eqb c 8233 || N.eqb c 8239 || N.eqb c 8287
   || N.eqb c 12288 || N.eqb c 65279)%bool.

Fixpoint trimStart (s : jsstring) : jsstring :=
  match s with
  | c :: s' => if isWhiteSpace c then trimStart s' else s
  | [] => []
  end.

(** [s.trim()]. *)
Definition trim (s : jsstring) : jsstring :=
  rev (trimStart (rev (trimStart s))).

(** [s.split(',')]. *)
Fixpoint split_comma (s : jsstring) : list jsstring :=
  match s with
  | [] => [[]]
  | c :: s' =>
      if N.eqb c 44
      then [] :: split_comma s'
      else match split_comma s' with
           | piece :: pieces => (c :: piece) :: pieces
           | [] => [[c]]
           end
  end.

(** What the handlers read from outside: [String.prototype.toLowerCase] and
    the two environment variables ([None] when not set). *)
Record Env : Type := mkEnv {
  toLowerCase : jsstring -> jsstring;
  NEXT_PUBLIC_AUTHORIZED_EMAILS : option jsstring;
  AUTHORIZED_EMAILS : option jsstring
}.

(** [a || b] on two values that are a string or [undefined]. *)
Definition orElse (a : option jsstring) (b : jsstring) : jsstring :=
  match a with
  | Some (c :: s) => c :: s
  | _ => b
  end.

(** [env.split(',').map(e => e.trim().toLowerCase()).filter(e => e.length > 0)]. *)
Definition normalizedList (env : Env) (authorizedEmailsEnv : jsstring)
    : list jsstring :=
  filter (fun e => negb (Nat.eqb (List.length e) 0))
    (map (fun e => toLowerCase env (trim e)) (split_comma authorizedEmailsEnv)).

(** [isAuthorizedEmail(email)] of [lib/supabase]. *)
Definition isAuthorizedEmail (env : Env) (email : jsstring) : bool :=
  match email with
  | [] => false
  | _ =>
      let normalizedEmail := toLowerCase env (trim email) in
      let authorizedEmailsEnv :=
        orElse (NEXT_PUBLIC_AUTHORIZED_EMAILS env)
          (orElse (AUTHORIZED_EMAILS env) []) in
      let authorizedEmails := normalizedList env authorizedEmailsEnv in
      existsb (str_eqb normalizedEmail) authorizedEmails
  end.

(** [serverCheckAuthorizedEmail(email)] of the request route. *)
Definition serverCheckAuthorizedEmail (env : Env) (email : jsstring) : bool :=
  match email with
  | [] => false
  | _ =>
      let normalizedEmail := toLowerCase env (trim email) in
      let authorizedEmails :=
        normalizedList env (orElse (AUTHORIZED_EMAILS env) []) in
      existsb (str_eqb normalizedEmail) authorizedEmails
      || str_eqb normalizedEmail (js "stoicgreek2006@gmail.com")
  end.

Definition RATE_LIMIT_WINDOW_MS : Z := 30000.

(** The route's module state and the [otps] table: [rateLimitMap] as the
    function from an email to the time of its last accepted request. *)
Record State : Type := mkState {
  rateLimitMap : jsstring -> option Z;
  otps : list Otp.OtpRow
}.

(** [rateLimitMap.set(email, now)]. *)
Definition setLimit (m : jsstring -> option Z) (email : jsstring) (now : Z)
    : jsstring -> option Z :=
  fun k => if str_eqb k email then Some now else m k.

(** The answers of the request route; [Sent] carries the code that was
    mailed. *)
Inductive Response : Type :=
| EmailRequired          (* 400 'Valid email is required' *)
| NotAuthorized          (* 403 'Email not authorized' *)
| AlreadySent            (* 200 'OTP was already sent. ...' *)
| TooManyRequests        (* 429 'Too many requests. ...' *)
| SendFailed (mailed : jsstring)   (* 500 'Failed to send OTP' *)
| Sent (mailed : jsstring).        (* 200 'OTP sent to ...' *)

(** [POST /api/otp/request] with body [{ email }], run at time [now];
    [generated] is what [generateOTP()] returns and [sendOk] the answer of
    [sendOTPEmail] if they are called. *)
Definition POST (env : Env) (st : State) (email : jsstring) (now : Z)
    (generated : jsstring) (sendOk : bool) : Response * State :=
  let email := trim email in
  if match email with [] => true | _ => false end || negb (includesAt email)
  then (EmailRequired, st)
  else
    let isAuthorized :=
      isAuthorizedEmail env email || serverCheckAuthorizedEmail env email
      || str_eqb (toLowerCase env email) (js "stoicgreek2006@gmail.com") in
    if negb isAuthorized
    then (NotAuthorized, st)
    else
      let lastRequest := rateLimitMap st email in
      if match lastRequest with
         | Some last =>
             negb (Z.eqb last 0) && (now - last <? RATE_LIMIT_WINDOW_MS)%Z
         | None => false
         end
      then
        let hasValidOTP := Otp.checkExistingValidOTP (otps st) email now in
        if hasValidOTP then (AlreadySent, st) else (TooManyRequests, st)
      else
        let limits := setLimit (rateLimitMap st) email now in
        let '(success, mailed, otps') :=
          Otp.requestOTP (otps st) email generated now sendOk in
        if negb success
        then (SendFailed mailed, mkState limits otps')
        else (Sent mailed, mkState limits otps').

(** A request as the route guard sees it. *)
Inductive Decision : Type :=
| Next
| RedirectToVerify (redirect : jsstring).

(** [path.startsWith(prefix)]. *)
Fixpoint startsWith (path prefix : jsstring) : bool :=
  match prefix, path with
  | [], _ => true
  | c :: prefix', d :: path' => N.eqb c d && startsWith path' prefix'
  | _ :: _, [] => false
  end.

Definition PROTECTED_PATHS : list jsstring := [js "/dashboard"].

(** [middleware(request)]: [path] is [request.nextUrl.pathname] and
    [sessionCookie] the request's [session_id] cookie, if it has one. *)
Definition middleware (path : jsstring) (sessionCookie : option jsstring)
    : Decision :=
  let isProtectedPath :=
    existsb (fun protectedPath =>
               str_eqb path protectedPath
               || startsWith path (protectedPath ++ js "/"))
      PROTECTED_PATHS in
  if negb isProtectedPath
  then Next
  else
    let hasSession :=
      match sessionCookie with Some _ => true | None => false end in
    if negb hasSession
    then RedirectToVerify path
    else Next.

End Request.

Module Scenario21.

(** The allowlist holds one address; lower-casing is not needed for it. *)
Definition env : Request.Env :=
  Request.mkEnv (fun s => s) None (Some (js "a@b.c")).

(** Nobody has asked for a code yet. *)
Definition st0 : Request.State := Request.mkState (fun _ => None) [].

(** A first request at time 1000 is accepted and mails "123456". *)
Definition st1 : Request.State :=
  snd (Request.POST env st0 (js " a@b.c ") 1000 (js "123456") true).

End Scenario21.

(** ** Lemmas on the JavaScript primitives *)

Lemma Qlt_bool_iff (a b : Q) : JS.Qlt_bool a b = true <-> a < b.
Proof.
  unfold JS.Qlt_bool. rewrite negb_true_iff.
  destruct (Qle_bool b a) eqn:E.
  - apply Qle_bool_iff in E. split; [discriminate | intro H; lra].
  - split; [intros _ | reflexivity].
    destruct (Qlt_le_dec a b) as [H | H]; [exact H |].
    apply Qle_bool_iff in H. congruence.
Qed.

Lemma Qlt_bool_false_iff (a b : Q) : JS.Qlt_bool a b = false <-> b <= a.
Proof.
  unfold JS.Qlt_bool. rewrite negb_false_iff. apply Qle_bool_iff.
Qed.

Lemma Qle_bool_false_iff (a b : Q) : Qle_bool a b = false <-> b < a.
Proof.
  destruct (Qle_bool a b) eqn:E.
  - apply Qle_bool_iff in E. split; [discriminate | lra].
  - split; [intros _ | reflexivity].
    destruct (Qlt_le_dec b a) as [H | H]; [exact H |].
    apply Qle_bool_iff in H. congruence.
Qed.

Lemma round_half_up_close (x : Q) :
  Qabs (inject_Z (Qfloor (x * 100 + (1 # 2))) / 100 - x) <= 1 # 200.
Proof.
  pose proof (Qfloor_le (x * 100 + (1 # 2))) as Hlo.
  pose proof (Qlt_floor (x * 100 + (1 # 2))) as Hhi.
  rewrite inject_Z_plus in Hhi. change (inject_Z 1) with 1 in Hhi.
  set (n := inject_Z (Qfloor (x * 100 + (1 # 2)))) in *.
  assert (n / 100 == n * (1 # 100)) as E by field.
  apply Qabs_case; intros _; rewrite E; lra.
Qed.

Lemma toFixed2_rounded (x : Q) : rounded2 x (JS.toFixed2 x).
Proof.
  unfold rounded2, JS.toFixed2.
  destruct (JS.Qlt_bool x 0) eqn:E; split.
  - exists (- Qfloor (- x * 100 + (1 # 2)))%Z.
    rewrite inject_Z_opp. field.
  - pose proof (round_half_up_close (- x)) as H.
    rewrite <- Qabs_opp.
    assert (- (- (inject_Z (Qfloor (- x * 100 + (1 # 2))) / 100) - x)
            == inject_Z (Qfloor (- x * 100 + (1 # 2))) / 100 - - x) as ->
      by ring.
    exact H.
  - eexists. reflexivity.
  - apply round_half_up_close.
Qed.

Lemma toFixed2_zero (x : Q) : x == 0 -> JS.toFixed2 x == 0.
Proof.
  intro H. unfold JS.toFixed2.
  assert (JS.Qlt_bool x 0 = false) as ->
    by (apply Qlt_bool_false_iff; lra).
  assert (Qfloor (x * 100 + (1 # 2)) = 0%Z) as ->.
  { assert (x * 100 + (1 # 2) == 1 # 2) as E by lra.
    assert (Qfloor (x * 100 + (1 # 2)) <= Qfloor (1 # 2))%Z
      by (apply Qfloor_resp_le; lra).
    assert (Qfloor (1 # 2) <= Qfloor (x * 100 + (1 # 2)))%Z
      by (apply Qfloor_resp_le; lra).
    change (Qfloor (1 # 2)) with 0%Z in *. lia. }
  reflexivity.
Qed.

Lemma diffDays_bounds (a b : Z) :
  (0 <= diffDays a b)%Z
  /\ (Z.abs (a - b) <= diffDays a b * JS.msPerDay)%Z
  /\ ((diffDays a b - 1) * JS.msPerDay < Z.abs (a - b))%Z.
Proof.
  unfold diffDays, JS.Math_ceil, JS.Math_abs.
  set (t := Z.abs (a - b)).
  assert (0 <= t)%Z as Ht by apply Z.abs_nonneg.
  assert (0 < JS.msPerDay)%Z as Hm by reflexivity.
  set (m := JS.msPerDay) in *.
  set (q := inject_Z t / inject_Z m).
  pose proof (Qle_ceiling q) as Hup.
  pose proof (Qceiling_lt q) as Hlo.
  set (c := Qceiling q) in *.
  assert (0 < inject_Z m) as Hmq
    by (change 0 with (inject_Z 0); rewrite <- Zlt_Qlt; exact Hm).
  assert (inject_Z t == q * inject_Z m) as Hq
    by (unfold q; field; lra).
  assert (0 <= inject_Z t) as Htq
    by (change 0 with (inject_Z 0); rewrite <- Zle_Qle; exact Ht).
  assert (inject_Z t <= inject_Z (c * m)) as H1.
  { rewrite inject_Z_mult, Hq. apply Qmult_le_compat_r; lra. }
  assert (inject_Z ((c - 1) * m) < inject_Z t) as H2.
  { rewrite inject_Z_mult, Hq. apply Qmult_lt_compat_r; lra. }
  rewrite <- Zle_Qle in H1. rewrite <- Zlt_Qlt in H2.
  repeat split; [| exact H1 | exact H2].
  destruct (Z_lt_le_dec c 0) as [Hneg | Hpos]; [| exact Hpos].
  exfalso. nia.
Qed.

Lemma diffDays_sym (a b : Z) : diffDays a b = diffDays b a.
Proof.
  unfold diffDays, JS.Math_abs.
  replace (b - a)%Z with (- (a - b))%Z by lia.
  now rewrite Z.abs_opp.
Qed.

Lemma diffDays_same (a : Z) : diffDays a a = 0%Z.
Proof.
  unfold diffDays, JS.Math_abs. rewrite Z.sub_diag. reflexivity.
Qed.

(** ** Lemmas on the store's ordered reads *)

Lemma insert_by_date_nonempty (r : Repayment) (l : list Repayment) :
  Store.insert_by_date r l <> [].
Proof. destruct l as [| x l]; simpl; [| destruct (_ <? _)%Z]; discriminate. Qed.

Lemma order_asc_snoc (t : list Repayment) (r : Repayment) :
  Store.order_asc (t ++ [r]) = Store.insert_by_date r (Store.order_asc t).
Proof. unfold Store.order_asc. now rewrite fold_left_app. Qed.

Lemma order_asc_nil_iff (t : list Repayment) : Store.order_asc t = [] <-> t = [].
Proof.
  split; [| now intros ->].
  destruct t as [| x t] using rev_ind; [reflexivity |].
  rewrite order_asc_snoc. intro H. now apply insert_by_date_nonempty in H.
Qed.

Lemma order_desc_nil_iff (t : list Repayment) : Store.order_desc t = [] <-> t = [].
Proof.
  split; [| now intros ->].
  unfold Store.order_desc. intro H. apply order_asc_nil_iff.
  destruct (Store.order_asc t) as [| x l]; [reflexivity |].
  simpl in H. symmetry in H. now apply app_cons_not_nil in H.
Qed.

Lemma insert_by_date_last (r : Repayment) (l : list Repayment) :
  Forall (fun x => date_le x r) l -> Store.insert_by_date r l = l ++ [r].
Proof.
  induction 1 as [| x l Hx _ IH]; simpl; [reflexivity |].
  unfold date_le in Hx.
  destruct (repayment_date r <? repayment_date x)%Z eqn:E.
  - apply Z.ltb_lt in E. lia.
  - now rewrite IH.
Qed.

Lemma dateSorted_snoc (t : list Repayment) (r : Repayment) :
  dateSorted (t ++ [r]) <-> dateSorted t /\ Forall (fun x => date_le x r) t.
Proof.
  unfold dateSorted. induction t as [| x t IH]; simpl.
  - split; [intros _ | intros _]; repeat constructor.
  - split.
    + intro H. inversion H as [| ? ? Hs Hf]; subst.
      apply IH in Hs as [Hs Hr].
      apply Forall_app in Hf as [Hf Hxr].
      split; constructor; auto. now inversion Hxr.
    + intros [Hs Hf]. inversion Hs as [| ? ? Hs' Hf']; subst.
      inversion Hf as [| ? ? Hxr Hf'']; subst.
      constructor; [apply IH; now split |].
      apply Forall_app. split; [assumption | now constructor].
Qed.

Lemma order_asc_sorted (t : list Repayment) :
  dateSorted t -> Store.order_asc t = t.
Proof.
  induction t as [| r t IH] using rev_ind; [reflexivity |].
  intro H. apply dateSorted_snoc in H as [Hs Hf].
  rewrite order_asc_snoc, (IH Hs). now apply insert_by_date_last.
Qed.

Lemma latestRepayment_sorted_snoc (t : list Repayment) (p : Repayment) :
  dateSorted (t ++ [p]) -> latestRepayment (t ++ [p]) = Some p.
Proof.
  intro H. unfold latestRepayment, Store.order_desc.
  rewrite (order_asc_sorted _ H), rev_app_distr. reflexivity.
Qed.

Lemma latestRepayment_none_iff (t : list Repayment) :
  latestRepayment t = None <-> t = [].
Proof.
  unfold latestRepayment. rewrite <- order_desc_nil_iff.
  destruct (Store.order_desc t); simpl; split; congruence.
Qed.

Lemma last_hd_rev (l : list Repayment) (d : Repayment) :
  last l d = hd d (rev l).
Proof.
  destruct l as [| x l] using rev_ind; [reflexivity |].
  now rewrite last_last, rev_app_distr.
Qed.

Lemma limit1_order_desc (t : list Repayment) :
  Store.limit1 (Store.order_desc t) =
  match latestRepayment t with Some r => [r] | None => [] end.
Proof.
  unfold latestRepayment, Store.limit1.
  now destruct (Store.order_desc t).
Qed.

(** ** What the handlers leave in the component state *)

Lemma fetchRepayments_repayments loan today st db :
  repayments (fetchRepayments loan today st db)
  = Store.order_desc (repayment_table db).
Proof.
  unfold fetchRepayments. now destruct (Store.order_desc (repayment_table db)).
Qed.

Lemma fetchRepayments_remainingBalance loan today st db :
  remainingBalance (fetchRepayments loan today st db)
  = currentBalance loan (repayment_table db).
Proof.
  unfold fetchRepayments, currentBalance, latestRepayment.
  now destruct (Store.order_desc (repayment_table db)).
Qed.

Lemma openPaymentModal_state loan st db :
  let st' := fst (openPaymentModal loan st db) in
  repayments st' = repayments st
  /\ remainingBalance st' = currentBalance loan (repayment_table db)
  /\ isPrincipalPaid st'
     = principalPaidOff loan (Store.order_asc (repayment_table db))
  /\ (repayment_table db <> [] ->
      totalAmountPaid st' = sumAmountPaid (Store.order_asc (repayment_table db))).
Proof.
  unfold openPaymentModal, currentBalance, latestRepayment, principalPaidOff,
    Store.order_desc.
  destruct (Store.order_asc (repayment_table db)) as [| x l] eqn:E.
  - apply (proj1 (order_asc_nil_iff _)) in E.
    destruct (Qle_bool (amount loan) 0 && _); simpl; repeat split;
      congruence.
  - assert (hd_error (rev (x :: l)) = Some (last (x :: l) (mkRepayment 0 0 0 0 "" "")))
      as ->.
    { rewrite last_hd_rev. destruct (rev (x :: l)) eqn:R; [| reflexivity].
      apply (f_equal (@List.length _)) in R. rewrite length_rev in R.
      discriminate. }
    destruct (Qle_bool (amount loan) (sumAmountPaid (x :: l)) && _);
      cbn -[last sumAmountPaid]; repeat split.
Qed.

Lemma openPaymentModal_table loan st db :
  repayment_table (snd (openPaymentModal loan st db)) = repayment_table db.
Proof.
  unfold openPaymentModal.
  destruct (Store.order_asc (repayment_table db));
    match goal with |- context [if ?c then _ else _] => destruct c end;
    reflexivity.
Qed.

(** ** The verdicts of [validatePaymentInput] *)

Lemma validate_amount_iff loan st a :
  fst (validatePaymentInput loan st (AmountField a)) = false
  <-> a <= 0 \/ remainingBalance st < a.
Proof.
  simpl. destruct (Qle_bool a 0) eqn:E1; simpl.
  - apply Qle_bool_iff in E1. tauto.
  - destruct (JS.Qlt_bool (remainingBalance st) a) eqn:E2; simpl.
    + apply Qlt_bool_iff in E2. tauto.
    + apply Qlt_bool_false_iff in E2.
      split; [discriminate |].
      intros [H | H]; [| lra].
      apply Qle_bool_iff in H. congruence.
Qed.

Lemma validate_date_iff loan st d :
  fst (validatePaymentInput loan st (DateField d)) = false
  <-> (d < match repayments st with
           | r0 :: _ => repayment_date r0
           | [] => start_date loan
           end)%Z
      \/ (loanEndDate loan < d)%Z.
Proof.
  unfold loanEndDate. simpl.
  set (m := match repayments st with _ :: _ => _ | [] => _ end).
  destruct (d <? m)%Z eqn:E1; simpl.
  - apply Z.ltb_lt in E1. tauto.
  - apply Z.ltb_ge in E1.
    destruct (_ <? d)%Z eqn:E2; simpl.
    + apply Z.ltb_lt in E2. tauto.
    + apply Z.ltb_ge in E2. split; [discriminate | lia].
Qed.

(** ** The three ways [handleSubmitPayment] ends *)

Lemma handleSubmitPayment_rejected loan today form st db :
  fst (validatePaymentInput loan st (AmountField (amountPaid form))) = false
  \/ fst (validatePaymentInput loan st (DateField (repaymentDate form))) = false ->
  exists st', handleSubmitPayment loan today form st db
              = (ValidationRejected, st', db).
Proof.
  intro H. unfold handleSubmitPayment.
  destruct (validatePaymentInput loan st (AmountField _)) as [va ea].
  destruct (validatePaymentInput loan st (DateField _)) as [vd ed].
  simpl in H.
  assert (negb va || negb vd = true) as ->
    by (destruct H as [-> | ->]; [reflexivity | apply orb_true_r]).
  eexists. reflexivity.
Qed.

Lemma handleSubmitPayment_no_previous loan today form st db :
  fst (validatePaymentInput loan st (AmountField (amountPaid form))) = true ->
  fst (validatePaymentInput loan st (DateField (repaymentDate form))) = true ->
  repayment_table db = [] ->
  exists st', handleSubmitPayment loan today form st db
              = (SubmitFailed "No previous repayment record found", st', db).
Proof.
  intros Ha Hd Ht. unfold handleSubmitPayment.
  destruct (validatePaymentInput loan st (AmountField _)) as [va ea].
  destruct (validatePaymentInput loan st (DateField _)) as [vd ed].
  simpl in Ha, Hd. subst va vd. rewrite Ht. simpl.
  eexists. reflexivity.
Qed.

Lemma handleSubmitPayment_recorded loan today form st db p :
  fst (validatePaymentInput loan st (AmountField (amountPaid form))) = true ->
  fst (validatePaymentInput loan st (DateField (repaymentDate form))) = true ->
  latestRepayment (repayment_table db) = Some p ->
  let interestAmount :=
    calculateInterest st p (repaymentDate form) (interest_rate loan) in
  let newRemainingBalance :=
    if isPrincipalPaid st
    then remaining_balance p - amountPaid form
    else remaining_balance p - amountPaid form + interestAmount in
  let r :=
    mkRepayment (repaymentDate form) (amountPaid form) interestAmount
      (JS.Math_max 0 newRemainingBalance) (paymentMethod form)
      (form_notes form) in
  exists st',
    handleSubmitPayment loan today form st db
    = (Recorded r, st',
       mkDb (if Qle_bool newRemainingBalance 0 then Finished
             else if negb (isPrincipalPaid st)
                     && Qle_bool (amount loan)
                          (totalAmountPaid st + amountPaid form)
                  then PrincipalPaid
                  else loan_status db)
            (repayment_table db ++ [r])).
Proof.
  intros Ha Hd Hp. unfold handleSubmitPayment.
  destruct (validatePaymentInput loan st (AmountField _)) as [va ea].
  destruct (validatePaymentInput loan st (DateField _)) as [vd ed].
  simpl in Ha, Hd. subst va vd.
  rewrite limit1_order_desc, Hp.
  cbn [negb orb].
  destruct (negb (isPrincipalPaid (setSubmitError (setValidationErrors st ed) None))
            && Qle_bool (amount loan)
                 (totalAmountPaid (setSubmitError (setValidationErrors st ed) None)
                  + amountPaid form)) eqn:W;
    cbn [isPrincipalPaid totalAmountPaid setSubmitError setValidationErrors] in W;
    rewrite W;
    unfold calculateInterest;
    cbn [isPrincipalPaid totalAmountPaid setSubmitError setValidationErrors
         setIsPrincipalPaid remaining_balance];
    destruct (isPrincipalPaid st);
    try discriminate W;
    match goal with |- context [Qle_bool ?x 0] => destruct (Qle_bool x 0) end;
    eexists; reflexivity.
Qed.

(** ** The state [recordPayment] submits from *)

Lemma recordPayment_eq loan today form st db :
  recordPayment loan today form st db
  = handleSubmitPayment loan today form
      (fst (openPaymentModal loan (fetchRepayments loan today st db) db))
      (snd (openPaymentModal loan (fetchRepayments loan today st db) db)).
Proof.
  unfold recordPayment.
  now destruct (openPaymentModal loan (fetchRepayments loan today st db) db).
Qed.

Lemma recordPayment_synced loan today st db :
  let st0 := fst (openPaymentModal loan (fetchRepayments loan today st db) db) in
  repayments st0 = Store.order_desc (repayment_table db)
  /\ remainingBalance st0 = currentBalance loan (repayment_table db)
  /\ isPrincipalPaid st0
     = principalPaidOff loan (Store.order_asc (repayment_table db))
  /\ (repayment_table db <> [] ->
      totalAmountPaid st0 = sumAmountPaid (Store.order_asc (repayment_table db))).
Proof.
  intro st0.
  destruct (openPaymentModal_state loan (fetchRepayments loan today st db) db)
    as (H1 & H2 & H3 & H4).
  fold st0 in H1, H2, H3, H4.
  rewrite fetchRepayments_repayments in H1. auto.
Qed.

Lemma synced_mostRecentDate loan today st db :
  match repayments
          (fst (openPaymentModal loan (fetchRepayments loan today st db) db)) with
  | r0 :: _ => repayment_date r0
  | [] => start_date loan
  end = mostRecentDate loan (repayment_table db).
Proof.
  destruct (recordPayment_synced loan today st db) as (-> & _).
  unfold mostRecentDate, latestRepayment.
  now destruct (Store.order_desc (repayment_table db)).
Qed.

(** ** Interest accrual (C2) *)

(** The specification's scenario A: principal 10000 at 12%, 2000 paid
    thirty days after the start, gives 98.63 of interest and a balance of
    8098.63. *)
Example scenario_A :
  exists r,
    fst (fst (recordPayment Scenario.loanA (Scenario.day 30) Scenario.formA
                initialState (Scenario.openedDb Scenario.loanA)))
    = Recorded r
    /\ interest_amount r == 9863 # 100
    /\ remaining_balance r == 809863 # 100.
Proof. eexists. split; [vm_compute; reflexivity |]. split; reflexivity. Qed.

Lemma F64_magnitude_pos (m : positive) (e : Z) : 0 < F64.magnitude m e.
Proof.
  unfold F64.magnitude. apply Qmult_lt_0_compat; [reflexivity |].
  unfold F64.pow2. destruct e as [| p | p]; [reflexivity | |].
  - change 0 with (inject_Z 0). rewrite <- Zlt_Qlt.
    change (Z.pow_pos 2 p) with (2 ^ Z.pos p)%Z.
    apply Z.pow_pos_nonneg; lia.
  - apply Qinv_lt_0_compat. change 0 with (inject_Z 0). rewrite <- Zlt_Qlt.
    change (Z.pow_pos 2 p) with (2 ^ Z.pos p)%Z.
    apply Z.pow_pos_nonneg; lia.
Qed.

(** [toFixed(2)] of a finite double below 10^21 is the whole number of
    hundredths nearest to its exact value, the upper one at a tie. *)
Lemma F64_toFixed2_finite (s : bool) (m : positive) (e : Z) :
  F64.magnitude m e < inject_Z (10 ^ 21) ->
  let n := F64.hundredths m e in
  F64.toFixed2 (S754_finite s m e) = F64.ofHundredths s n
  /\ (0 <= n)%Z
  /\ inject_Z n / 100 - F64.magnitude m e <= 1 # 200
  /\ F64.magnitude m e - inject_Z n / 100 < 1 # 200.
Proof.
  intros Hlt n.
  pose proof (F64_magnitude_pos m e) as Hpos.
  split; [| split; [| split]].
  - cbn [F64.toFixed2].
    assert (Qle_bool (inject_Z (10 ^ 21)) (F64.magnitude m e) = false) as ->.
    { destruct (Qle_bool (inject_Z (10 ^ 21)) (F64.magnitude m e)) eqn:E;
        [| reflexivity].
      apply Qle_bool_iff in E. lra. }
    reflexivity.
  - unfold n, F64.hundredths. change 0%Z with (Qfloor 0).
    apply Qfloor_resp_le. lra.
  - unfold n, F64.hundredths.
    pose proof (Qfloor_le (F64.magnitude m e * 100 + (1 # 2))) as Hlo.
    set (k := inject_Z (Qfloor (F64.magnitude m e * 100 + (1 # 2)))) in *.
    assert (k / 100 == k * (1 # 100)) as E by field.
    rewrite E. lra.
  - unfold n, F64.hundredths.
    pose proof (Qlt_floor (F64.magnitude m e * 100 + (1 # 2))) as Hhi.
    rewrite inject_Z_plus in Hhi. change (inject_Z 1) with 1 in Hhi.
    set (k := inject_Z (Qfloor (F64.magnitude m e * 100 + (1 # 2)))) in *.
    assert (k / 100 == k * (1 # 100)) as E by field.
    rewrite E. lra.
Qed.

Lemma F64_diffDays_sym (a b : Z) : F64.diffDays a b = F64.diffDays b a.
Proof.
  unfold F64.diffDays, JS.Math_abs.
  replace (b - a)%Z with (- (a - b))%Z by lia.
  now rewrite Z.abs_opp.
Qed.

Lemma F64_diffDays_same (a : Z) : F64.diffDays a a = S754_zero false.
Proof.
  unfold F64.diffDays, JS.Math_abs. rewrite Z.sub_diag. reflexivity.
Qed.

Lemma F64_mul_zero (x : spec_float) :
  F64.isFinite x = true ->
  exists s, F64.mul x (S754_zero false) = S754_zero s.
Proof.
  destruct x as [s | s | | s m e]; try discriminate; intros _;
    eexists; reflexivity.
Qed.

(** Rounding keeps the sign it is given. *)
Lemma F64_round_sign (sx : bool) (mx ex : Z) (lx : location) :
  F64.isNegative (binary_round_aux F64.prec F64.emax sx mx ex lx) = false
  \/ F64.isNegative (binary_round_aux F64.prec F64.emax sx mx ex lx) = sx.
Proof.
  unfold binary_round_aux.
  destruct (shr_fexp F64.prec F64.emax mx ex lx) as [mrs' e'].
  destruct (shr_fexp F64.prec F64.emax _ e' loc_Exact) as [mrs'' e''].
  destruct (shr_m mrs''); [now right | | now left].
  destruct (e'' <=? _)%Z; now right.
Qed.

Lemma F64_normalize_sign (n : Z) :
  (0 <= n)%Z ->
  F64.isNegative (binary_normalize F64.prec F64.emax n 0 false) = false.
Proof.
  intro H. destruct n as [| p | p]; [reflexivity | | lia].
  unfold binary_normalize, binary_round.
  destruct (shl_align p 0 _) as [mz ez].
  destruct (F64_round_sign false (Z.pos mz) ez loc_Exact) as [-> | ->];
    reflexivity.
Qed.

(** The day count is never negative, whichever date comes first. *)
Lemma F64_diffDays_not_negative (a b : Z) :
  F64.isNegative (F64.diffDays a b) = false.
Proof.
  unfold F64.diffDays, JS.Math_abs.
  pose proof (F64_normalize_sign (Z.abs (a - b)) (Z.abs_nonneg _)) as Hx.
  fold (F64.ofZ (Z.abs (a - b))) in Hx.
  set (x := F64.ofZ (Z.abs (a - b))) in *.
  assert (exists m e, F64.ofZ JS.msPerDay = S754_finite false m e)
    as (m & e & ->)
    by (do 2 eexists; vm_compute; reflexivity).
  assert (F64.isNegative (F64.div x (S754_finite false m e)) = false) as Hq.
  { destruct x as [s | s | | s mx ex]; cbn [F64.isNegative] in Hx; subst;
      try reflexivity.
    unfold F64.div, SFdiv.
    destruct (SFdiv_core_binary _ _ _ _ _ _) as [[mz ez] lz].
    destruct (F64_round_sign (xorb false false) mz ez lz) as [-> | ->];
      reflexivity. }
  destruct (F64.div x (S754_finite false m e)) as [s | s | | s mq eq];
    cbn [F64.isNegative] in Hq; subst; try reflexivity.
  cbn [F64.Math_ceil]. apply F64_normalize_sign.
  pose proof (F64_magnitude_pos mq eq) as Hp.
  pose proof (Qle_ceiling (F64.magnitude mq eq)) as Hc.
  assert (0 < inject_Z (Qceiling (F64.magnitude mq eq))) as H0 by lra.
  change 0 with (inject_Z 0) in H0. rewrite <- Zlt_Qlt in H0. lia.
Qed.

Lemma F64_eqb_eq (x y : spec_float) : F64.eqb x y = true -> x = y.
Proof.
  destruct x as [a | a | | a m e], y as [b | b | | b m' e']; simpl;
    try discriminate; intro H.
  - now apply Bool.eqb_prop in H as ->.
  - now apply Bool.eqb_prop in H as ->.
  - reflexivity.
  - apply andb_true_iff in H as [H He]. apply andb_true_iff in H as [Hs Hm].
    apply Bool.eqb_prop in Hs as ->. apply Pos.eqb_eq in Hm as ->.
    now apply Z.eqb_eq in He as ->.
Qed.

Lemma F64_In_daysFrom (count : nat) : forall start n : Z,
  (start <= n < start + Z.of_nat count)%Z -> In n (F64.daysFrom start count).
Proof.
  induction count as [| k IH]; intros start n H; [lia |].
  cbn [F64.daysFrom]. destruct (Z.eq_dec start n) as [-> | Hne]; [now left |].
  right. apply IH. lia.
Qed.

Lemma F64_century_checked :
  forallb F64.countsWholeDays F64.centuryOfDays = true.
Proof. vm_compute. reflexivity. Qed.

(** Two dates a whole number of days apart, up to a century, are counted
    as that number of days: the division on doubles loses nothing. *)
Lemma F64_diffDays_whole (a b n : Z) :
  (0 <= n <= 36525)%Z ->
  Z.abs (a - b) = (n * JS.msPerDay)%Z ->
  F64.diffDays a b = F64.ofZ n.
Proof.
  intros Hn Hab.
  assert (F64.countsWholeDays n = true) as Hc.
  { pose proof F64_century_checked as H.
    rewrite forallb_forall in H. apply H.
    unfold F64.centuryOfDays. apply F64_In_daysFrom. lia. }
  apply F64_eqb_eq in Hc. rewrite <- Hc.
  unfold F64.diffDays, JS.Math_abs. rewrite Hab.
  replace (n * JS.msPerDay - 0)%Z with (n * JS.msPerDay)%Z by lia.
  rewrite Z.abs_eq; [reflexivity |].
  assert (0 < JS.msPerDay)%Z by reflexivity. nia.
Qed.

(** On doubles: scenario A's interest is 98.63; a balance of 1934.50 at 5%
    over 31 days, exactly 8.215 of interest, gives 8.21, the product of the
    doubles being just below the tie, where rounding the exact product
    gives 8.22; and a day count is the whole number of days begun. *)
Lemma calculateInterest_on_doubles :
  F64.calculateInterest initialState
    (F64.mkRepayment Scenario.D0 (F64.ofZ 10000)) (Scenario.day 30)
    (F64.ofZ 12)
  = F64.ofQ (9863 # 100)
  /\ F64.calculateInterest initialState ScenarioTie.previous (Scenario.day 31)
       (F64.ofZ 5)
     = F64.ofQ (821 # 100)
  /\ (19345 # 10) * (5 / 100 / 365) * 31 == 8215 # 1000
  /\ calculateInterest initialState ScenarioTie.previousExact
       (Scenario.day 31) 5
     == 822 # 100
  /\ F64.diffDays (Scenario.day 31) Scenario.D0 = F64.ofZ 31
  /\ F64.diffDays Scenario.D0 (Scenario.day 31) = F64.ofZ 31
  /\ F64.diffDays (Scenario.day 31 + 1) Scenario.D0 = F64.ofZ 32.
Proof. repeat split; vm_compute; reflexivity. Qed.

(** C2. [calculateInterest] (the specification's computeAccruedInterest),
    on JavaScript numbers, is a function of the principal-paid flag, the
    previous repayment, the target date and the rate alone.  It is 0 when
    the principal is paid off.  Otherwise it is [toFixed(2)] of the product
    of the previous remaining balance, the daily rate [rate / 100 / 365]
    and the day count, each operation being the one on doubles: when that
    product is a finite number below 10^21, the result is the whole number
    of hundredths nearest to the product's value, the upper one at a tie.
    The day count is the ceiling of the absolute time difference divided by
    the milliseconds of a day: it is the same for a back-dated target,
    never negative, the number of days itself when the two dates are a
    whole number of days apart (up to a century), and 0 for the same
    instant, in which case the interest is 0 (the balance times the daily
    rate being a finite number). *)
Theorem calculateInterest_accrual
    (st : ComponentState) (previousRepayment : F64.Repayment)
    (asOfDate : Z) (annualRatePercent : spec_float) :
  let previousDate := F64.repayment_date previousRepayment in
  let previousRemainingBalance := F64.remaining_balance previousRepayment in
  let days := F64.diffDays asOfDate previousDate in
  let dailyRate :=
    F64.div (F64.div annualRatePercent (F64.ofZ 100)) (F64.ofZ 365) in
  let product := F64.mul (F64.mul previousRemainingBalance dailyRate) days in
  let interest :=
    F64.calculateInterest st previousRepayment asOfDate annualRatePercent in
  (forall st', isPrincipalPaid st' = isPrincipalPaid st ->
     F64.calculateInterest st' previousRepayment asOfDate annualRatePercent
     = interest)
  /\ (isPrincipalPaid st = true -> interest = S754_zero false)
  /\ (isPrincipalPaid st = false ->
      interest = F64.toFixed2 product
      /\ (forall s m e,
            product = S754_finite s m e ->
            F64.magnitude m e < inject_Z (10 ^ 21) ->
            exists n : Z,
              interest = F64.ofHundredths s n
              /\ (0 <= n)%Z
              /\ inject_Z n / 100 - F64.magnitude m e <= 1 # 200
              /\ F64.magnitude m e - inject_Z n / 100 < 1 # 200)
      /\ (F64.isZero days = true ->
          F64.isFinite (F64.mul previousRemainingBalance dailyRate) = true ->
          interest = S754_zero false))
  /\ days
     = F64.Math_ceil
         (F64.div (F64.ofZ (Z.abs (asOfDate - previousDate)))
            (F64.ofZ JS.msPerDay))
  /\ F64.diffDays previousDate asOfDate = days
  /\ F64.isNegative days = false
  /\ (forall n : Z,
        (0 <= n <= 36525)%Z ->
        Z.abs (asOfDate - previousDate) = (n * JS.msPerDay)%Z ->
        days = F64.ofZ n)
  /\ (asOfDate = previousDate -> days = S754_zero false).
Proof.
  intros previousDate previousRemainingBalance days dailyRate product interest.
  split; [| split; [| split; [| split; [| split; [| split; [| split]]]]]].
  - intros st' E. unfold interest, F64.calculateInterest. now rewrite E.
  - intro E. unfold interest, F64.calculateInterest. now rewrite E.
  - intro E.
    assert (interest = F64.toFixed2 product) as Hi
      by (unfold interest, F64.calculateInterest; rewrite E; reflexivity).
    split; [exact Hi |]. split.
    + intros s m e Hp Hm. rewrite Hi, Hp.
      destruct (F64_toFixed2_finite s m e Hm) as (H1 & H2 & H3 & H4).
      eexists. split; [exact H1 |]. auto.
    + intros Hd Hf. rewrite Hi. unfold product.
      pose proof (F64_diffDays_not_negative asOfDate previousDate) as Hs.
      fold days in Hs.
      destruct days as [s | s | | s m e]; try discriminate Hd.
      cbn [F64.isNegative] in Hs. subst s.
      destruct (F64_mul_zero _ Hf) as [s ->]. reflexivity.
  - reflexivity.
  - apply F64_diffDays_sym.
  - apply F64_diffDays_not_negative.
  - intros n Hn Hab. now apply F64_diffDays_whole.
  - intros ->. apply F64_diffDays_same.
Qed.

(** ** Validation (C6) *)

(** At [stableHost JS.addMonths] the handlers are those of the first
    embedding. *)
Lemma stableHost_handlers loan today form st db a d :
  let host := stableHost JS.addMonths in
  Hosted.fetchRepayments host loan today st db
  = fetchRepayments loan today st db
  /\ Hosted.openDialog host loan today st db
     = fetchRepayments loan today st db
  /\ Hosted.openPaymentModal host loan st db = openPaymentModal loan st db
  /\ Hosted.validatePaymentInput host loan st (Hosted.AmountField (Some a))
     = validatePaymentInput loan st (AmountField a)
  /\ Hosted.validatePaymentInput host loan st (Hosted.DateField d)
     = validatePaymentInput loan st (DateField d)
  /\ Hosted.handleSubmitPayment host loan today form st db
     = handleSubmitPayment loan today form st db
  /\ Hosted.handleMarkAsFinished host loan today st db
     = handleMarkAsFinished loan today st db
  /\ Hosted.clickMarkAsFinished host loan today st db
     = clickMarkAsFinished loan today st db.
Proof.
  cbv zeta. repeat split.
Qed.

Lemma hosted_fetch_errors host loan today st db :
  validationErrors (Hosted.fetchRepayments host loan today st db)
  = validationErrors st.
Proof.
  unfold Hosted.fetchRepayments.
  destruct (selectDescending host (repayment_table db)) as [[| r l] |];
    reflexivity.
Qed.

Lemma hosted_act_state host loan fs a :
  exists errs, snd (Hosted.act host loan fs a) = setValidationErrors (snd fs) errs.
Proof.
  destruct fs as [f s]. destruct a as [[v | v | v] | m]; cbn [Hosted.act Hosted.handleChange fst snd].
  - eexists; reflexivity.
  - eexists; reflexivity.
  - exists (validationErrors s). now destruct s.
  - exists (validationErrors s). now destruct s.
Qed.

Lemma hosted_fill_state host loan actions : forall fs,
  exists errs,
    snd (Hosted.fill host loan actions fs) = setValidationErrors (snd fs) errs.
Proof.
  induction actions as [| a l IH]; intros fs.
  - exists (validationErrors (snd fs)). cbn. now destruct (snd fs).
  - cbn [Hosted.fill fold_left].
    destruct (IH (Hosted.act host loan fs a)) as [e2 E2].
    destruct (hosted_act_state host loan fs a) as [e1 E1].
    exists e2. unfold Hosted.fill in E2. rewrite E2, E1. reflexivity.
Qed.

Lemma hosted_fill_keeps host loan actions : forall fs,
  forallb Hosted.keepsAmount actions = true ->
  amountPaid (fst (Hosted.fill host loan actions fs)) = amountPaid (fst fs)
  /\ amountError (validationErrors (snd (Hosted.fill host loan actions fs)))
     = amountError (validationErrors (snd fs)).
Proof.
  induction actions as [| a l IH]; intros fs H; [split; reflexivity |].
  cbn [forallb] in H. apply andb_true_iff in H as [Ha Hl].
  cbn [Hosted.fill fold_left].
  destruct (IH (Hosted.act host loan fs a) Hl) as [E1 E2].
  unfold Hosted.fill in E1, E2. rewrite E1, E2.
  destruct fs as [f s].
  destruct a as [[v | v | v] | m]; try discriminate Ha;
    cbn [Hosted.act Hosted.handleChange Hosted.handlePaymentMethodChange
         fst snd amountPaid]; split; try reflexivity.
  cbn [Hosted.validatePaymentInput].
  repeat match goal with |- context [if ?c then _ else _] => destruct c end;
    reflexivity.
Qed.

Lemma hosted_validate_amount_iff host loan st a :
  fst (Hosted.validatePaymentInput host loan st (Hosted.AmountField (Some a)))
  = false
  <-> a <= 0 \/ remainingBalance st < a.
Proof.
  simpl. destruct (Qle_bool a 0) eqn:E1; simpl.
  - apply Qle_bool_iff in E1. tauto.
  - destruct (JS.Qlt_bool (remainingBalance st) a) eqn:E2; simpl.
    + apply Qlt_bool_iff in E2. tauto.
    + apply Qlt_bool_false_iff in E2.
      split; [discriminate |].
      intros [H | H]; [| lra].
      apply Qle_bool_iff in H. congruence.
Qed.

Lemma hosted_validate_date_iff host loan st d :
  fst (Hosted.validatePaymentInput host loan st (Hosted.DateField d)) = false
  <-> (d < match repayments st with
           | r0 :: _ => repayment_date r0
           | [] => start_date loan
           end)%Z
      \/ (addMonths host (start_date loan) (term_months loan) < d)%Z.
Proof.
  simpl.
  set (m := match repayments st with _ :: _ => _ | [] => _ end).
  destruct (d <? m)%Z eqn:E1; simpl.
  - apply Z.ltb_lt in E1. tauto.
  - apply Z.ltb_ge in E1.
    destruct (_ <? d)%Z eqn:E2; simpl.
    + apply Z.ltb_lt in E2. tauto.
    + apply Z.ltb_ge in E2. split; [discriminate | lia].
Qed.

Lemma hosted_submit_rejected_iff host loan today form st db :
  fst (fst (Hosted.handleSubmitPayment host loan today form st db))
  = ValidationRejected
  <-> fst (Hosted.validatePaymentInput host loan st
             (Hosted.AmountField (Some (amountPaid form)))) = false
      \/ fst (Hosted.validatePaymentInput host loan st
                (Hosted.DateField (repaymentDate form))) = false.
Proof.
  unfold Hosted.handleSubmitPayment.
  destruct (Hosted.validatePaymentInput host loan st (Hosted.AmountField _))
    as [va ea].
  destruct (Hosted.validatePaymentInput host loan st (Hosted.DateField _))
    as [vd ed].
  cbn [fst].
  destruct va, vd; cbn [negb orb fst];
    try (split; [auto | reflexivity]).
  split; [| intros [H | H]; discriminate H].
  destruct (selectDescending host (repayment_table db)) as [data |];
    [destruct (Store.limit1 data) |]; cbn [fst]; try discriminate.
  repeat match goal with
         | |- context [if ?c then _ else _] => destruct c
         end; cbn [fst]; discriminate.
Qed.

Lemma hosted_submit_rejected_db host loan today form st db :
  fst (fst (Hosted.handleSubmitPayment host loan today form st db))
  = ValidationRejected ->
  snd (Hosted.handleSubmitPayment host loan today form st db) = db.
Proof.
  intro H. apply hosted_submit_rejected_iff in H.
  unfold Hosted.handleSubmitPayment.
  destruct (Hosted.validatePaymentInput host loan st (Hosted.AmountField _))
    as [va ea].
  destruct (Hosted.validatePaymentInput host loan st (Hosted.DateField _))
    as [vd ed].
  cbn [fst] in H.
  assert (negb va || negb vd = true) as ->
    by (destruct H as [-> | ->]; [reflexivity | apply orb_true_r]).
  reflexivity.
Qed.

Lemma hosted_submit_errors host loan today form st db :
  validationErrors
    (snd (fst (Hosted.handleSubmitPayment host loan today form st db)))
  = snd (Hosted.validatePaymentInput host loan st
           (Hosted.DateField (repaymentDate form))).
Proof.
  unfold Hosted.handleSubmitPayment.
  destruct (Hosted.validatePaymentInput host loan st (Hosted.AmountField _))
    as [va ea].
  destruct (Hosted.validatePaymentInput host loan st (Hosted.DateField _))
    as [vd ed].
  destruct (negb va || negb vd); [reflexivity |].
  destruct (selectDescending host (repayment_table db)) as [data |];
    [destruct (Store.limit1 data) |]; try reflexivity.
  repeat match goal with
         | |- context [if ?c then _ else _] => destruct c
         end;
    cbn [fst snd]; rewrite hosted_fetch_errors; reflexivity.
Qed.

Lemma hosted_recordPayment_eq host loan today actions st db :
  Hosted.recordPayment host loan today actions st db
  = let opened :=
      Hosted.openPaymentModal host loan
        (Hosted.openDialog host loan today st db) db in
    let filled :=
      Hosted.fill host loan actions (Hosted.blankForm today, fst opened) in
    Hosted.handleSubmitPayment host loan today (fst filled) (snd filled)
      (snd opened).
Proof.
  unfold Hosted.recordPayment. cbv zeta.
  destruct (Hosted.openPaymentModal host loan _ db) as [s d].
  cbn [fst snd].
  now destruct (Hosted.fill host loan actions (Hosted.blankForm today, s)).
Qed.


Lemma hosted_opened host loan today st db ascending descending :
  selectAscending host (repayment_table db) = Some ascending ->
  selectDescending host (repayment_table db) = Some descending ->
  let opened :=
    Hosted.openPaymentModal host loan
      (Hosted.openDialog host loan today st db) db in
  repayments (fst opened) = descending
  /\ remainingBalance (fst opened)
     = match rev ascending with
       | latest :: _ => remaining_balance latest
       | [] => amount loan
       end
  /\ snd opened
     = if Qle_bool (amount loan) (sumAmountPaid ascending)
          && LoanStatus_eqb (status loan) Active
       then updateLoanStatus db PrincipalPaid
       else db.
Proof.
  intros Ha Hd. cbv zeta.
  unfold Hosted.openPaymentModal, Hosted.openDialog, Hosted.fetchRepayments.
  rewrite Ha, Hd.
  destruct ascending as [| x l].
  - change (sumAmountPaid []) with 0. cbn [rev].
    destruct (Qle_bool (amount loan) 0 && _); destruct descending;
      repeat split.
  - assert (match rev (x :: l) with
            | latest :: _ => remaining_balance latest
            | [] => amount loan
            end
            = remaining_balance (last (x :: l) (mkRepayment 0 0 0 0 "" "")))
      as ->.
    { rewrite last_hd_rev. destruct (rev (x :: l)) eqn:R; [| reflexivity].
      apply (f_equal (@List.length _)) in R. rewrite length_rev in R.
      discriminate. }
    destruct (Qle_bool (amount loan) (sumAmountPaid (x :: l)) && _);
      destruct descending; cbn -[last sumAmountPaid]; repeat split.
Qed.

(** C6. [recordPayment]: the dialog shows the loan, the payment form is
    opened, filled in and submitted, the last edit of the amount field
    having entered a number (the field is [required], so the form cannot
    be submitted with the amount untouched).  Whatever the store's two reads
    return and whatever the time zone, the submission ends in the
    validation failure exactly when the amount is not positive, exceeds the
    current remaining balance (that of the last row of the ascending read,
    the principal when there is none), the date precedes the most recent
    repayment (the first row of the descending read; the start date when
    there is none), or the date is past the start date moved by the term.
    The dialog then shows each failing field its own message: the amount
    message is the one the typing left, which the submit does not rewrite,
    the date message is written by the submit.  A submission that fails
    validation leaves the store as [openPaymentModal] left it: no repayment
    is inserted, and the status is the stored one, or 'principal paid' if
    [openPaymentModal] found the principal paid on an 'active' loan. *)
Theorem recordPayment_validation
    (host : Host) (loan : Loan) (today : Z)
    (before after : list Hosted.Action) (typed : Q)
    (st : ComponentState) (db : Database)
    (ascending descending : list Repayment) :
  let table := repayment_table db in
  let actions :=
    before ++ Hosted.Change (Hosted.AmountPaidInput (Some typed)) :: after in
  let opened :=
    Hosted.openPaymentModal host loan
      (Hosted.openDialog host loan today st db) db in
  let form :=
    fst (Hosted.fill host loan actions (Hosted.blankForm today, fst opened)) in
  let a := amountPaid form in
  let d := repaymentDate form in
  let balance :=
    match rev ascending with
    | latest :: _ => remaining_balance latest
    | [] => amount loan
    end in
  let previous :=
    match descending with
    | latest :: _ => repayment_date latest
    | [] => start_date loan
    end in
  let endDate := addMonths host (start_date loan) (term_months loan) in
  let result := Hosted.recordPayment host loan today actions st db in
  let errors := validationErrors (snd (fst result)) in
  selectAscending host table = Some ascending ->
  selectDescending host table = Some descending ->
  forallb Hosted.keepsAmount after = true ->
  a == typed
  /\ (fst (fst result) = ValidationRejected
      <-> a <= 0 \/ balance < a \/ (d < previous)%Z \/ (endDate < d)%Z)
  /\ amountError errors
     = (if Qle_bool a 0 then AmountMustBePositive
        else if JS.Qlt_bool balance a then AmountExceedsBalance balance
        else NoAmountError)
  /\ dateError errors
     = (if (d <? previous)%Z then DateBeforePrevious previous
        else if (endDate <? d)%Z then DateExceedsTerm endDate
        else NoDateError)
  /\ (amountError errors <> NoAmountError <-> a <= 0 \/ balance < a)
  /\ (dateError errors <> NoDateError
      <-> (d < previous)%Z \/ (endDate < d)%Z)
  /\ (fst (fst result) = ValidationRejected ->
      snd result = snd opened
      /\ repayment_table (snd result) = table
      /\ loan_status (snd result)
         = if Qle_bool (amount loan) (sumAmountPaid ascending)
              && LoanStatus_eqb (status loan) Active
           then PrincipalPaid
           else loan_status db)
  /\ (forall form0 st0 db0,
        fst (fst (Hosted.handleSubmitPayment host loan today form0 st0 db0))
        = ValidationRejected ->
        snd (Hosted.handleSubmitPayment host loan today form0 st0 db0) = db0).
Proof.
  intros table actions opened form a d balance previous endDate result
    errors Hasc Hdesc Hafter.
  set (filled :=
         Hosted.fill host loan actions (Hosted.blankForm today, fst opened)).
  assert (result
          = Hosted.handleSubmitPayment host loan today (fst filled)
              (snd filled) (snd opened)) as Eres
    by apply hosted_recordPayment_eq.
  destruct (hosted_opened host loan today st db ascending descending
              Hasc Hdesc) as (Hrep & Hb & Hdb).
  fold opened in Hrep, Hb, Hdb. fold balance in Hb.
  assert (match repayments (fst opened) with
          | r0 :: _ => repayment_date r0
          | [] => start_date loan
          end = previous) as Hm by (now rewrite Hrep).
  destruct (hosted_fill_state host loan actions
              (Hosted.blankForm today, fst opened)) as [errs Efill].
  fold filled in Efill. cbn [snd] in Efill.
  assert (remainingBalance (snd filled) = balance) as Hb'
    by (rewrite Efill; exact Hb).
  assert (match repayments (snd filled) with
          | r0 :: _ => repayment_date r0
          | [] => start_date loan
          end = previous) as Hm'
    by (rewrite Efill; exact Hm).
  set (mid := Hosted.fill host loan before (Hosted.blankForm today, fst opened)).
  set (typedIn :=
         Hosted.act host loan mid
           (Hosted.Change (Hosted.AmountPaidInput (Some typed)))).
  assert (filled = Hosted.fill host loan after typedIn) as Efilled.
  { unfold filled, actions, Hosted.fill. rewrite fold_left_app. reflexivity. }
  destruct (hosted_fill_keeps host loan after typedIn Hafter) as [Ka Ke].
  rewrite <- Efilled in Ka, Ke.
  destruct (hosted_fill_state host loan before
              (Hosted.blankForm today, fst opened)) as [errs0 Emid].
  fold mid in Emid. cbn [snd] in Emid.
  assert (remainingBalance (snd mid) = balance) as Hb0
    by (rewrite Emid; exact Hb).
  assert (a = if Qeq_bool typed 0 then 0 else typed) as Ea
    by (unfold a, form; fold filled; rewrite Ka; reflexivity).
  assert (a == typed) as Eat.
  { rewrite Ea. destruct (Qeq_bool typed 0) eqn:Z0; [| reflexivity].
    apply Qeq_bool_iff in Z0. now rewrite Z0. }
  assert (Qle_bool typed 0 = Qle_bool a 0) as Ele.
  { destruct (Qle_bool a 0) eqn:E.
    - apply Qle_bool_iff. apply Qle_bool_iff in E. lra.
    - apply Qle_bool_false_iff. apply Qle_bool_false_iff in E. lra. }
  assert (JS.Qlt_bool balance typed = JS.Qlt_bool balance a) as Elt.
  { destruct (JS.Qlt_bool balance a) eqn:E.
    - apply Qlt_bool_iff. apply Qlt_bool_iff in E. lra.
    - apply Qlt_bool_false_iff. apply Qlt_bool_false_iff in E. lra. }
  assert (amountError (validationErrors (snd filled))
          = (if Qle_bool a 0 then AmountMustBePositive
             else if JS.Qlt_bool balance a then AmountExceedsBalance balance
             else NoAmountError)) as Hamsg.
  { rewrite Ke. unfold typedIn.
    cbn [Hosted.act Hosted.handleChange snd validationErrors
         setValidationErrors Hosted.validatePaymentInput].
    rewrite Hb0, Ele, Elt.
    destruct (Qle_bool a 0); [reflexivity |].
    destruct (JS.Qlt_bool balance a); reflexivity. }
  assert (errors
          = snd (Hosted.validatePaymentInput host loan (snd filled)
                   (Hosted.DateField d))) as Herr.
  { unfold errors. rewrite Eres. apply hosted_submit_errors. }
  assert (amountError errors
          = (if Qle_bool a 0 then AmountMustBePositive
             else if JS.Qlt_bool balance a then AmountExceedsBalance balance
             else NoAmountError)) as H3.
  { rewrite Herr, <- Hamsg. cbn [Hosted.validatePaymentInput].
    repeat match goal with |- context [if ?c then _ else _] => destruct c end;
      reflexivity. }
  assert (dateError errors
          = (if (d <? previous)%Z then DateBeforePrevious previous
             else if (endDate <? d)%Z then DateExceedsTerm endDate
             else NoDateError)) as H4.
  { rewrite Herr. cbn [Hosted.validatePaymentInput]. rewrite Hm'.
    fold endDate.
    destruct (d <? previous)%Z; [reflexivity |].
    destruct (endDate <? d)%Z; reflexivity. }
  assert (a <= 0 \/ balance < a
          <-> fst (Hosted.validatePaymentInput host loan (snd filled)
                     (Hosted.AmountField (Some a))) = false) as Va
    by (rewrite hosted_validate_amount_iff, Hb'; tauto).
  assert ((d < previous)%Z \/ (endDate < d)%Z
          <-> fst (Hosted.validatePaymentInput host loan (snd filled)
                     (Hosted.DateField d)) = false) as Vd
    by (rewrite hosted_validate_date_iff, Hm'; tauto).
  split; [exact Eat |]. split; [| split; [exact H3 | split; [exact H4 |]]].
  - rewrite Eres, hosted_submit_rejected_iff.
    fold filled in form. fold form. fold a d. tauto.
  - split; [| split; [| split]].
    + rewrite H3. destruct (Qle_bool a 0) eqn:E1.
      * apply Qle_bool_iff in E1. split; [auto | discriminate].
      * apply Qle_bool_false_iff in E1.
        destruct (JS.Qlt_bool balance a) eqn:E2.
        -- apply Qlt_bool_iff in E2. split; [auto | discriminate].
        -- apply Qlt_bool_false_iff in E2. split; [congruence | lra].
    + rewrite H4. destruct (d <? previous)%Z eqn:E1.
      * apply Z.ltb_lt in E1. split; [auto | discriminate].
      * apply Z.ltb_ge in E1. destruct (endDate <? d)%Z eqn:E2.
        -- apply Z.ltb_lt in E2. split; [auto | discriminate].
        -- apply Z.ltb_ge in E2. split; [congruence | lia].
    + intro Hrej. rewrite Eres in Hrej |- *.
      rewrite (hosted_submit_rejected_db _ _ _ _ _ _ Hrej).
      split; [reflexivity |]. rewrite Hdb.
      now destruct (Qle_bool (amount loan) (sumAmountPaid ascending)
                    && LoanStatus_eqb (status loan) Active).
    + intros form0 st0 db0. apply hosted_submit_rejected_db.
Qed.

Lemma recordPayment_validation_witness :
  let host := stableHost JS.addMonths in
  let loan := Scenario.loanA in
  let db := Scenario.openedDb Scenario.loanA in
  let result :=
    Hosted.recordPayment host loan (Scenario.day 30) Scenario6.actions
      initialState db in
  let errors := validationErrors (snd (fst result)) in
  (selectAscending host (repayment_table db)
   = Some [Scenario.openingRow loan]
   /\ selectDescending host (repayment_table db)
      = Some [Scenario.openingRow loan]
   /\ forallb Hosted.keepsAmount
        [Hosted.PickMethod "UPI";
         Hosted.Change (Hosted.RepaymentDateInput (Scenario.day (-1)))]
      = true)
  /\ fst (fst result) = ValidationRejected
  /\ amountError errors = AmountExceedsBalance 10000
  /\ dateError errors = DateBeforePrevious Scenario.D0
  /\ snd result = db.
Proof.
  cbv zeta.
  assert (selectAscending (stableHost JS.addMonths)
            (repayment_table (Scenario.openedDb Scenario.loanA))
          = Some [Scenario.openingRow Scenario.loanA]) as Ha by reflexivity.
  assert (selectDescending (stableHost JS.addMonths)
            (repayment_table (Scenario.openedDb Scenario.loanA))
          = Some [Scenario.openingRow Scenario.loanA]) as Hd by reflexivity.
  assert (forallb Hosted.keepsAmount
            [Hosted.PickMethod "UPI";
             Hosted.Change (Hosted.RepaymentDateInput (Scenario.day (-1)))]
          = true) as Hk by reflexivity.
  split; [auto |].
  destruct (recordPayment_validation (stableHost JS.addMonths) Scenario.loanA
              (Scenario.day 30) []
              [Hosted.PickMethod "UPI";
               Hosted.Change (Hosted.RepaymentDateInput (Scenario.day (-1)))]
              20000 initialState (Scenario.openedDb Scenario.loanA)
              [Scenario.openingRow Scenario.loanA]
              [Scenario.openingRow Scenario.loanA] Ha Hd Hk)
    as (_ & Hrej & Hamt & Hdate & _ & _ & Hdb & _).
  assert (fst (fst (Hosted.recordPayment (stableHost JS.addMonths)
                      Scenario.loanA (Scenario.day 30) Scenario6.actions
                      initialState (Scenario.openedDb Scenario.loanA)))
          = ValidationRejected) as Hr.
  { apply Hrej. right. left. vm_compute. reflexivity. }
  split; [exact Hr |]. split; [| split].
  - refine (eq_trans Hamt _). vm_compute. reflexivity.
  - refine (eq_trans Hdate _). vm_compute. reflexivity.
  - destruct (Hdb Hr) as (E & _). refine (eq_trans E _). reflexivity.
Defined.

(** ** A loan without repayments (C3) *)

(** C3, as stated, fails: with an empty history and a proposal that meets
    every precondition, [recordPayment] ends in the error
    "No previous repayment record found" and records nothing. *)
Lemma first_payment_on_empty_history_fails :
  repayment_table Scenario.emptyDb = []
  /\ 0 < amountPaid Scenario.formA
  /\ amountPaid Scenario.formA
     <= currentBalance Scenario.loanA (repayment_table Scenario.emptyDb)
  /\ (start_date Scenario.loanA <= repaymentDate Scenario.formA
      <= loanEndDate Scenario.loanA)%Z
  /\ fst (fst (recordPayment Scenario.loanA (Scenario.day 30) Scenario.formA
                 initialState Scenario.emptyDb))
     = SubmitFailed "No previous repayment record found"
  /\ snd (recordPayment Scenario.loanA (Scenario.day 30) Scenario.formA
            initialState Scenario.emptyDb)
     = Scenario.emptyDb.
Proof.
  repeat split; try reflexivity; vm_compute; discriminate.
Qed.

(** C3, amended.  For every loan whose repayment history is empty, a
    proposal that meets the preconditions (positive amount within the
    principal, date between the start date and the end of the term) passes
    validation against the loan's origin state, and [recordPayment] then
    fails with "No previous repayment record found": no repayment is
    recorded and the status is left as it was. *)
Theorem recordPayment_empty_history
    (loan : Loan) (today : Z) (form : PaymentFormData)
    (st : ComponentState) (db : Database) :
  repayment_table db = [] ->
  0 < amountPaid form ->
  amountPaid form <= amount loan ->
  (start_date loan <= repaymentDate form <= loanEndDate loan)%Z ->
  fst (fst (recordPayment loan today form st db))
  = SubmitFailed "No previous repayment record found"
  /\ snd (recordPayment loan today form st db) = db.
Proof.
  intros Ht Hpos Hle Hd.
  rewrite recordPayment_eq.
  set (st0 := fst (openPaymentModal loan (fetchRepayments loan today st db) db)).
  assert (snd (openPaymentModal loan (fetchRepayments loan today st db) db) = db)
    as ->.
  { unfold openPaymentModal. rewrite Ht. cbn -[Qle_bool].
    assert (Qle_bool (amount loan) 0 = false) as ->; [| reflexivity].
    destruct (Qle_bool (amount loan) 0) eqn:E; [| reflexivity].
    apply Qle_bool_iff in E. lra. }
  destruct (recordPayment_synced loan today st db) as (_ & Hb & _).
  fold st0 in Hb.
  pose proof (synced_mostRecentDate loan today st db) as Hm. fold st0 in Hm.
  unfold currentBalance, mostRecentDate in Hb, Hm.
  rewrite (proj2 (latestRepayment_none_iff _) Ht) in Hb, Hm.
  assert (fst (validatePaymentInput loan st0 (AmountField (amountPaid form)))
          = true) as Ha.
  { destruct (fst (validatePaymentInput loan st0 _)) eqn:E; [reflexivity |].
    apply validate_amount_iff in E. rewrite Hb in E. lra. }
  assert (fst (validatePaymentInput loan st0 (DateField (repaymentDate form)))
          = true) as Hv.
  { destruct (fst (validatePaymentInput loan st0 (DateField _))) eqn:E;
      [reflexivity |].
    apply validate_date_iff in E. rewrite Hm in E. lia. }
  destruct (handleSubmitPayment_no_previous loan today form st0 db Ha Hv Ht)
    as [st' E].
  rewrite E. split; reflexivity.
Qed.

Lemma recordPayment_empty_history_witness :
  fst (fst (recordPayment Scenario.loanA (Scenario.day 30) Scenario.formA
              initialState Scenario.emptyDb))
  = SubmitFailed "No previous repayment record found"
  /\ snd (recordPayment Scenario.loanA (Scenario.day 30) Scenario.formA
            initialState Scenario.emptyDb)
     = Scenario.emptyDb.
Proof.
  apply (recordPayment_empty_history Scenario.loanA (Scenario.day 30)
           Scenario.formA initialState Scenario.emptyDb).
  - reflexivity.
  - reflexivity.
  - vm_compute; discriminate.
  - vm_compute; split; discriminate.
Defined.

(** ** Paying exactly the remaining balance (C4) *)

Lemma openPaymentModal_snd loan st db :
  snd (openPaymentModal loan st db)
  = if principalPaidOff loan (Store.order_asc (repayment_table db))
       && LoanStatus_eqb (status loan) Active
    then updateLoanStatus db PrincipalPaid
    else db.
Proof.
  unfold openPaymentModal, principalPaidOff.
  destruct (Store.order_asc (repayment_table db)) as [| x l].
  - change (sumAmountPaid []) with 0.
    now destruct (Qle_bool (amount loan) 0 && _).
  - now destruct (Qle_bool (amount loan) (sumAmountPaid (x :: l)) && _).
Qed.

Lemma Qmax_0_nonpos (x : Q) : x <= 0 -> Qmax 0 x == 0.
Proof. intro H. now apply Q.max_l. Qed.

Lemma Qmax_0_nonneg (x : Q) : 0 <= x -> Qmax 0 x == x.
Proof. intro H. now apply Q.max_r. Qed.





(** ** Balance chaining (C1) *)

Lemma principalPaidOff_sorted loan table :
  dateSorted table ->
  principalPaidOff loan (Store.order_asc table) = principalPaidOff loan table.
Proof. intro H. now rewrite order_asc_sorted. Qed.

Lemma snoc_cases (l : list Repayment) :
  l = [] \/ exists t p, l = t ++ [p].
Proof.
  destruct l as [| x l] using rev_ind; [now left | right; eauto].
Qed.

(** One [recordPayment] on a date-sorted table either leaves the table as
    it is, or appends one repayment that satisfies the chaining equation
    and is dated no earlier than any repayment before it. *)
Lemma recordPayment_step loan today form st db :
  dateSorted (repayment_table db) ->
  repayment_table (snd (recordPayment loan today form st db))
  = repayment_table db
  \/ exists r,
       fst (fst (recordPayment loan today form st db)) = Recorded r
       /\ repayment_table (snd (recordPayment loan today form st db))
          = repayment_table db ++ [r]
       /\ chainEquation loan (repayment_table db) r
       /\ Forall (fun x => date_le x r) (repayment_table db).
Proof.
  intro Hs.
  rewrite recordPayment_eq.
  set (st0 := fst (openPaymentModal loan (fetchRepayments loan today st db) db)).
  set (db0 := snd (openPaymentModal loan (fetchRepayments loan today st db) db)).
  assert (repayment_table db0 = repayment_table db) as Ht0
    by apply openPaymentModal_table.
  destruct (fst (validatePaymentInput loan st0 (AmountField (amountPaid form))))
    eqn:Ea.
  2: { left.
       destruct (handleSubmitPayment_rejected loan today form st0 db0
                   (or_introl Ea)) as [st' E].
       now rewrite E. }
  destruct (fst (validatePaymentInput loan st0 (DateField (repaymentDate form))))
    eqn:Ed.
  2: { left.
       destruct (handleSubmitPayment_rejected loan today form st0 db0
                   (or_intror Ed)) as [st' E].
       now rewrite E. }
  destruct (snoc_cases (repayment_table db)) as [Et | (t & p & Et)].
  { left. rewrite Et in Ht0.
    destruct (handleSubmitPayment_no_previous loan today form st0 db0 Ea Ed Ht0)
      as [st' E].
    rewrite E. cbn [snd]. congruence. }
  rewrite Et in *.
  right.
  assert (latestRepayment (repayment_table db0) = Some p) as Hp
    by (rewrite Ht0; now apply latestRepayment_sorted_snoc).
  destruct (handleSubmitPayment_recorded loan today form st0 db0 p Ea Ed Hp)
    as [st' E].
  rewrite E. cbn [fst snd repayment_table]. rewrite Ht0.
  eexists. split; [reflexivity |]. split; [reflexivity |].
  destruct (recordPayment_synced loan today st db) as (_ & _ & Hpaid & _).
  fold st0 in Hpaid. rewrite Et in Hpaid.
  rewrite (principalPaidOff_sorted _ _ Hs) in Hpaid.
  split.
  - unfold chainEquation. rewrite rev_app_distr. cbn [rev app].
    cbn [remaining_balance amount_paid interest_amount].
    rewrite <- Hpaid. unfold JS.Math_max.
    destruct (isPrincipalPaid st0); reflexivity.
  - assert (fst (validatePaymentInput loan st0
                   (DateField (repaymentDate form))) <> false) as Hv
      by congruence.
    pose proof (synced_mostRecentDate loan today st db) as Hm.
    fold st0 in Hm.
    rewrite validate_date_iff, Hm in Hv.
    unfold mostRecentDate in Hv. rewrite Et in Hv.
    rewrite (latestRepayment_sorted_snoc _ _ Hs) in Hv.
    apply dateSorted_snoc in Hs as [_ Hf].
    apply Forall_app. split.
    + eapply Forall_impl; [| exact Hf].
      unfold date_le. cbn [repayment_date]. intros a Ha. lia.
    + constructor; [| constructor]. unfold date_le. cbn [repayment_date]. lia.
Qed.

Lemma chainedFrom_snoc loan table r new :
  chainEquation loan table r ->
  chainedFrom loan (S (List.length table)) ((table ++ [r]) ++ new) ->
  chainedFrom loan (List.length table) (table ++ r :: new).
Proof.
  intros Hr Hc i x Hi Hx.
  replace (table ++ r :: new) with ((table ++ [r]) ++ new) in *
    by (now rewrite <- app_assoc).
  destruct (Nat.eq_dec i (List.length table)) as [-> | Hne].
  - rewrite <- app_assoc in Hx. rewrite nth_error_app2 in Hx by lia.
    rewrite Nat.sub_diag in Hx. injection Hx as <-.
    rewrite <- app_assoc, firstn_app, Nat.sub_diag, firstn_all.
    cbn [firstn]. now rewrite app_nil_r.
  - apply Hc; [lia | exact Hx].
Qed.

Lemma recordPayments_chain loan proposals : forall st db,
  dateSorted (repayment_table db) ->
  exists new,
    repayment_table (snd (recordPayments loan proposals st db))
    = repayment_table db ++ new
    /\ chainedFrom loan (List.length (repayment_table db))
         (repayment_table db ++ new).
Proof.
  induction proposals as [| [today form] rest IH]; intros st db Hs.
  - exists []. simpl. rewrite app_nil_r. split; [reflexivity |].
    intros i r Hi Hr.
    assert (i < List.length (repayment_table db))%nat
      by (apply nth_error_Some; congruence).
    lia.
  - cbn [recordPayments].
    destruct (recordPayment_step loan today form st db Hs)
      as [Hsame | (r & _ & Happ & Hr & Hf)];
      destruct (recordPayment loan today form st db) as [[out st1] db1];
      cbn [snd] in *.
    + destruct (IH st1 db1) as (new & E & Hc); [now rewrite Hsame |].
      exists new. now rewrite Hsame in E, Hc.
    + destruct (IH st1 db1) as (new & E & Hc).
      { rewrite Happ. apply dateSorted_snoc. now split. }
      rewrite Happ in E, Hc.
      exists (r :: new). split.
      * now rewrite E, <- app_assoc.
      * apply chainedFrom_snoc; [exact Hr |].
        now rewrite length_app, Nat.add_1_r in Hc.
Qed.

Lemma firstn_S_snoc (l : list Repayment) : forall j p,
  nth_error l j = Some p -> firstn (S j) l = firstn j l ++ [p].
Proof.
  induction l as [| x l IH]; intros [| j] p H; try discriminate.
  - now injection H as ->.
  - cbn [nth_error] in H. rewrite firstn_cons, (IH _ _ H). reflexivity.
Qed.

(** When the store returns, of two rows of equal date, the one recorded
    last as the later (as it must when no two rows share a date): along
    every chain of repayments produced by successive [recordPayment] calls
    on a loan whose history is in date order, the history recorded before
    is kept, and each repayment recorded at position [i] stores
    [max(0, b - paid + interest)] when the payments before it have not
    reached the principal and [max(0, b - paid)] once they have, where [b]
    is the remaining balance of the repayment at position [i - 1]. *)
Theorem balance_chaining
    (loan : Loan) (proposals : list (Z * PaymentFormData))
    (st : ComponentState) (db : Database) :
  dateSorted (repayment_table db) ->
  let history := repayment_table db in
  let chain := repayment_table (snd (recordPayments loan proposals st db)) in
  firstn (List.length history) chain = history
  /\ forall i r,
       (List.length history <= i)%nat ->
       nth_error chain i = Some r ->
       let previousBalance :=
         match i with
         | O => amount loan
         | S j => match nth_error chain j with
                  | Some p => remaining_balance p
                  | None => amount loan
                  end
         end in
       if Qle_bool (amount loan) (sumAmountPaid (firstn i chain))
       then remaining_balance r == Qmax 0 (previousBalance - amount_paid r)
       else remaining_balance r
            == Qmax 0 (previousBalance - amount_paid r + interest_amount r).
Proof.
  intros Hs history chain.
  destruct (recordPayments_chain loan proposals st db Hs) as (new & E & Hc).
  fold history in E, Hc. fold chain in E. rewrite <- E in Hc.
  split.
  - rewrite E, firstn_app, Nat.sub_diag, firstn_all. cbn [firstn].
    apply app_nil_r.
  - intros i r Hi Hr previousBalance.
    specialize (Hc i r Hi Hr). unfold chainEquation, principalPaidOff in Hc.
    assert (match rev (firstn i chain) with
            | p :: _ => remaining_balance p
            | [] => amount loan
            end = previousBalance) as Hprev.
    { unfold previousBalance. destruct i as [| j]; [reflexivity |].
      assert (S j < List.length chain)%nat as Hlen
        by (apply nth_error_Some; congruence).
      destruct (nth_error chain j) as [p |] eqn:Ej.
      - rewrite (firstn_S_snoc chain j p Ej), rev_app_distr. reflexivity.
      - apply nth_error_None in Ej. lia. }
    rewrite Hprev in Hc. exact Hc.
Qed.

Lemma balance_chaining_witness :
  let history := repayment_table (Scenario.openedDb Scenario.loanA) in
  let chain :=
    repayment_table
      (snd (recordPayments Scenario.loanA Scenario1.proposals initialState
              (Scenario.openedDb Scenario.loanA))) in
  List.length chain = 3%nat
  /\ firstn (List.length history) chain = history
  /\ forall i r,
       (List.length history <= i)%nat ->
       nth_error chain i = Some r ->
       let previousBalance :=
         match i with
         | O => amount Scenario.loanA
         | S j => match nth_error chain j with
                  | Some p => remaining_balance p
                  | None => amount Scenario.loanA
                  end
         end in
       if Qle_bool (amount Scenario.loanA) (sumAmountPaid (firstn i chain))
       then remaining_balance r == Qmax 0 (previousBalance - amount_paid r)
       else remaining_balance r
            == Qmax 0 (previousBalance - amount_paid r + interest_amount r).
Proof.
  split; [reflexivity |].
  apply (balance_chaining Scenario.loanA Scenario1.proposals initialState
           (Scenario.openedDb Scenario.loanA)).
  repeat constructor.
Defined.

Lemma insert_by_date_desc_perm r l :
  Permutation (Store.insert_by_date_desc r l) (r :: l).
Proof.
  induction l as [| x l IH]; simpl; [reflexivity |].
  destruct (repayment_date x <? repayment_date r)%Z; [reflexivity |].
  rewrite IH. apply perm_swap.
Qed.

Lemma order_desc_stable_snoc t r :
  Store.order_desc_stable (t ++ [r])
  = Store.insert_by_date_desc r (Store.order_desc_stable t).
Proof. unfold Store.order_desc_stable. now rewrite fold_left_app. Qed.

Lemma order_desc_stable_perm t : Permutation (Store.order_desc_stable t) t.
Proof.
  induction t as [| r t IH] using rev_ind; [reflexivity |].
  rewrite order_desc_stable_snoc, insert_by_date_desc_perm.
  rewrite IH. apply Permutation_cons_append.
Qed.

Lemma insert_by_date_desc_sorted r l :
  StronglySorted date_ge l ->
  StronglySorted date_ge (Store.insert_by_date_desc r l).
Proof.
  induction 1 as [| x l Hs IH Hf]; simpl; [repeat constructor |].
  destruct (repayment_date x <? repayment_date r)%Z eqn:E.
  - apply Z.ltb_lt in E. constructor; [now constructor |].
    constructor; [unfold date_ge; lia |].
    eapply Forall_impl; [| exact Hf]. unfold date_ge. intros a Ha. lia.
  - apply Z.ltb_ge in E. constructor; [exact IH |].
    eapply Permutation_Forall;
      [symmetry; apply insert_by_date_desc_perm |].
    constructor; [exact E | exact Hf].
Qed.

Lemma order_desc_stable_sorted t :
  StronglySorted date_ge (Store.order_desc_stable t).
Proof.
  induction t as [| r t IH] using rev_ind; [constructor |].
  rewrite order_desc_stable_snoc. now apply insert_by_date_desc_sorted.
Qed.

(** C1, on the code.  [Store.order_desc_stable] is a descending read by
    date.  With it, on the loan of scenario A: 2000 is paid on the day of
    the opening row, which validation accepts, and leaves a balance of
    8000; the next payment, 1000 thirty days later, finds the opening row
    first in the read and is chained from its balance of 10000: it stores
    9098.63, not 8000 - 1000 + 98.63. *)
Theorem same_day_payment_breaks_chain :
  (forall t,
     Permutation (Store.order_desc_stable t) t
     /\ StronglySorted date_ge (Store.order_desc_stable t))
  /\ exists r1 r2,
       fst (fst ScenarioSameDay.first) = Recorded r1
       /\ fst (fst ScenarioSameDay.second) = Recorded r2
       /\ repayment_table (snd ScenarioSameDay.second)
          = [Scenario.openingRow Scenario.loanA; r1; r2]
       /\ repayment_date r1
          = repayment_date (Scenario.openingRow Scenario.loanA)
       /\ amount_paid r1 == 2000
       /\ remaining_balance r1 == 8000
       /\ amount_paid r2 == 1000
       /\ interest_amount r2 == 9863 # 100
       /\ principalPaidOff Scenario.loanA
            [Scenario.openingRow Scenario.loanA; r1] = false
       /\ remaining_balance r2 == 909863 # 100
       /\ remaining_balance r2
          == remaining_balance (Scenario.openingRow Scenario.loanA)
             - amount_paid r2 + interest_amount r2
       /\ ~ remaining_balance r2
            == Qmax 0 (remaining_balance r1 - amount_paid r2
                       + interest_amount r2).
Proof.
  split.
  - intro t. split.
    + apply order_desc_stable_perm.
    + apply order_desc_stable_sorted.
  - do 2 eexists.
    split; [vm_compute; reflexivity |].
    split; [vm_compute; reflexivity |].
    split; [vm_compute; reflexivity |].
    repeat split; try (vm_compute; reflexivity).
    vm_compute. discriminate.
Qed.

(** ** Marking a loan as finished (C9, C10) *)

Lemma handleMarkAsFinished_eq loan today st db :
  handleMarkAsFinished loan today st db
  = if JS.Qlt_bool 0 (remainingBalance st)
    then
      let db' :=
        mkDb Finished
          (repayment_table db
           ++ [mkRepayment (todayDate today) (remainingBalance st) 0 0
                 "System"
                 "Loan marked as finished (balance less than ₹100)"]) in
      (fetchRepayments loan today st db', db')
    else (st, mkDb Finished (repayment_table db)).
Proof. reflexivity. Qed.

(** C9.  [handleMarkAsFinished] (the specification's markFinished) always
    leaves the loan's status finished, also when run again on its own
    result.  When the current remaining balance is positive it appends
    exactly one repayment to the table: the whole balance as the amount
    paid, no interest, remaining balance 0, payment method "System".  When
    the balance is zero (or below) the table is left as it is.  After the
    history has been loaded, the balance it reads is the loan's current
    balance. *)
Theorem handleMarkAsFinished_closing
    (loan : Loan) (today : Z) (st : ComponentState) (db : Database) :
  let result := handleMarkAsFinished loan today st db in
  loan_status (snd result) = Finished
  /\ (0 < remainingBalance st ->
      exists closing,
        repayment_table (snd result) = repayment_table db ++ [closing]
        /\ amount_paid closing = remainingBalance st
        /\ interest_amount closing = 0
        /\ remaining_balance closing = 0
        /\ payment_method closing = "System"%string
        /\ repayment_date closing = todayDate today)
  /\ (remainingBalance st <= 0 ->
      repayment_table (snd result) = repayment_table db)
  /\ (forall today', loan_status
        (snd (handleMarkAsFinished loan today' (fst result) (snd result)))
      = Finished)
  /\ (forall st0,
        remainingBalance (fetchRepayments loan today st0 db)
        = currentBalance loan (repayment_table db)).
Proof.
  intro result. unfold result. rewrite handleMarkAsFinished_eq.
  split; [| split; [| split; [| split]]].
  - now destruct (JS.Qlt_bool 0 (remainingBalance st)).
  - intro H. apply Qlt_bool_iff in H. rewrite H. cbn [snd repayment_table].
    eexists. split; [reflexivity |]. repeat split.
  - intro H. apply Qlt_bool_false_iff in H. now rewrite H.
  - intro today'. rewrite handleMarkAsFinished_eq.
    now destruct (JS.Qlt_bool 0 (remainingBalance _)).
  - intro st0. apply fetchRepayments_remainingBalance.
Qed.

(** What the guard of the "Mark as Finished" button reads: the button is
    rendered exactly when the balance cell of the dialog is strictly
    between 0 and 100 and the [loan] prop is not finished; without the
    button nothing happens; and a repayment appended through the button is
    a "System" entry whose amount paid is the balance cell, above 0 and
    below 100. *)
Theorem markAsFinished_guard
    (loan : Loan) (today : Z) (st : ComponentState) (db : Database) :
  (markAsFinishedOffered loan st = true
   <-> 0 < remainingBalance st /\ remainingBalance st < 100
       /\ status loan <> Finished)
  /\ (markAsFinishedOffered loan st = false ->
      clickMarkAsFinished loan today st db = (st, db))
  /\ (forall closing,
        repayment_table (snd (clickMarkAsFinished loan today st db))
        = repayment_table db ++ [closing] ->
        payment_method closing = "System"%string
        /\ amount_paid closing = remainingBalance st
        /\ 0 < amount_paid closing /\ amount_paid closing < 100
        /\ remaining_balance closing = 0).
Proof.
  assert (markAsFinishedOffered loan st = true
          <-> 0 < remainingBalance st /\ remainingBalance st < 100
              /\ status loan <> Finished) as Hg.
  { unfold markAsFinishedOffered.
    rewrite !andb_true_iff, !Qlt_bool_iff, negb_true_iff.
    destruct (status loan); simpl; intuition congruence. }
  split; [exact Hg |]. split.
  - intro H. unfold clickMarkAsFinished. now rewrite H.
  - intros closing. unfold clickMarkAsFinished.
    destruct (markAsFinishedOffered loan st) eqn:G.
    + destruct (proj1 Hg eq_refl) as (Hpos & Hlt & _).
      rewrite handleMarkAsFinished_eq.
      rewrite (proj2 (Qlt_bool_iff _ _) Hpos). cbn [snd repayment_table].
      intro E. apply app_inj_tail in E as [_ <-].
      cbn [payment_method amount_paid remaining_balance]. auto.
    + cbn [snd]. intro E. exfalso.
      apply (f_equal (@List.length _)) in E.
      rewrite length_app in E. cbn [List.length] in E. lia.
Qed.

(** C10, on the code.  The dialog has shown a loan whose balance is 50 and
    is then shown for a loan that owes 100000, while the read of that
    loan's repayments fails: the balance cell still holds 50, the button is
    rendered, and the click sets the loan to finished and appends a closing
    row of 50. *)
Theorem stale_balance_closes_large_loan :
  remainingBalance ScenarioStale.showingS == 50
  /\ currentBalance ScenarioStale.loanB
       (repayment_table ScenarioStale.dbB) == 100000
  /\ loan_status ScenarioStale.dbB = Active
  /\ repayments ScenarioStale.showingB = []
  /\ remainingBalance ScenarioStale.showingB == 50
  /\ markAsFinishedOffered ScenarioStale.loanB ScenarioStale.showingB = true
  /\ loan_status (snd ScenarioStale.afterClick) = Finished
  /\ exists closing,
       repayment_table (snd ScenarioStale.afterClick)
       = repayment_table ScenarioStale.dbB ++ [closing]
       /\ payment_method closing = "System"%string
       /\ amount_paid closing == 50
       /\ remaining_balance closing == 0
       /\ ~ currentBalance ScenarioStale.loanB
              (repayment_table ScenarioStale.dbB) < 100.
Proof.
  repeat split; try (vm_compute; reflexivity).
  eexists. split; [vm_compute; reflexivity |].
  repeat split; try (vm_compute; reflexivity).
  vm_compute. discriminate.
Qed.

(** ** Interest projection (C5) *)

(** C5, on the code.  A loan of principal 1000 at 36.5% on which 1000 was
    paid a hundred days after the start: the payments reach the principal,
    so the principal is paid off, and a balance of 100 is left.  The
    loan-details projection of [fetchRepayments] is 3, not 0, while the
    ledger's [calculateInterest] accrues 0 over the same thirty days; the
    same on doubles. *)
Theorem projection_charges_paid_off_loan :
  let table := repayment_table Scenario5.dbP in
  let st := fetchRepayments Scenario5.loanP (Scenario.day 100) initialState
              Scenario5.dbP in
  let ledger := fst (openPaymentModal Scenario5.loanP st Scenario5.dbP) in
  principalPaidOff Scenario5.loanP table = true
  /\ isPrincipalPaid ledger = true
  /\ currentBalance Scenario5.loanP table == 100
  /\ projectedInterest st == 3
  /\ ~ projectedInterest st == 0
  /\ calculateInterest ledger
       (mkRepayment (Scenario.day 100) 1000 100 100 "Cash" "")
       (Scenario.day 130) (interest_rate Scenario5.loanP) == 0
  /\ F64.projectedInterest (F64.ofZ 100) (F64.ofQ (365 # 10)) = F64.ofZ 3
  /\ F64.calculateInterest ledger
       (F64.mkRepayment (Scenario.day 100) (F64.ofZ 100))
       (Scenario.day 130) (F64.ofQ (365 # 10))
     = S754_zero false.
Proof.
  cbv zeta. repeat split; try (vm_compute; reflexivity).
  vm_compute. discriminate.
Qed.

(** ** The status of a loan (C7) *)

(** C7, on the code.  A payment of the whole principal sets the stored
    status to finished with a remaining balance of 0.  The dialog still
    holds the [loan] prop it was opened with, whose status is active, so it
    still renders "Record New Payment"; the click runs [openPaymentModal],
    which finds the principal paid and the prop active and writes
    'principal paid': the stored status leaves finished.  The same happens
    after "Mark as Finished" on a loan of principal 50 without
    repayments. *)
Theorem finished_status_overwritten :
  (loan_status (Scenario.openedDb Scenario7.loanZ) = Active
   /\ (exists r,
         fst (fst Scenario7.afterPayment) = Recorded r
         /\ amount_paid r == 1000
         /\ remaining_balance r == 0)
   /\ loan_status (snd Scenario7.afterPayment) = Finished
   /\ recordNewPaymentOffered Scenario7.loanZ = true
   /\ loan_status (snd Scenario7.afterSecondClick) = PrincipalPaid)
  /\ (loan_status Scenario.emptyDb = Active
      /\ markAsFinishedOffered Scenario7.loanS
           (fetchRepayments Scenario7.loanS (Scenario.day 10) initialState
              Scenario.emptyDb) = true
      /\ loan_status (snd Scenario7.afterMarking) = Finished
      /\ recordNewPaymentOffered Scenario7.loanS = true
      /\ loan_status (snd Scenario7.afterMarkingThenClick) = PrincipalPaid).
Proof.
  split.
  - split; [reflexivity |]. split; [| repeat split].
    eexists. split; [vm_compute; reflexivity |]. split; reflexivity.
  - repeat split.
Qed.

Lemma handleSubmitPayment_status loan today form st db :
  let s' := loan_status (snd (handleSubmitPayment loan today form st db)) in
  s' = loan_status db \/ s' = PrincipalPaid \/ s' = Finished.
Proof.
  intro s'. unfold s'.
  destruct (fst (validatePaymentInput loan st (AmountField (amountPaid form))))
    eqn:Ea.
  2: { destruct (handleSubmitPayment_rejected loan today form st db
                   (or_introl Ea)) as [st' E].
       rewrite E. now left. }
  destruct (fst (validatePaymentInput loan st (DateField (repaymentDate form))))
    eqn:Ed.
  2: { destruct (handleSubmitPayment_rejected loan today form st db
                   (or_intror Ed)) as [st' E].
       rewrite E. now left. }
  destruct (latestRepayment (repayment_table db)) as [p |] eqn:Ep.
  - destruct (handleSubmitPayment_recorded loan today form st db p Ea Ed Ep)
      as [st' E].
    rewrite E. cbn [snd loan_status].
    repeat match goal with |- context [if ?c then _ else _] => destruct c end;
      auto.
  - apply latestRepayment_none_iff in Ep.
    destruct (handleSubmitPayment_no_previous loan today form st db Ea Ed Ep)
      as [st' E].
    rewrite E. now left.
Qed.

Lemma clickRecordNewPayment_snd loan st db :
  snd (clickRecordNewPayment loan st db)
  = if negb (LoanStatus_eqb (status loan) Finished)
       && principalPaidOff loan (Store.order_asc (repayment_table db))
       && LoanStatus_eqb (status loan) Active
    then updateLoanStatus db PrincipalPaid
    else db.
Proof.
  unfold clickRecordNewPayment, recordNewPaymentOffered.
  destruct (negb (LoanStatus_eqb (status loan) Finished)); [| reflexivity].
  apply openPaymentModal_snd.
Qed.

(** With a [loan] prop that shows the stored status, the guarded actions
    never move the stored status backward, and do nothing to the store of a
    finished loan. *)
Lemma status_monotone_in_sync loan today form st db :
  status loan = loan_status db ->
  let opened := clickRecordNewPayment loan st db in
  let submitted :=
    if recordNewPaymentOffered loan
    then snd (handleSubmitPayment loan today form (fst opened) (snd opened))
    else snd opened in
  let marked := snd (clickMarkAsFinished loan today st db) in
  (statusRank (loan_status db) <= statusRank (loan_status (snd opened)))%Z
  /\ (statusRank (loan_status db) <= statusRank (loan_status submitted))%Z
  /\ (statusRank (loan_status db) <= statusRank (loan_status marked))%Z
  /\ (loan_status db = Finished ->
      snd opened = db /\ submitted = db /\ marked = db).
Proof.
  intros Hsync opened submitted marked.
  assert (statusRank (loan_status db) <= statusRank (loan_status (snd opened)))%Z
    as Ho.
  { unfold opened. rewrite clickRecordNewPayment_snd, Hsync.
    destruct (loan_status db) eqn:Es; cbn [LoanStatus_eqb negb andb];
      rewrite ?andb_false_r;
      try (rewrite Es; simpl; lia).
    destruct (principalPaidOff _ _);
      cbn [andb updateLoanStatus Store.update_status loan_status];
      rewrite ?Es; simpl; lia. }
  assert (loan_status db = Finished -> snd opened = db) as Hof.
  { intro Hf. unfold opened. rewrite clickRecordNewPayment_snd, Hsync, Hf.
    reflexivity. }
  split; [exact Ho |]. split; [| split].
  - unfold submitted, recordNewPaymentOffered. rewrite Hsync.
    destruct (loan_status db) eqn:Es; cbn [LoanStatus_eqb negb];
      try (rewrite (Hof eq_refl), Es; simpl; lia);
      destruct (handleSubmitPayment_status loan today form (fst opened)
                  (snd opened)) as [-> | [-> | ->]];
      simpl in *; lia.
  - unfold marked, clickMarkAsFinished.
    destruct (markAsFinishedOffered loan st); [| cbn [snd]; lia].
    rewrite handleMarkAsFinished_eq.
    destruct (JS.Qlt_bool 0 (remainingBalance st)); cbn [snd loan_status];
      destruct (loan_status db); simpl; lia.
  - intro Hf. split; [now apply Hof |]. split.
    + unfold submitted, recordNewPaymentOffered. rewrite Hsync, Hf.
      cbn [LoanStatus_eqb negb]. now apply Hof.
    + unfold marked, clickMarkAsFinished, markAsFinishedOffered.
      rewrite Hsync, Hf. cbn [LoanStatus_eqb negb]. now rewrite andb_false_r.
Qed.

(** The status a recorded payment leaves on an active loan shown by an
    up-to-date [loan] prop: finished exactly when the new remaining
    balance is not positive; otherwise principal-paid exactly when the
    payments so far plus this one reach the principal; otherwise still
    active. *)
Lemma recordPayment_status_transition loan today form st db p :
  dateSorted (repayment_table db) ->
  latestRepayment (repayment_table db) = Some p ->
  0 < amountPaid form ->
  amountPaid form <= remaining_balance p ->
  (repayment_date p <= repaymentDate form <= loanEndDate loan)%Z ->
  status loan = Active ->
  loan_status db = Active ->
  exists r st' db',
    recordPayment loan today form st db = (Recorded r, st', db')
    /\ loan_status db'
       = if Qle_bool
              (if principalPaidOff loan (repayment_table db)
               then remaining_balance p - amountPaid form
               else remaining_balance p - amountPaid form + interest_amount r)
              0
         then Finished
         else if Qle_bool (amount loan)
                   (sumAmountPaid (repayment_table db) + amountPaid form)
              then PrincipalPaid
              else Active.
Proof.
  intros Hs Hp Hpos Hle Hd Hprop Hdb.
  rewrite recordPayment_eq.
  set (st0 := fst (openPaymentModal loan (fetchRepayments loan today st db) db)).
  set (db0 := snd (openPaymentModal loan (fetchRepayments loan today st db) db)).
  assert (repayment_table db <> []) as Hne
    by (intro T; apply latestRepayment_none_iff in T; congruence).
  destruct (recordPayment_synced loan today st db) as (_ & Hb & Hpaid & Htot).
  fold st0 in Hb, Hpaid, Htot. specialize (Htot Hne).
  rewrite (order_asc_sorted _ Hs) in Hpaid, Htot.
  pose proof (synced_mostRecentDate loan today st db) as Hm. fold st0 in Hm.
  unfold currentBalance, mostRecentDate in Hb, Hm. rewrite Hp in Hb, Hm.
  assert (fst (validatePaymentInput loan st0 (AmountField (amountPaid form)))
          = true) as Ha.
  { destruct (fst (validatePaymentInput loan st0 _)) eqn:E; [reflexivity |].
    apply validate_amount_iff in E. rewrite Hb in E. lra. }
  assert (fst (validatePaymentInput loan st0 (DateField (repaymentDate form)))
          = true) as Hv.
  { destruct (fst (validatePaymentInput loan st0 (DateField _))) eqn:E;
      [reflexivity |].
    apply validate_date_iff in E. rewrite Hm in E. lia. }
  assert (latestRepayment (repayment_table db0) = Some p) as Hp0
    by (unfold db0; now rewrite openPaymentModal_table).
  assert (loan_status db0
          = if principalPaidOff loan (repayment_table db)
            then PrincipalPaid else Active) as Hs0.
  { unfold db0. rewrite openPaymentModal_snd, (order_asc_sorted _ Hs), Hprop.
    destruct (principalPaidOff loan (repayment_table db)); [reflexivity |].
    exact Hdb. }
  destruct (handleSubmitPayment_recorded loan today form st0 db0 p Ha Hv Hp0)
    as [st' E].
  do 3 eexists. split; [exact E |].
  cbn [loan_status interest_amount]. rewrite Hpaid, Htot, Hs0.
  destruct (principalPaidOff loan (repayment_table db)) eqn:Epaid;
    cbn [negb andb]; [| reflexivity].
  assert (Qle_bool (amount loan)
            (sumAmountPaid (repayment_table db) + amountPaid form) = true)
    as ->; [| reflexivity].
  unfold principalPaidOff in Epaid. apply Qle_bool_iff in Epaid.
  apply Qle_bool_iff. lra.
Qed.

(** ** Dashboard metrics (C8) *)

Lemma fold_left_principal (l : list Loan) : forall a,
  fold_left (fun sum loan => sum + amount loan) l a
  == a + sumQ (map amount l).
Proof.
  induction l as [| x l IH]; intro a; cbn [fold_left map sumQ fold_right];
    [ring |].
  rewrite IH. unfold sumQ. ring.
Qed.

Lemma fold_left_metricsStep (tableOf : Z -> list Repayment) (l : list Loan) :
  forall totals,
    let result := fold_left (metricsStep (fun i => Some (tableOf i))) l totals in
    fst result
    == fst totals
       + sumQ (map (fun loan =>
                      currentBalance loan (tableOf (id loan))
                      * (interest_rate loan / 100 / 365) * 30) l)
    /\ snd result
       == snd totals
          + sumQ (map (fun loan => currentBalance loan (tableOf (id loan))) l).
Proof.
  induction l as [| x l IH]; intros [ti to];
    cbn [fold_left map sumQ fold_right fst snd]; [split; ring |].
  destruct (IH (metricsStep (fun i => Some (tableOf i)) (ti, to) x))
    as [H1 H2].
  cbv zeta in H1, H2. rewrite H1, H2.
  unfold metricsStep, currentBalance. rewrite limit1_order_desc.
  destruct (latestRepayment (tableOf (id x))); cbn [fst snd]; unfold sumQ;
    split; ring.
Qed.

(** What [fetchLoanMetrics] reports when every repayment table can be read:
    the number of active loans, the sum of their principals, the sum of
    their thirty-day projections, and, as the outstanding amount, the sum
    of their current balances plus the sum of their principals. *)
Lemma fetchLoanMetrics_totals (loans : list Loan) (tableOf : Z -> list Repayment) :
  let active := filter (fun loan => LoanStatus_eqb (status loan) Active) loans in
  let m := fetchLoanMetrics loans (fun i => Some (tableOf i)) in
  activeLoans m = List.length active
  /\ totalPrincipal m == sumQ (map amount active)
  /\ interestToBePaid m
     == sumQ (map (fun loan =>
                     currentBalance loan (tableOf (id loan))
                     * (interest_rate loan / 100 / 365) * 30) active)
  /\ outstandingAmount m
     == sumQ (map (fun loan => currentBalance loan (tableOf (id loan))) active)
        + sumQ (map amount active).
Proof.
  intros active m. unfold m, fetchLoanMetrics. fold active.
  destruct (fold_left_metricsStep tableOf active (0, 0)) as [H1 H2].
  cbv zeta in H1, H2.
  destruct (fold_left (metricsStep (fun i => Some (tableOf i))) active (0, 0))
    as [ti to].
  cbn [fst snd] in H1, H2.
  cbn [activeLoans totalPrincipal interestToBePaid outstandingAmount].
  pose proof (fold_left_principal active 0) as Hp.
  split; [reflexivity |]. split; [rewrite Hp; ring |].
  split; [rewrite H1; ring |]. rewrite H2, Hp. ring.
Qed.

(** C8, on the code.  For one active loan of principal 10000 without
    repayments, whose current outstanding balance is 10000, the reported
    principal is 10000 and the reported interest is the loan's thirty-day
    projection, but the reported outstanding amount is 20000: the sum of
    the balances with the sum of the principals added to it. *)
Theorem fetchLoanMetrics_outstanding_adds_principal :
  let loans := [Scenario.loanA] in
  let m := fetchLoanMetrics loans (fun _ => Some []) in
  activeLoans m = 1%nat
  /\ totalPrincipal m == 10000
  /\ currentBalance Scenario.loanA [] == 10000
  /\ interestToBePaid m == 10000 * (12 / 100 / 365) * 30
  /\ outstandingAmount m == 20000
  /\ ~ outstandingAmount m == currentBalance Scenario.loanA [].
Proof.
  cbv zeta. repeat split; try reflexivity. vm_compute. discriminate.
Qed.

(** * Further properties of the ledger handlers *)

Lemma toFixed2_nonneg (x : Q) : 0 <= x -> 0 <= JS.toFixed2 x.
Proof.
  intro H. unfold JS.toFixed2.
  assert (JS.Qlt_bool x 0 = false) as -> by (apply Qlt_bool_false_iff; lra).
  assert (0 <= Qfloor (x * 100 + (1 # 2)))%Z as Hz.
  { change 0%Z with (Qfloor 0). apply Qfloor_resp_le. lra. }
  rewrite Zle_Qle in Hz. change (inject_Z 0) with 0 in Hz.
  apply Qle_shift_div_l; lra.
Qed.

Lemma calculateInterest_nonneg st p d rate :
  0 <= remaining_balance p -> 0 <= rate ->
  0 <= calculateInterest st p d rate.
Proof.
  intros Hb Hr. unfold calculateInterest.
  destruct (isPrincipalPaid st); [lra |].
  cbv zeta. apply toFixed2_nonneg.
  destruct (diffDays_bounds d (repayment_date p)) as (Hd & _).
  unfold diffDays in Hd. rewrite Zle_Qle in Hd.
  change (inject_Z 0) with 0 in Hd.
  repeat apply Qmult_le_0_compat; try assumption; vm_compute; discriminate.
Qed.

(** What a [recordPayment] that passes validation and finds a previous
    repayment does, in full: the repayment it appends, the status it
    leaves, and the balance and history the dialog shows afterwards. *)
Lemma recordPayment_recorded loan today form st db p :
  latestRepayment (repayment_table db) = Some p ->
  0 < amountPaid form ->
  amountPaid form <= remaining_balance p ->
  (repayment_date p <= repaymentDate form <= loanEndDate loan)%Z ->
  let paidOff :=
    principalPaidOff loan (Store.order_asc (repayment_table db)) in
  let interestAmount :=
    if paidOff then 0
    else JS.toFixed2
           (remaining_balance p * (interest_rate loan / 100 / 365)
            * inject_Z (diffDays (repaymentDate form) (repayment_date p))) in
  let newRemainingBalance :=
    if paidOff
    then remaining_balance p - amountPaid form
    else remaining_balance p - amountPaid form + interestAmount in
  let r :=
    mkRepayment (repaymentDate form) (amountPaid form) interestAmount
      (JS.Math_max 0 newRemainingBalance) (paymentMethod form)
      (form_notes form) in
  exists st' s',
    recordPayment loan today form st db
    = (Recorded r, st', mkDb s' (repayment_table db ++ [r]))
    /\ (Qle_bool newRemainingBalance 0 = true -> s' = Finished)
    /\ (Qle_bool newRemainingBalance 0 = false ->
        s' = PrincipalPaid \/ s' = loan_status db)
    /\ repayments st' = Store.order_desc (repayment_table db ++ [r])
    /\ remainingBalance st'
       = currentBalance loan (repayment_table db ++ [r])
    /\ submitSuccess st' = true.
Proof.
  intros Hp Hpos Hle Hd. cbv zeta.
  rewrite recordPayment_eq.
  set (st0 := fst (openPaymentModal loan (fetchRepayments loan today st db) db)).
  set (db0 := snd (openPaymentModal loan (fetchRepayments loan today st db) db)).
  destruct (recordPayment_synced loan today st db) as (_ & Hb & Hpaid & _).
  fold st0 in Hb, Hpaid.
  pose proof (synced_mostRecentDate loan today st db) as Hm. fold st0 in Hm.
  unfold currentBalance, mostRecentDate in Hb, Hm. rewrite Hp in Hb, Hm.
  assert (fst (validatePaymentInput loan st0 (AmountField (amountPaid form)))
          = true) as Ha.
  { destruct (fst (validatePaymentInput loan st0 _)) eqn:E; [reflexivity |].
    apply validate_amount_iff in E. rewrite Hb in E. lra. }
  assert (fst (validatePaymentInput loan st0 (DateField (repaymentDate form)))
          = true) as Hv.
  { destruct (fst (validatePaymentInput loan st0 (DateField _))) eqn:E;
      [reflexivity |].
    apply validate_date_iff in E. rewrite Hm in E. lia. }
  assert (repayment_table db0 = repayment_table db) as Ht0
    by apply openPaymentModal_table.
  assert (loan_status db0 = PrincipalPaid \/ loan_status db0 = loan_status db)
    as Hs0.
  { unfold db0. rewrite openPaymentModal_snd.
    destruct (principalPaidOff loan (Store.order_asc (repayment_table db))
              && LoanStatus_eqb (status loan) Active); auto. }
  unfold handleSubmitPayment.
  destruct (validatePaymentInput loan st0 (AmountField _)) as [va ea].
  destruct (validatePaymentInput loan st0 (DateField _)) as [vd ed].
  simpl in Ha, Hv. subst va vd.
  rewrite limit1_order_desc, Ht0, Hp.
  cbn [negb orb].
  unfold calculateInterest.
  cbn [isPrincipalPaid totalAmountPaid setSubmitError setValidationErrors].
  rewrite Hpaid.
  fold (diffDays (repaymentDate form) (repayment_date p)).
  destruct (principalPaidOff loan (Store.order_asc (repayment_table db)));
    cbn [negb andb];
    try destruct (Qle_bool (amount loan) (totalAmountPaid st0 + amountPaid form));
    cbn [setIsPrincipalPaid];
    match goal with |- context [Qle_bool ?x 0] =>
      destruct (Qle_bool x 0) eqn:Ef end;
    unfold Store.insert, updateLoanStatus, Store.update_status;
    cbn [repayment_table loan_status]; rewrite ?Ht0;
    do 2 eexists; (split; [reflexivity |]);
    (split; [first [reflexivity | discriminate] |]);
    (split; [first [discriminate | intros _; auto] |]);
    (split; [apply fetchRepayments_repayments |]);
    (split; [apply fetchRepayments_remainingBalance |]);
    unfold fetchRepayments;
    now destruct (Store.order_desc _).
Qed.

(** A [recordPayment] either records nothing, or was given a proposal
    within the bounds that validation enforces against the latest
    repayment. *)
Lemma recordPayment_cases loan today form st db :
  (repayment_table (snd (recordPayment loan today form st db))
   = repayment_table db
   /\ forall r, fst (fst (recordPayment loan today form st db)) <> Recorded r)
  \/ exists p,
       latestRepayment (repayment_table db) = Some p
       /\ 0 < amountPaid form
       /\ amountPaid form <= remaining_balance p
       /\ (repayment_date p <= repaymentDate form <= loanEndDate loan)%Z.
Proof.
  rewrite recordPayment_eq.
  set (st0 := fst (openPaymentModal loan (fetchRepayments loan today st db) db)).
  set (db0 := snd (openPaymentModal loan (fetchRepayments loan today st db) db)).
  assert (repayment_table db0 = repayment_table db) as Ht0
    by apply openPaymentModal_table.
  destruct (recordPayment_synced loan today st db) as (_ & Hb & _).
  fold st0 in Hb.
  pose proof (synced_mostRecentDate loan today st db) as Hm. fold st0 in Hm.
  destruct (fst (validatePaymentInput loan st0 (AmountField (amountPaid form))))
    eqn:Ea.
  2: { left.
       destruct (handleSubmitPayment_rejected loan today form st0 db0
                   (or_introl Ea)) as [st' E].
       rewrite E. split; [exact Ht0 | discriminate]. }
  destruct (fst (validatePaymentInput loan st0 (DateField (repaymentDate form))))
    eqn:Ed.
  2: { left.
       destruct (handleSubmitPayment_rejected loan today form st0 db0
                   (or_intror Ed)) as [st' E].
       rewrite E. split; [exact Ht0 | discriminate]. }
  destruct (latestRepayment (repayment_table db)) as [p |] eqn:Ep.
  - right. exists p. split; [reflexivity |].
    assert (fst (validatePaymentInput loan st0 (AmountField (amountPaid form)))
            <> false) as Ha' by congruence.
    assert (fst (validatePaymentInput loan st0 (DateField (repaymentDate form)))
            <> false) as Hd' by congruence.
    rewrite validate_amount_iff in Ha'. rewrite validate_date_iff, Hm in Hd'.
    unfold currentBalance, mostRecentDate in *. rewrite Ep in *.
    rewrite Hb in Ha'.
    split; [| split]; [| | lia].
    + destruct (Qlt_le_dec 0 (amountPaid form)); [assumption | tauto].
    + destruct (Qlt_le_dec (remaining_balance p) (amountPaid form));
        [tauto | assumption].
  - left. apply latestRepayment_none_iff in Ep.
    rewrite <- Ht0 in Ep.
    destruct (handleSubmitPayment_no_previous loan today form st0 db0 Ea Ed Ep)
      as [st' E].
    rewrite E. split; [exact Ht0 | discriminate].
Qed.

Lemma sumAmountPaid_snoc (t : list Repayment) (r : Repayment) :
  sumAmountPaid (t ++ [r]) = sumAmountPaid t + amount_paid r.
Proof. unfold sumAmountPaid. now rewrite fold_left_app. Qed.

Lemma sumAmountPaid_app_le (t new : list Repayment) :
  Forall (fun r => 0 < amount_paid r) new ->
  sumAmountPaid t <= sumAmountPaid (t ++ new).
Proof.
  induction new as [| r new IH] using rev_ind; intro H.
  - rewrite app_nil_r. lra.
  - apply Forall_app in H as [Hn Hr]. inversion Hr; subst.
    rewrite app_assoc, sumAmountPaid_snoc. specialize (IH Hn). lra.
Qed.

(** The rows that successive [recordPayment] calls append to a date-sorted
    history: the result is date-sorted, every new row pays a positive
    amount, and from a history that already covers the principal every new
    row carries no interest. *)
Lemma recordPayments_rows loan proposals : forall st db,
  dateSorted (repayment_table db) ->
  exists new,
    repayment_table (snd (recordPayments loan proposals st db))
    = repayment_table db ++ new
    /\ dateSorted (repayment_table db ++ new)
    /\ Forall (fun r => 0 < amount_paid r) new
    /\ (principalPaidOff loan (repayment_table db) = true ->
        Forall (fun r => interest_amount r = 0) new).
Proof.
  induction proposals as [| [today form] rest IH]; intros st db Hs.
  - exists []. simpl. rewrite app_nil_r. repeat split; auto.
  - cbn [recordPayments].
    destruct (recordPayment_step loan today form st db Hs)
      as [Hsame | (r & Hout & Happ & _ & Hf)].
    + destruct (recordPayment loan today form st db) as [[out st1] db1].
      cbn [snd] in *.
      destruct (IH st1 db1) as (new & E & H1 & H2 & H3); [now rewrite Hsame |].
      rewrite Hsame in E, H1, H3. exists new. auto.
    + destruct (recordPayment_cases loan today form st db)
        as [[_ Hn] | (p & Hp & Hpos & Hle & Hd)];
        [now apply Hn in Hout |].
      destruct (recordPayment_recorded loan today form st db p Hp Hpos Hle Hd)
        as (st' & s' & E & _).
      rewrite E in Hout. cbn [fst] in Hout. injection Hout as Hr.
      clear Happ. rewrite E. cbn [snd]. subst r.
      match type of E with _ = (Recorded ?x, _, _) => set (r := x) in * end.
      assert (dateSorted (repayment_table db ++ [r])) as Hs'
        by (apply dateSorted_snoc; now split).
      destruct (IH st' (mkDb s' (repayment_table db ++ [r])))
        as (new & E' & H1 & H2 & H3);
        [cbn [repayment_table]; exact Hs' |].
      cbn [repayment_table] in E', H1, H3.
      rewrite <- app_assoc in E', H1. cbn [app] in E', H1.
      exists (r :: new).
      split; [exact E' |]. split; [exact H1 |]. split.
      * constructor; [exact Hpos | exact H2].
      * intro Hpaid.
        assert (interest_amount r = 0) as Hi.
        { unfold r. cbn [interest_amount].
          rewrite (order_asc_sorted _ Hs), Hpaid. reflexivity. }
        constructor; [exact Hi |]. apply H3.
        unfold principalPaidOff in *. rewrite sumAmountPaid_snoc.
        apply Qle_bool_iff in Hpaid. apply Qle_bool_iff.
        change (amount_paid r) with (amountPaid form). lra.
Qed.

Lemma nth_error_new_row (t new : list Repayment) (i : nat) (r : Repayment) :
  (List.length t <= i)%nat -> nth_error (t ++ new) i = Some r -> In r new.
Proof.
  intros Hi H. rewrite nth_error_app2 in H by exact Hi.
  eapply nth_error_In; exact H.
Qed.

(** X1.  Successive [recordPayment] calls keep a date-ordered history
    date-ordered: the rows recorded before stay in place and no row of the
    resulting history is dated before a row recorded earlier. *)
Theorem recordPayments_keep_date_order
    (loan : Loan) (proposals : list (Z * PaymentFormData))
    (st : ComponentState) (db : Database) :
  dateSorted (repayment_table db) ->
  let chain := repayment_table (snd (recordPayments loan proposals st db)) in
  firstn (List.length (repayment_table db)) chain = repayment_table db
  /\ dateSorted chain
  /\ forall i j ri rj,
       (i <= j)%nat ->
       nth_error chain i = Some ri -> nth_error chain j = Some rj ->
       (repayment_date ri <= repayment_date rj)%Z.
Proof.
  intros Hs chain.
  destruct (recordPayments_rows loan proposals st db Hs) as (new & E & H1 & _).
  unfold chain. rewrite E. split; [| split; [exact H1 |]].
  - rewrite firstn_app, Nat.sub_diag, firstn_all. cbn [firstn].
    apply app_nil_r.
  - clear E chain. unfold dateSorted in H1.
    induction H1 as [| x l Hl IH Hx]; intros i j ri rj Hij Hi Hj.
    + destruct i; discriminate.
    + destruct i as [| i], j as [| j]; cbn [nth_error] in Hi, Hj; try lia.
      * injection Hi as <-. injection Hj as <-. lia.
      * injection Hi as <-. apply nth_error_In in Hj.
        rewrite Forall_forall in Hx. exact (Hx _ Hj).
      * apply (IH i j ri rj); [lia | assumption | assumption].
Qed.

Lemma recordPayments_keep_date_order_witness :
  let chain :=
    repayment_table
      (snd (recordPayments Scenario.loanA Scenario1.proposals initialState
              (Scenario.openedDb Scenario.loanA))) in
  List.length chain = 3%nat
  /\ firstn (List.length (repayment_table (Scenario.openedDb Scenario.loanA)))
       chain
     = repayment_table (Scenario.openedDb Scenario.loanA)
  /\ dateSorted chain
  /\ forall i j ri rj,
       (i <= j)%nat ->
       nth_error chain i = Some ri -> nth_error chain j = Some rj ->
       (repayment_date ri <= repayment_date rj)%Z.
Proof.
  split; [reflexivity |].
  apply (recordPayments_keep_date_order Scenario.loanA Scenario1.proposals
           initialState (Scenario.openedDb Scenario.loanA)).
  repeat constructor.
Defined.

(** X2.  Along successive [recordPayment] calls on a date-ordered history
    the total paid never decreases: every row that is recorded pays a
    strictly positive amount. *)
Theorem total_paid_never_decreases
    (loan : Loan) (proposals : list (Z * PaymentFormData))
    (st : ComponentState) (db : Database) :
  dateSorted (repayment_table db) ->
  let history := repayment_table db in
  let chain := repayment_table (snd (recordPayments loan proposals st db)) in
  sumAmountPaid history <= sumAmountPaid chain
  /\ forall i r,
       (List.length history <= i)%nat -> nth_error chain i = Some r ->
       0 < amount_paid r.
Proof.
  intros Hs history chain.
  destruct (recordPayments_rows loan proposals st db Hs)
    as (new & E & _ & H2 & _).
  unfold chain, history. rewrite E. split.
  - now apply sumAmountPaid_app_le.
  - intros i r Hi Hr. rewrite Forall_forall in H2.
    apply H2. eapply nth_error_new_row; eassumption.
Qed.

Lemma total_paid_never_decreases_witness :
  let history := repayment_table (Scenario.openedDb Scenario.loanA) in
  let chain :=
    repayment_table
      (snd (recordPayments Scenario.loanA Scenario1.proposals initialState
              (Scenario.openedDb Scenario.loanA))) in
  sumAmountPaid chain == 5000
  /\ sumAmountPaid history <= sumAmountPaid chain
  /\ forall i r,
       (List.length history <= i)%nat -> nth_error chain i = Some r ->
       0 < amount_paid r.
Proof.
  split; [reflexivity |].
  apply (total_paid_never_decreases Scenario.loanA Scenario1.proposals
           initialState (Scenario.openedDb Scenario.loanA)).
  repeat constructor.
Defined.

(** X3.  Paying off the principal is one-way: from a date-ordered history
    whose payments cover the principal, every history that successive
    [recordPayment] calls produce still covers it, and every row they
    record carries an interest amount of 0. *)
Theorem principal_paid_is_final
    (loan : Loan) (proposals : list (Z * PaymentFormData))
    (st : ComponentState) (db : Database) :
  dateSorted (repayment_table db) ->
  principalPaidOff loan (repayment_table db) = true ->
  let history := repayment_table db in
  let chain := repayment_table (snd (recordPayments loan proposals st db)) in
  principalPaidOff loan chain = true
  /\ forall i r,
       (List.length history <= i)%nat -> nth_error chain i = Some r ->
       interest_amount r = 0.
Proof.
  intros Hs Hpaid history chain.
  destruct (recordPayments_rows loan proposals st db Hs)
    as (new & E & _ & H2 & H3).
  unfold chain, history. rewrite E. split.
  - unfold principalPaidOff in *. apply Qle_bool_iff in Hpaid.
    apply Qle_bool_iff.
    pose proof (sumAmountPaid_app_le (repayment_table db) new H2). lra.
  - intros i r Hi Hr. specialize (H3 Hpaid). rewrite Forall_forall in H3.
    apply H3. eapply nth_error_new_row; eassumption.
Qed.



Lemma principal_paid_is_final_witness :
  let history := repayment_table Scenario5.dbP in
  let chain :=
    repayment_table
      (snd (recordPayments Scenario5.loanP Scenario8.proposals initialState
              Scenario5.dbP)) in
  List.length history = 2%nat
  /\ List.length chain = 3%nat
  /\ principalPaidOff Scenario5.loanP chain = true
  /\ forall i r,
       (List.length history <= i)%nat -> nth_error chain i = Some r ->
       interest_amount r = 0.
Proof.
  split; [reflexivity |]. split; [reflexivity |].
  apply (principal_paid_is_final Scenario5.loanP Scenario8.proposals
           initialState Scenario5.dbP).
  - vm_compute. repeat constructor; discriminate.
  - reflexivity.
Defined.

(** X5.  [handleSubmitPayment] never changes the amount message: both of
    its validations start from the messages of the same render and the
    date check's result is the one that is kept.  So a submission that is
    rejected for its amount alone, when no amount message was showing,
    ends with no message in either field. *)
Theorem submit_leaves_amount_message
    (loan : Loan) (today : Z) (form : PaymentFormData)
    (st : ComponentState) (db : Database) :
  let st' := snd (fst (handleSubmitPayment loan today form st db)) in
  amountError (validationErrors st') = amountError (validationErrors st)
  /\ (fst (validatePaymentInput loan st (AmountField (amountPaid form)))
      = false ->
      fst (validatePaymentInput loan st (DateField (repaymentDate form)))
      = true ->
      fst (fst (handleSubmitPayment loan today form st db))
      = ValidationRejected
      /\ validationErrors st'
         = mkErrors (amountError (validationErrors st)) NoDateError).
Proof.
  cbv zeta. split.
  - unfold handleSubmitPayment, validatePaymentInput.
    repeat match goal with
           | |- context [if ?c then _ else _] => destruct c
           | |- context [match Store.limit1 ?l with _ => _ end] =>
               destruct (Store.limit1 l)
           end;
      cbn [fst snd validationErrors amountError setValidationErrors
           setSubmitError];
      try reflexivity;
      unfold fetchRepayments;
      match goal with |- context [Store.order_desc ?t] =>
        destruct (Store.order_desc t) end;
      reflexivity.
  - intros Ha Hd. unfold handleSubmitPayment.
    destruct (validatePaymentInput loan st (AmountField _)) as [va ea].
    destruct (validatePaymentInput loan st (DateField _)) as [vd ed] eqn:Ed.
    cbn [fst] in Ha, Hd. subst va vd. cbn [negb orb fst snd].
    split; [reflexivity |].
    cbn [validationErrors setValidationErrors].
    unfold validatePaymentInput in Ed.
    repeat match type of Ed with
           | context [if ?c then _ else _] => destruct c
           end; inversion Ed; reflexivity.
Qed.

Lemma insert_by_date_Forall (P : Repayment -> Prop) r l :
  P r -> Forall P l -> Forall P (Store.insert_by_date r l).
Proof.
  intros Hr. induction 1 as [| x l Hx Hl IH]; simpl; [now constructor |].
  destruct (repayment_date r <? repayment_date x)%Z; repeat constructor; auto.
Qed.

Lemma order_asc_Forall (P : Repayment -> Prop) t :
  Forall P t -> Forall P (Store.order_asc t).
Proof.
  induction t as [| r t IH] using rev_ind; intro H; [constructor |].
  apply Forall_app in H as [Ht Hr]. inversion Hr; subst.
  rewrite order_asc_snoc. apply insert_by_date_Forall; auto.
Qed.

Lemma latestRepayment_snoc_latest (t : list Repayment) (r : Repayment) :
  Forall (fun x => date_le x r) t -> latestRepayment (t ++ [r]) = Some r.
Proof.
  intro H. unfold latestRepayment, Store.order_desc.
  rewrite order_asc_snoc, insert_by_date_last by now apply order_asc_Forall.
  rewrite rev_app_distr. reflexivity.
Qed.

(** X6.  After a payment dated after every repayment of the history is
    recorded, the dialog is up to date with it: the history it holds starts
    with the new repayment, the balance it shows is the new repayment's
    remaining balance, and the success flag is set. *)
Theorem recorded_payment_is_shown
    (loan : Loan) (today : Z) (form : PaymentFormData)
    (st : ComponentState) (db : Database) (r : Repayment) :
  Forall (fun x => (repayment_date x < repaymentDate form)%Z)
    (repayment_table db) ->
  fst (fst (recordPayment loan today form st db)) = Recorded r ->
  let st' := snd (fst (recordPayment loan today form st db)) in
  let db' := snd (recordPayment loan today form st db) in
  repayment_table db' = repayment_table db ++ [r]
  /\ hd_error (repayments st') = Some r
  /\ remainingBalance st' = remaining_balance r
  /\ submitSuccess st' = true.
Proof.
  intros Hlater Hout. cbv zeta.
  destruct (recordPayment_cases loan today form st db)
    as [[_ Hn] | (p & Hp & Hpos & Hle & Hd)]; [now apply Hn in Hout |].
  destruct (recordPayment_recorded loan today form st db p Hp Hpos Hle Hd)
    as (st' & s' & E & _ & _ & Hrep & Hbal & Hok).
  cbv zeta in E, Hrep, Hbal.
  rewrite E in Hout |- *. cbn [fst snd repayment_table] in *.
  injection Hout as Hr.
  assert (repayment_date r = repaymentDate form) as Hdr
    by (rewrite <- Hr; reflexivity).
  rewrite Hr in *.
  assert (latestRepayment (repayment_table db ++ [r]) = Some r) as Hlast.
  { apply latestRepayment_snoc_latest.
    eapply Forall_impl; [| exact Hlater].
    intros a Ha. cbv beta in Ha. unfold date_le. rewrite Hdr. lia. }
  split; [reflexivity |]. split; [| split; [| exact Hok]].
  - rewrite Hrep. exact Hlast.
  - rewrite Hbal. unfold currentBalance. now rewrite Hlast.
Qed.

Lemma recorded_payment_is_shown_witness :
  let result :=
    recordPayment Scenario.loanA (Scenario.day 30) Scenario.formA
      initialState (Scenario.openedDb Scenario.loanA) in
  let r :=
    mkRepayment (Scenario.day 30) 2000 (JS.toFixed2 (9863 # 100))
      (JS.Math_max 0 (10000 - 2000 + JS.toFixed2 (9863 # 100))) "Cash" "" in
  Forall (fun x => (repayment_date x < repaymentDate Scenario.formA)%Z)
    (repayment_table (Scenario.openedDb Scenario.loanA))
  /\ repayment_table (snd result)
     = repayment_table (Scenario.openedDb Scenario.loanA) ++ [r]
  /\ hd_error (repayments (snd (fst result))) = Some r
  /\ remainingBalance (snd (fst result)) = remaining_balance r
  /\ submitSuccess (snd (fst result)) = true.
Proof.
  assert (Forall (fun x => (repayment_date x < repaymentDate Scenario.formA)%Z)
            (repayment_table (Scenario.openedDb Scenario.loanA))) as H
    by (repeat constructor).
  split; [exact H |].
  apply (recorded_payment_is_shown Scenario.loanA (Scenario.day 30)
           Scenario.formA initialState (Scenario.openedDb Scenario.loanA)).
  - exact H.
  - vm_compute. reflexivity.
Defined.

(** X7.  [openPaymentModal] never touches the repayment table.  The
    remaining principal it computes is the principal less the total paid,
    floored at zero, so it is never negative, and it is zero (the dialog
    shows "PAID") exactly when the principal-paid flag is set. *)
Theorem openPaymentModal_remaining_principal
    (loan : Loan) (st : ComponentState) (db : Database) :
  let st' := fst (openPaymentModal loan st db) in
  let total := sumAmountPaid (Store.order_asc (repayment_table db)) in
  repayment_table (snd (openPaymentModal loan st db)) = repayment_table db
  /\ remainingPrincipal st' = JS.Math_max 0 (amount loan - total)
  /\ 0 <= remainingPrincipal st'
  /\ (remainingPrincipal st' <= 0 <-> isPrincipalPaid st' = true)
  /\ (isPrincipalPaid st' = false ->
      remainingPrincipal st' == amount loan - total).
Proof.
  cbv zeta.
  assert (remainingPrincipal (fst (openPaymentModal loan st db))
          = JS.Math_max 0
              (amount loan
               - sumAmountPaid (Store.order_asc (repayment_table db))))
    as Hrp.
  { unfold openPaymentModal.
    destruct (Store.order_asc (repayment_table db)) as [| x l];
      match goal with |- context [if ?c then _ else _] => destruct c end;
      reflexivity. }
  destruct (openPaymentModal_state loan st db) as (_ & _ & Hpaid & _).
  cbv zeta in Hpaid. unfold principalPaidOff in Hpaid.
  split; [apply openPaymentModal_table |]. split; [exact Hrp |].
  rewrite Hrp, Hpaid. unfold JS.Math_max.
  set (x := amount loan
            - sumAmountPaid (Store.order_asc (repayment_table db))).
  assert (0 <= Qmax 0 x) as H0 by apply Q.le_max_l.
  split; [exact H0 |]. split; [| intro H].
  - rewrite Qle_bool_iff. split; intro H.
    + destruct (Qlt_le_dec 0 x) as [Hx | Hx]; [| unfold x in Hx; lra].
      rewrite Qmax_0_nonneg in H by lra. lra.
    + rewrite Qmax_0_nonpos; unfold x; lra.
  - apply Qle_bool_false_iff in H. apply Qmax_0_nonneg. unfold x. lra.
Qed.

(** X8.  Once "Mark as Finished" has run on a history whose repayments are
    all dated before today, the dialog shows a balance of 0, so the button
    is gone whatever the [loan] prop says and a further click changes
    nothing. *)
Theorem markAsFinished_button_disappears
    (loan : Loan) (today : Z) (st : ComponentState) (db : Database) :
  Forall (fun r => (repayment_date r < todayDate today)%Z)
    (repayment_table db) ->
  markAsFinishedOffered loan st = true ->
  let st' := fst (clickMarkAsFinished loan today st db) in
  let db' := snd (clickMarkAsFinished loan today st db) in
  remainingBalance st' = 0
  /\ loan_status db' = Finished
  /\ forall loan' today',
       markAsFinishedOffered loan' st' = false
       /\ clickMarkAsFinished loan' today' st' db' = (st', db').
Proof.
  intros Hdates Hoff. cbv zeta.
  assert (JS.Qlt_bool 0 (remainingBalance st) = true) as Hpos.
  { unfold markAsFinishedOffered in Hoff.
    now apply andb_true_iff in Hoff as [Hoff _];
      apply andb_true_iff in Hoff as [Hoff _]. }
  set (closing := mkRepayment (todayDate today) (remainingBalance st) 0 0
                    "System"
                    "Loan marked as finished (balance less than ₹100)").
  assert (clickMarkAsFinished loan today st db
          = (fetchRepayments loan today st
               (mkDb Finished (repayment_table db ++ [closing])),
             mkDb Finished (repayment_table db ++ [closing]))) as E.
  { unfold clickMarkAsFinished. rewrite Hoff, handleMarkAsFinished_eq, Hpos.
    reflexivity. }
  rewrite E. cbn [fst snd loan_status].
  assert (latestRepayment (repayment_table db ++ [closing]) = Some closing)
    as Hlast.
  { apply latestRepayment_snoc_latest.
    eapply Forall_impl; [| exact Hdates].
    intros a Ha. cbv beta in Ha. unfold date_le, closing.
    cbn [repayment_date]. lia. }
  assert (remainingBalance
            (fetchRepayments loan today st
               (mkDb Finished (repayment_table db ++ [closing]))) = 0) as Hb.
  { rewrite fetchRepayments_remainingBalance. cbn [repayment_table].
    unfold currentBalance. now rewrite Hlast. }
  split; [exact Hb |]. split; [reflexivity |].
  intros loan' today'.
  assert (markAsFinishedOffered loan'
            (fetchRepayments loan today st
               (mkDb Finished (repayment_table db ++ [closing]))) = false)
    as Hno.
  { unfold markAsFinishedOffered. rewrite Hb. reflexivity. }
  split; [exact Hno |]. unfold clickMarkAsFinished. now rewrite Hno.
Qed.

Lemma markAsFinished_button_disappears_witness :
  let db := Scenario.openedDb Scenario7.loanS in
  let st0 := fetchRepayments Scenario7.loanS (Scenario.day 10) initialState
               db in
  let st' := fst (clickMarkAsFinished Scenario7.loanS (Scenario.day 10) st0
                    db) in
  let db' := snd (clickMarkAsFinished Scenario7.loanS (Scenario.day 10) st0
                    db) in
  (Forall (fun r => (repayment_date r < todayDate (Scenario.day 10))%Z)
     (repayment_table db)
   /\ markAsFinishedOffered Scenario7.loanS st0 = true)
  /\ List.length (repayment_table db') = 2%nat
  /\ remainingBalance st' = 0
  /\ loan_status db' = Finished
  /\ forall loan' today',
       markAsFinishedOffered loan' st' = false
       /\ clickMarkAsFinished loan' today' st' db' = (st', db').
Proof.
  cbv zeta.
  assert (Forall (fun r => (repayment_date r < todayDate (Scenario.day 10))%Z)
            (repayment_table (Scenario.openedDb Scenario7.loanS))) as Hd
    by (repeat constructor).
  split; [split; [exact Hd | reflexivity] |].
  split; [reflexivity |].
  apply (markAsFinished_button_disappears Scenario7.loanS (Scenario.day 10)
           (fetchRepayments Scenario7.loanS (Scenario.day 10) initialState
              (Scenario.openedDb Scenario7.loanS))
           (Scenario.openedDb Scenario7.loanS)).
  - exact Hd.
  - reflexivity.
Defined.

(** * Further properties of the dashboard metrics *)

Lemma sumQ_app (a b : list Q) : sumQ (a ++ b) == sumQ a + sumQ b.
Proof.
  unfold sumQ. induction a as [| x a IH]; cbn [app fold_right]; [ring |].
  rewrite IH. ring.
Qed.

(** The two running totals of the loop of [fetchLoanMetrics], whatever the
    store answers for each repayment table. *)
Lemma fold_left_metricsStep_any (repaymentsOf : Z -> option (list Repayment))
    (l : list Loan) :
  forall totals,
    let result := fold_left (metricsStep repaymentsOf) l totals in
    fst result
    == fst totals
       + sumQ (map (fun loan =>
                      match repaymentsOf (id loan) with
                      | Some table =>
                          currentBalance loan table
                          * (interest_rate loan / 100 / 365) * 30
                      | None => 0
                      end) l)
    /\ snd result
       == snd totals
          + sumQ (map (fun loan =>
                         match repaymentsOf (id loan) with
                         | Some table => currentBalance loan table
                         | None => 0
                         end) l).
Proof.
  induction l as [| x l IH]; intros [ti to];
    cbn [fold_left map sumQ fold_right fst snd]; [split; ring |].
  destruct (IH (metricsStep repaymentsOf (ti, to) x)) as [H1 H2].
  cbv zeta in H1, H2. rewrite H1, H2.
  unfold metricsStep, currentBalance.
  destruct (repaymentsOf (id x)) as [table |]; cbn [fst snd].
  - rewrite limit1_order_desc.
    destruct (latestRepayment table); cbn [fst snd]; unfold sumQ;
      split; ring.
  - unfold sumQ. split; ring.
Qed.

Lemma fetchLoanMetrics_any (loans : list Loan)
    (repaymentsOf : Z -> option (list Repayment)) :
  let active := filter (fun loan => LoanStatus_eqb (status loan) Active) loans in
  let m := fetchLoanMetrics loans repaymentsOf in
  activeLoans m = List.length active
  /\ totalPrincipal m == sumQ (map amount active)
  /\ interestToBePaid m
     == sumQ (map (fun loan =>
                     match repaymentsOf (id loan) with
                     | Some table =>
                         currentBalance loan table
                         * (interest_rate loan / 100 / 365) * 30
                     | None => 0
                     end) active)
  /\ outstandingAmount m
     == sumQ (map (fun loan =>
                     match repaymentsOf (id loan) with
                     | Some table => currentBalance loan table
                     | None => 0
                     end) active)
        + sumQ (map amount active).
Proof.
  intros active m. unfold m, fetchLoanMetrics. fold active.
  destruct (fold_left_metricsStep_any repaymentsOf active (0, 0)) as [H1 H2].
  cbv zeta in H1, H2.
  destruct (fold_left (metricsStep repaymentsOf) active (0, 0)) as [ti to].
  cbn [fst snd] in H1, H2.
  cbn [activeLoans totalPrincipal interestToBePaid outstandingAmount].
  pose proof (fold_left_principal active 0) as Hp.
  split; [reflexivity |]. split; [rewrite Hp; ring |].
  split; [rewrite H1; ring |]. rewrite H2, Hp. ring.
Qed.

Lemma sumQ_readable (repaymentsOf : Z -> option (list Repayment))
    (l : list Loan) (f : Loan -> list Repayment -> Q) :
  sumQ (map (fun loan =>
               match repaymentsOf (id loan) with
               | Some table => f loan table
               | None => 0
               end) l)
  == sumQ (map (fun loan =>
                  f loan match repaymentsOf (id loan) with
                         | Some table => table
                         | None => []
                         end)
             (filter (fun loan => match repaymentsOf (id loan) with
                                  | Some _ => true
                                  | None => false
                                  end) l)).
Proof.
  induction l as [| x l IH]; cbn [map filter]; [reflexivity |].
  cbv beta.
  destruct (repaymentsOf (id x)) as [table |] eqn:E;
    cbn [map sumQ fold_right]; cbv beta; rewrite ?E.
  - fold (sumQ (map (fun loan =>
               match repaymentsOf (id loan) with
               | Some table => f loan table
               | None => 0
               end) l)). rewrite IH. reflexivity.
  - fold (sumQ (map (fun loan =>
               match repaymentsOf (id loan) with
               | Some table => f loan table
               | None => 0
               end) l)). rewrite IH. ring.
Qed.

(** X9.  Whatever the store answers, [fetchLoanMetrics] counts the active
    loans and sums their principals; a loan whose repayment table cannot
    be read still counts and still adds its principal, but adds nothing to
    the projected interest and no balance to the outstanding amount. *)
Theorem fetchLoanMetrics_unreadable_tables
    (loans : list Loan) (repaymentsOf : Z -> option (list Repayment)) :
  let active := filter (fun loan => LoanStatus_eqb (status loan) Active) loans in
  let readable :=
    filter (fun loan => match repaymentsOf (id loan) with
                        | Some _ => true
                        | None => false
                        end) active in
  let tableOf loan :=
    match repaymentsOf (id loan) with Some table => table | None => [] end in
  let m := fetchLoanMetrics loans repaymentsOf in
  activeLoans m = List.length active
  /\ totalPrincipal m == sumQ (map amount active)
  /\ interestToBePaid m
     == sumQ (map (fun loan =>
                     currentBalance loan (tableOf loan)
                     * (interest_rate loan / 100 / 365) * 30) readable)
  /\ outstandingAmount m
     == sumQ (map (fun loan => currentBalance loan (tableOf loan)) readable)
        + sumQ (map amount active).
Proof.
  intros active readable tableOf m.
  destruct (fetchLoanMetrics_any loans repaymentsOf) as (H0 & H1 & H2 & H3).
  fold active in H0, H1, H2, H3. fold m in H0, H1, H2, H3.
  split; [exact H0 |]. split; [exact H1 |].
  pose proof (sumQ_readable repaymentsOf active) as Hsum.
  fold readable in Hsum. fold tableOf in Hsum.
  split.
  - rewrite H2.
    apply (Hsum (fun loan table =>
                   currentBalance loan table
                   * (interest_rate loan / 100 / 365) * 30)).
  - rewrite H3. rewrite (Hsum (fun loan table => currentBalance loan table)).
    reflexivity.
Qed.

(** X10.  The metrics of two lists of loans put together are the metrics of
    each added up, field by field; and loans that are not active change
    nothing. *)
Theorem fetchLoanMetrics_additive
    (loans1 loans2 : list Loan) (repaymentsOf : Z -> option (list Repayment)) :
  let m := fetchLoanMetrics (loans1 ++ loans2) repaymentsOf in
  let m1 := fetchLoanMetrics loans1 repaymentsOf in
  let m2 := fetchLoanMetrics loans2 repaymentsOf in
  activeLoans m = (activeLoans m1 + activeLoans m2)%nat
  /\ totalPrincipal m == totalPrincipal m1 + totalPrincipal m2
  /\ interestToBePaid m == interestToBePaid m1 + interestToBePaid m2
  /\ outstandingAmount m == outstandingAmount m1 + outstandingAmount m2
  /\ fetchLoanMetrics
       (filter (fun loan => LoanStatus_eqb (status loan) Active) loans1)
       repaymentsOf
     = m1.
Proof.
  intros m m1 m2.
  destruct (fetchLoanMetrics_any (loans1 ++ loans2) repaymentsOf)
    as (H0 & H1 & H2 & H3).
  destruct (fetchLoanMetrics_any loans1 repaymentsOf) as (A0 & A1 & A2 & A3).
  destruct (fetchLoanMetrics_any loans2 repaymentsOf) as (B0 & B1 & B2 & B3).
  cbv zeta in *. fold m in H0, H1, H2, H3. fold m1 in A0, A1, A2, A3.
  fold m2 in B0, B1, B2, B3.
  rewrite filter_app in H0, H1, H2, H3.
  rewrite map_app, sumQ_app in H1, H2.
  rewrite !map_app, !sumQ_app in H3.
  rewrite length_app in H0.
  split; [congruence |]. split; [rewrite H1, A1, B1; reflexivity |].
  split; [rewrite H2, A2, B2; reflexivity |].
  split; [rewrite H3, A3, B3; ring |].
  unfold m1, fetchLoanMetrics.
  assert (forall l : list Loan,
            filter (fun loan => LoanStatus_eqb (status loan) Active)
              (filter (fun loan => LoanStatus_eqb (status loan) Active) l)
            = filter (fun loan => LoanStatus_eqb (status loan) Active) l)
    as Hff.
  { induction l as [| x l IH]; cbn [filter]; [reflexivity |].
    destruct (LoanStatus_eqb (status x) Active) eqn:E; cbn [filter];
      [rewrite E, IH; reflexivity | exact IH]. }
  now rewrite Hff.
Qed.

(** * Properties of the reminders, one-time codes, sessions and loan form *)

Lemma ceil_days_bounds (t : Z) :
  let c := JS.Math_ceil (inject_Z t / inject_Z JS.msPerDay) in
  (t <= c * JS.msPerDay)%Z /\ ((c - 1) * JS.msPerDay < t)%Z.
Proof.
  unfold JS.Math_ceil. cbv zeta.
  assert (0 < JS.msPerDay)%Z as Hm by reflexivity.
  set (m := JS.msPerDay) in *.
  set (q := inject_Z t / inject_Z m).
  pose proof (Qle_ceiling q) as Hup.
  pose proof (Qceiling_lt q) as Hlo.
  set (c := Qceiling q) in *.
  assert (0 < inject_Z m) as Hmq
    by (change 0 with (inject_Z 0); rewrite <- Zlt_Qlt; exact Hm).
  assert (inject_Z t == q * inject_Z m) as Hq
    by (unfold q; field; lra).
  assert (inject_Z t <= inject_Z (c * m)) as H1.
  { rewrite inject_Z_mult, Hq. apply Qmult_le_compat_r; lra. }
  assert (inject_Z ((c - 1) * m) < inject_Z t) as H2.
  { rewrite inject_Z_mult, Hq. apply Qmult_lt_compat_r; assumption. }
  rewrite <- Zle_Qle in H1. rewrite <- Zlt_Qlt in H2. split; assumption.
Qed.

(** X11.  The remaining days of a reminder are the least whole number of
    days reaching from now to the due date: positive exactly when the due
    date is still ahead, 0 when the payment is overdue by less than a day,
    negative from one full day overdue on; for a due date not in the past
    it is the ledger's day count. *)
Theorem calculateRemainingDays_sign (dueDate today : Z) :
  let n := Reminders.calculateRemainingDays dueDate today in
  ((dueDate - today <= n * JS.msPerDay)%Z
   /\ ((n - 1) * JS.msPerDay < dueDate - today)%Z)
  /\ ((0 < n)%Z <-> (today < dueDate)%Z)
  /\ (n = 0%Z <-> (today - JS.msPerDay < dueDate <= today)%Z)
  /\ ((n < 0)%Z <-> (dueDate <= today - JS.msPerDay)%Z)
  /\ ((today <= dueDate)%Z -> n = diffDays dueDate today).
Proof.
  cbv zeta. unfold Reminders.calculateRemainingDays. cbv zeta.
  destruct (ceil_days_bounds (dueDate - today)) as [H1 H2].
  cbv zeta in H1, H2.
  set (n := JS.Math_ceil (inject_Z (dueDate - today) / inject_Z JS.msPerDay))
    in *.
  assert (0 < JS.msPerDay)%Z as Hm by reflexivity.
  split; [split; assumption |].
  split; [split; intro H; nia |].
  split; [split; intro H; [subst n; nia | nia] |].
  split; [split; intro H; nia |].
  intro H. unfold diffDays, JS.Math_abs.
  rewrite Z.abs_eq by lia. reflexivity.
Qed.

Lemma str_eqb_eq (a b : jsstring) : str_eqb a b = true <-> a = b.
Proof.
  revert b. induction a as [| x a IH]; intros [| y b]; cbn [str_eqb];
    try (split; [discriminate | discriminate]); [split; reflexivity |].
  rewrite andb_true_iff, N.eqb_eq, IH. split.
  - intros [-> ->]. reflexivity.
  - intro H. injection H as -> ->. split; reflexivity.
Qed.

Lemma str_eqb_refl (a : jsstring) : str_eqb a a = true.
Proof. now apply str_eqb_eq. Qed.

Lemma str_eqb_neq (a b : jsstring) : a <> b -> str_eqb a b = false.
Proof.
  intro H. destruct (str_eqb a b) eqn:E; [| reflexivity].
  apply str_eqb_eq in E. contradiction.
Qed.

Lemma otp_filter_deleted (otps : list Otp.OtpRow) (e : jsstring) :
  filter (fun row => str_eqb (Otp.email row) e) (Otp.deleteByEmail otps e) = [].
Proof.
  unfold Otp.deleteByEmail.
  induction otps as [| x l IH]; cbn [filter]; [reflexivity |].
  destruct (str_eqb (Otp.email x) e) eqn:E; cbn [negb filter];
    [exact IH | rewrite E; exact IH].
Qed.

Lemma otp_filter_other (otps : list Otp.OtpRow) (e e' : jsstring) :
  e' <> e ->
  filter (fun row => str_eqb (Otp.email row) e') (Otp.deleteByEmail otps e)
  = filter (fun row => str_eqb (Otp.email row) e') otps.
Proof.
  intro Hne. unfold Otp.deleteByEmail.
  induction otps as [| x l IH]; cbn [filter]; [reflexivity |].
  destruct (str_eqb (Otp.email x) e) eqn:E; cbn [negb filter].
  - apply str_eqb_eq in E.
    assert (str_eqb (Otp.email x) e' = false) as ->
      by (apply str_eqb_neq; congruence).
    exact IH.
  - destruct (str_eqb (Otp.email x) e'); [rewrite IH |]; auto.
Qed.

Lemma otp_stored_table (otps : list Otp.OtpRow) (e o : jsstring) (x : Z) :
  filter (fun row => str_eqb (Otp.email row) e)
    (Otp.deleteByEmail otps e ++ [Otp.mkOtpRow e o x])
  = [Otp.mkOtpRow e o x].
Proof.
  rewrite filter_app, otp_filter_deleted. cbn [filter Otp.email app].
  now rewrite str_eqb_refl.
Qed.

Lemma otp_selectSingle_deleted (otps : list Otp.OtpRow) (e : jsstring) :
  Otp.selectSingle (Otp.deleteByEmail otps e) e = None.
Proof. unfold Otp.selectSingle. now rewrite otp_filter_deleted. Qed.

Lemma otp_verify_after_delete (otps : list Otp.OtpRow) (e a : jsstring)
    (now : Z) :
  Otp.verifyOTP (Otp.deleteByEmail otps e) e a now
  = (false, Otp.deleteByEmail otps e).
Proof. unfold Otp.verifyOTP. now rewrite otp_selectSingle_deleted. Qed.

(** X12.  After [storeOTP] there is exactly one code on file for the
    email, and it has not expired, whatever the table held for that email
    before (nothing, an expired code, or several rows); the rows of other
    emails are as they were.  The code on file is the new one, valid for
    ten minutes, unless an unexpired code was already there, in which case
    the table is left untouched. *)
Theorem storeOTP_one_code
    (otps : list Otp.OtpRow) (e o : jsstring) (now : Z) :
  let result := Otp.storeOTP otps e o now in
  (exists row,
     filter (fun r => str_eqb (Otp.email r) e) (snd result) = [row]
     /\ (now < Otp.expires_at row)%Z
     /\ (fst result = Otp.Stored ->
         row = Otp.mkOtpRow e o (now + 600000))
     /\ (fst result = Otp.UsingExisting -> snd result = otps))
  /\ (fst result = Otp.UsingExisting
      <-> Otp.checkExistingValidOTP otps e now = true)
  /\ forall e', e' <> e ->
       filter (fun r => str_eqb (Otp.email r) e') (snd result)
       = filter (fun r => str_eqb (Otp.email r) e') otps.
Proof.
  cbv zeta. unfold Otp.storeOTP.
  destruct (Otp.checkExistingValidOTP otps e now) eqn:Ev; cbn [fst snd].
  - split; [| split; [tauto | reflexivity]].
    unfold Otp.checkExistingValidOTP, Otp.selectSingle in Ev.
    destruct (filter (fun row => str_eqb (Otp.email row) e) otps)
      as [| row [| row' l]] eqn:Ef; try discriminate.
    exists row. apply Z.ltb_lt in Ev.
    repeat split; [exact Ev | discriminate].
  - split; [| split; [split; discriminate |]].
    + exists (Otp.mkOtpRow e o (now + 600000)).
      split; [apply otp_stored_table |]. cbn [Otp.expires_at].
      repeat split; [lia | discriminate].
    + intros e' Hne. rewrite filter_app, (otp_filter_other _ _ _ Hne).
      cbn [filter Otp.email].
      assert (str_eqb e e' = false) as -> by (apply str_eqb_neq; congruence).
      apply app_nil_r.
Qed.

(** X13.  A code that [storeOTP] stored at time [now] verifies once at any
    time up to ten minutes later, and is then removed; a different attempt
    in that window is refused and leaves the code on file; past ten minutes
    every attempt is refused and the code is removed. *)
Theorem stored_code_verifies_for_ten_minutes
    (otps : list Otp.OtpRow) (e o : jsstring) (now : Z) :
  fst (Otp.storeOTP otps e o now) = Otp.Stored ->
  let table := snd (Otp.storeOTP otps e o now) in
  forall now' attempt,
    ((now' <= now + 600000)%Z ->
     Otp.verifyOTP table e o now' = (true, Otp.deleteByEmail table e)
     /\ (attempt <> o ->
         Otp.verifyOTP table e attempt now' = (false, table)))
    /\ ((now + 600000 < now')%Z ->
        Otp.verifyOTP table e attempt now'
        = (false, Otp.deleteByEmail table e)).
Proof.
  unfold Otp.storeOTP.
  destruct (Otp.checkExistingValidOTP otps e now); [discriminate |].
  cbn [fst snd]. intros _ now' attempt.
  unfold Otp.verifyOTP, Otp.selectSingle.
  rewrite otp_stored_table. cbn [Otp.expires_at Otp.otp].
  change (Otp.OTP_EXPIRY_MINUTES * 60000)%Z with 600000%Z.
  split.
  - intro H. assert ((now + 600000 <? now')%Z = false) as ->
      by (apply Z.ltb_ge; lia).
    split; [now rewrite str_eqb_refl |].
    intro Hne. rewrite str_eqb_neq by congruence. reflexivity.
  - intro H. assert ((now + 600000 <? now')%Z = true) as ->
      by (apply Z.ltb_lt; lia).
    reflexivity.
Qed.

Lemma stored_code_verifies_for_ten_minutes_witness :
  let e := js "a@b.c" in
  let o := js "123456" in
  let attempt := js "654321" in
  let table := snd (Otp.storeOTP [] e o 1000) in
  ((5000 <= 1000 + 600000)%Z ->
   Otp.verifyOTP table e o 5000 = (true, Otp.deleteByEmail table e)
   /\ (attempt <> o ->
       Otp.verifyOTP table e attempt 5000 = (false, table)))
  /\ ((1000 + 600000 < 5000)%Z ->
      Otp.verifyOTP table e attempt 5000
      = (false, Otp.deleteByEmail table e)).
Proof.
  apply (stored_code_verifies_for_ten_minutes [] (js "a@b.c") (js "123456")
           1000 eq_refl 5000 (js "654321")).
Defined.

(** X14.  A code can be used once: after a successful [verifyOTP] no row
    is left for the email, so every further attempt for it is refused,
    with any code and at any time, until a new code is stored; the rows of
    other emails are as they were. *)
Theorem verified_code_is_consumed
    (otps : list Otp.OtpRow) (e attempt : jsstring) (now : Z) :
  fst (Otp.verifyOTP otps e attempt now) = true ->
  let otps' := snd (Otp.verifyOTP otps e attempt now) in
  filter (fun r => str_eqb (Otp.email r) e) otps' = []
  /\ (forall attempt' now',
        Otp.verifyOTP otps' e attempt' now' = (false, otps'))
  /\ (forall e', e' <> e ->
        filter (fun r => str_eqb (Otp.email r) e') otps'
        = filter (fun r => str_eqb (Otp.email r) e') otps)
  /\ exists row,
       filter (fun r => str_eqb (Otp.email r) e) otps = [row]
       /\ Otp.otp row = attempt /\ (now <= Otp.expires_at row)%Z.
Proof.
  unfold Otp.verifyOTP, Otp.selectSingle.
  destruct (filter (fun row => str_eqb (Otp.email row) e) otps)
    as [| row [| row' l]] eqn:Ef; try discriminate.
  destruct (Otp.expires_at row <? now)%Z eqn:Ex; [discriminate |].
  destruct (str_eqb (Otp.otp row) attempt) eqn:Eo; [| discriminate].
  cbn [fst snd]. intros _.
  split; [apply otp_filter_deleted |].
  split; [intros; apply otp_verify_after_delete |].
  split; [intros e' Hne; now apply otp_filter_other |].
  exists row. split; [reflexivity |]. split; [now apply str_eqb_eq |].
  now apply Z.ltb_ge.
Qed.

Lemma verified_code_is_consumed_witness :
  let e := js "a@b.c" in
  let o := js "123456" in
  let otps := snd (Otp.storeOTP [] e o 1000) in
  let otps' := snd (Otp.verifyOTP otps e o 5000) in
  filter (fun r => str_eqb (Otp.email r) e) otps' = []
  /\ (forall attempt' now',
        Otp.verifyOTP otps' e attempt' now' = (false, otps'))
  /\ (forall e', e' <> e ->
        filter (fun r => str_eqb (Otp.email r) e') otps'
        = filter (fun r => str_eqb (Otp.email r) e') otps)
  /\ exists row,
       filter (fun r => str_eqb (Otp.email r) e) otps = [row]
       /\ Otp.otp row = o /\ (5000 <= Otp.expires_at row)%Z.
Proof.
  apply (verified_code_is_consumed
           (snd (Otp.storeOTP [] (js "a@b.c") (js "123456") 1000))
           (js "a@b.c") (js "123456") 5000).
  reflexivity.
Defined.

(** X15.  When an unexpired code is already on file, [requestOTP] leaves
    the table as it is and still mails the freshly generated code.  Unless
    the two codes happen to be equal, the mailed code is refused at any
    time, while the code on file keeps verifying until it expires. *)
Theorem requestOTP_mails_unstored_code
    (otps : list Otp.OtpRow) (e generated : jsstring) (now : Z)
    (sendOk : bool) (row : Otp.OtpRow) :
  Otp.selectSingle otps e = Some row ->
  (now < Otp.expires_at row)%Z ->
  Otp.otp row <> generated ->
  let result := Otp.requestOTP otps e generated now sendOk in
  let mailed := snd (fst result) in
  let otps' := snd result in
  fst (fst result) = sendOk
  /\ mailed = generated
  /\ otps' = otps
  /\ (forall now', fst (Otp.verifyOTP otps' e mailed now') = false)
  /\ (forall now', (now' <= Otp.expires_at row)%Z ->
        fst (Otp.verifyOTP otps' e (Otp.otp row) now') = true).
Proof.
  intros Hrow Hvalid Hne. cbv zeta.
  unfold Otp.requestOTP, Otp.storeOTP, Otp.checkExistingValidOTP.
  rewrite Hrow. apply Z.ltb_lt in Hvalid. rewrite Hvalid. cbn [fst snd].
  repeat split.
  - intro now'. unfold Otp.verifyOTP. rewrite Hrow.
    destruct (Otp.expires_at row <? now')%Z; [reflexivity |].
    now rewrite (str_eqb_neq _ _ Hne).
  - intros now' H. unfold Otp.verifyOTP. rewrite Hrow.
    assert ((Otp.expires_at row <? now')%Z = false) as ->
      by (apply Z.ltb_ge; lia).
    now rewrite str_eqb_refl.
Qed.

Lemma requestOTP_mails_unstored_code_witness :
  let e := js "a@b.c" in
  let otps := snd (Otp.storeOTP [] e (js "123456") 1000) in
  let result := Otp.requestOTP otps e (js "654321") 40000 true in
  let mailed := snd (fst result) in
  let otps' := snd result in
  fst (fst result) = true
  /\ mailed = js "654321"
  /\ otps' = otps
  /\ (forall now', fst (Otp.verifyOTP otps' e mailed now') = false)
  /\ (forall now', (now' <= 601000)%Z ->
        fst (Otp.verifyOTP otps' e (js "123456") now') = true).
Proof.
  apply (requestOTP_mails_unstored_code
           (snd (Otp.storeOTP [] (js "a@b.c") (js "123456") 1000))
           (js "a@b.c") (js "654321") 40000 true
           (Otp.mkOtpRow (js "a@b.c") (js "123456") 601000)).
  - reflexivity.
  - reflexivity.
  - vm_compute. discriminate.
Defined.

Lemma session_filter_deleted (l : list Session.SessionRow) (v : jsstring) :
  filter (fun row => str_eqb (Session.session_id row) v)
    (Session.deleteById l v) = [].
Proof.
  unfold Session.deleteById.
  induction l as [| x l IH]; cbn [filter]; [reflexivity |].
  destruct (str_eqb (Session.session_id x) v) eqn:E; cbn [negb filter];
    [exact IH | rewrite E; exact IH].
Qed.

Lemma session_filter_other (l : list Session.SessionRow) (v v' : jsstring) :
  v' <> v ->
  filter (fun row => str_eqb (Session.session_id row) v')
    (Session.deleteById l v)
  = filter (fun row => str_eqb (Session.session_id row) v') l.
Proof.
  intro Hne. unfold Session.deleteById.
  induction l as [| x l IH]; cbn [filter]; [reflexivity |].
  destruct (str_eqb (Session.session_id x) v) eqn:E; cbn [negb filter].
  - apply str_eqb_eq in E.
    assert (str_eqb (Session.session_id x) v' = false) as ->
      by (apply str_eqb_neq; congruence).
    exact IH.
  - destruct (str_eqb (Session.session_id x) v'); [rewrite IH |]; auto.
Qed.

(** X16.  Signing in and staying signed in: when [POST /api/otp/verify]
    answers 200 with a session id that no stored session uses yet, the code
    it checked is consumed, the cookie holds the session id, and the
    session check answers authenticated for that email at any time up to
    one day later without changing anything; after one day it answers
    expired and removes the session, and from then on invalid. *)
Theorem verified_login_opens_session
    (w : Session.World) (e o sessionId : jsstring) (now : Z) (e' : jsstring) :
  fst (Session.verifyPOST w e o sessionId now) = Session.Verified e' ->
  filter (fun row => str_eqb (Session.session_id row) sessionId)
    (Session.user_sessions w) = [] ->
  let w' := snd (Session.verifyPOST w e o sessionId now) in
  e' = e
  /\ includesAt e = true /\ List.length o = 6%nat
  /\ Session.cookie w' = Some sessionId
  /\ filter (fun r => str_eqb (Otp.email r) e) (Session.otps w') = []
  /\ (forall now', (now' <= now + JS.msPerDay)%Z ->
        Session.checkSessionGET w' now' = (Session.Authenticated e true, w'))
  /\ (forall now', (now + JS.msPerDay < now')%Z ->
        fst (Session.checkSessionGET w' now') = Session.SessionExpired
        /\ forall now'',
             fst (Session.checkSessionGET
                    (snd (Session.checkSessionGET w' now')) now'')
             = Session.InvalidSession).
Proof.
  unfold Session.verifyPOST.
  destruct (match e with [] => true | _ :: _ => false end
            || negb (includesAt e)) eqn:Ee; [discriminate |].
  destruct (match o with [] => true | _ :: _ => false end
            || negb (Nat.eqb (List.length o) 6)) eqn:Eo; [discriminate |].
  destruct (Otp.verifyOTP (Session.otps w) e o now) as [isValid otps'] eqn:Ev.
  destruct isValid; [| discriminate].
  cbn [negb fst snd]. intros He Hfresh. injection He as <-.
  apply orb_false_iff in Ee as [_ Ee]. apply negb_false_iff in Ee.
  apply orb_false_iff in Eo as [_ Eo]. apply negb_false_iff in Eo.
  apply Nat.eqb_eq in Eo.
  assert (fst (Otp.verifyOTP (Session.otps w) e o now) = true) as Hv
    by now rewrite Ev.
  assert (otps' = snd (Otp.verifyOTP (Session.otps w) e o now)) as Ho
    by now rewrite Ev.
  assert (filter (fun r => str_eqb (Otp.email r) e) otps' = []) as Hconsumed.
  { revert Hv. rewrite Ho. unfold Otp.verifyOTP, Otp.selectSingle.
    destruct (filter (fun row => str_eqb (Otp.email row) e) (Session.otps w))
      as [| row [| row' l]]; try discriminate.
    destruct (Otp.expires_at row <? now)%Z; [discriminate |].
    destruct (str_eqb (Otp.otp row) o); [| discriminate].
    intros _. apply otp_filter_deleted. }
  set (row := Session.mkSessionRow e sessionId (now + JS.msPerDay) true).
  assert (filter (fun r => str_eqb (Session.session_id r) sessionId)
            (Session.user_sessions w ++ [row]) = [row]) as Hsel.
  { rewrite filter_app, Hfresh. cbn [filter Session.session_id row app].
    now rewrite str_eqb_refl. }
  split; [reflexivity |]. split; [exact Ee |]. split; [exact Eo |].
  cbn [Session.cookie Session.otps].
  split; [reflexivity |]. split; [exact Hconsumed |].
  unfold Session.checkSessionGET, Session.selectSingle.
  cbn [Session.cookie Session.user_sessions Session.otps].
  rewrite Hsel. cbn [Session.expires_at Session.email Session.verified row].
  split.
  - intros now' H.
    assert ((now + JS.msPerDay <? now')%Z = false) as ->
      by (apply Z.ltb_ge; lia).
    reflexivity.
  - intros now' H.
    assert ((now + JS.msPerDay <? now')%Z = true) as ->
      by (apply Z.ltb_lt; lia).
    cbn [fst snd Session.cookie Session.user_sessions].
    split; [reflexivity |]. intro now''.
    now rewrite session_filter_deleted.
Qed.

Lemma verified_login_opens_session_witness :
  let e := js "a@b.c" in
  let o := js "123456" in
  let sid := js "k3j9x0q1" in
  let w := Session.mkWorld (snd (Otp.storeOTP [] e o 1000)) [] None in
  let w' := snd (Session.verifyPOST w e o sid 5000) in
  e = e
  /\ includesAt e = true /\ List.length o = 6%nat
  /\ Session.cookie w' = Some sid
  /\ filter (fun r => str_eqb (Otp.email r) e) (Session.otps w') = []
  /\ (forall now', (now' <= 5000 + JS.msPerDay)%Z ->
        Session.checkSessionGET w' now' = (Session.Authenticated e true, w'))
  /\ (forall now', (5000 + JS.msPerDay < now')%Z ->
        fst (Session.checkSessionGET w' now') = Session.SessionExpired
        /\ forall now'',
             fst (Session.checkSessionGET
                    (snd (Session.checkSessionGET w' now')) now'')
             = Session.InvalidSession).
Proof.
  apply (verified_login_opens_session
           (Session.mkWorld
              (snd (Otp.storeOTP [] (js "a@b.c") (js "123456") 1000)) [] None)
           (js "a@b.c") (js "123456") (js "k3j9x0q1") 5000 (js "a@b.c")).
  - reflexivity.
  - reflexivity.
Defined.

(** X17.  Logging out ends the session for good: the cookie is cleared, so
    the session check answers that there is no cookie, and every stored
    session with that id is removed, so even a request that presents the
    old cookie again is answered invalid; sessions with other ids are as
    they were. *)
Theorem logout_ends_session (w : Session.World) (now : Z) :
  let w' := Session.logoutPOST w in
  Session.cookie w' = None
  /\ Session.checkSessionGET w' now = (Session.NoSessionCookie, w')
  /\ Session.otps w' = Session.otps w
  /\ forall value,
       Session.cookie w = Some value ->
       let replay :=
         Session.mkWorld (Session.otps w') (Session.user_sessions w')
           (Some value) in
       Session.checkSessionGET replay now = (Session.InvalidSession, replay)
       /\ forall value', value' <> value ->
            filter (fun r => str_eqb (Session.session_id r) value')
              (Session.user_sessions w')
            = filter (fun r => str_eqb (Session.session_id r) value')
                (Session.user_sessions w).
Proof.
  cbv zeta. unfold Session.logoutPOST.
  destruct (Session.cookie w) as [value |] eqn:Ec.
  - cbn [Session.cookie Session.otps Session.user_sessions].
    split; [reflexivity |]. split; [reflexivity |]. split; [reflexivity |].
    intros v Hv. injection Hv as <-.
    unfold Session.checkSessionGET, Session.selectSingle.
    cbn [Session.cookie Session.user_sessions].
    rewrite session_filter_deleted. split; [reflexivity |].
    intros value' Hne. now apply session_filter_other.
  - split; [exact Ec |]. split.
    + unfold Session.checkSessionGET. now rewrite Ec.
    + split; [reflexivity |]. intros v Hv. discriminate.
Qed.

(** X18.  The loan form inserts a row exactly when both names and the
    start date are filled in, the amount and the term are positive and the
    rate is not negative; otherwise it shows an error and leaves the table
    as it is.  So a table in which every loan has a positive principal, a
    non-negative rate and a positive term stays that way. *)
Theorem loan_form_checks
    (loans : list LoanForm.LoanRow) (formData : LoanForm.LoanFormData) :
  let result := LoanForm.handleSubmit loans formData in
  let sound (row : LoanForm.LoanRow) :=
    0 < LoanForm.row_amount row /\ 0 <= LoanForm.interest_rate row
    /\ 0 < LoanForm.term_months row in
  (fst result = None
   <-> LoanForm.firstName formData <> [] /\ LoanForm.lastName formData <> []
       /\ 0 < LoanForm.amount formData
       /\ 0 <= LoanForm.interestRate formData
       /\ 0 < LoanForm.termMonths formData
       /\ LoanForm.startDate formData <> [])
  /\ (fst result <> None -> snd result = loans)
  /\ (fst result = None ->
      exists row,
        snd result = loans ++ [row]
        /\ LoanForm.row_amount row = LoanForm.amount formData
        /\ LoanForm.interest_rate row = LoanForm.interestRate formData
        /\ LoanForm.term_months row = LoanForm.termMonths formData
        /\ sound row)
  /\ (Forall sound loans -> Forall sound (snd result)).
Proof.
  cbv zeta. unfold LoanForm.handleSubmit.
  assert (forall (err : LoanForm.FormError) (C : Prop),
            ~ C ->
            (fst (Some err, loans) = None <-> C)
            /\ (fst (Some err, loans) <> None -> snd (Some err, loans) = loans)
            /\ (fst (Some err, loans) = None ->
                exists row,
                  snd (Some err, loans) = loans ++ [row]
                  /\ LoanForm.row_amount row = LoanForm.amount formData
                  /\ LoanForm.interest_rate row
                     = LoanForm.interestRate formData
                  /\ LoanForm.term_months row = LoanForm.termMonths formData
                  /\ (0 < LoanForm.row_amount row
                      /\ 0 <= LoanForm.interest_rate row
                      /\ 0 < LoanForm.term_months row))
            /\ (Forall (fun row =>
                          0 < LoanForm.row_amount row
                          /\ 0 <= LoanForm.interest_rate row
                          /\ 0 < LoanForm.term_months row) loans ->
                Forall (fun row =>
                          0 < LoanForm.row_amount row
                          /\ 0 <= LoanForm.interest_rate row
                          /\ 0 < LoanForm.term_months row)
                  (snd (Some err, loans)))) as Hrej.
  { intros err C HC. cbn [fst snd].
    split; [split; [discriminate | tauto] |].
    split; [reflexivity |]. split; [discriminate | auto]. }
  destruct (LoanForm.firstName formData) as [| c1 f1] eqn:E1;
    cbn [LoanForm.isEmpty orb].
  { apply Hrej. tauto. }
  destruct (LoanForm.lastName formData) as [| c2 f2] eqn:E2;
    cbn [LoanForm.isEmpty].
  { apply Hrej. tauto. }
  destruct (Qle_bool (LoanForm.amount formData) 0) eqn:Ea.
  { apply Qle_bool_iff in Ea. apply Hrej. intros (_ & _ & H & _). lra. }
  apply Qle_bool_false_iff in Ea.
  destruct (JS.Qlt_bool (LoanForm.interestRate formData) 0) eqn:Er.
  { apply Qlt_bool_iff in Er. apply Hrej. intros (_ & _ & _ & H & _). lra. }
  apply Qlt_bool_false_iff in Er.
  destruct (Qle_bool (LoanForm.termMonths formData) 0) eqn:Et.
  { apply Qle_bool_iff in Et. apply Hrej.
    intros (_ & _ & _ & _ & H & _). lra. }
  apply Qle_bool_false_iff in Et.
  destruct (LoanForm.startDate formData) as [| c3 f3] eqn:E3;
    cbn [LoanForm.isEmpty].
  { apply Hrej. tauto. }
  clear Hrej.
  cbn [fst snd].
  split; [split; [intros _; repeat split; (discriminate || assumption)
                 | reflexivity] |].
  split; [congruence |]. split.
  - intros _. eexists. split; [reflexivity |].
    cbn [LoanForm.row_amount LoanForm.interest_rate LoanForm.term_months].
    repeat split; assumption.
  - intro H. apply Forall_app. split; [exact H |].
    constructor; [| constructor].
    cbn [LoanForm.row_amount LoanForm.interest_rate LoanForm.term_months].
    repeat split; assumption.
Qed.

Lemma startsWith_iff (path prefix : jsstring) :
  Request.startsWith path prefix = true <-> exists rest, path = prefix ++ rest.
Proof.
  revert path. induction prefix as [| c prefix IH]; intros path.
  - assert (Request.startsWith path [] = true) as ->
      by (destruct path; reflexivity).
    split; [intros _; exists path; reflexivity | reflexivity].
  - destruct path as [| d path]; cbn [Request.startsWith].
    + split; [discriminate | intros [rest H]; discriminate].
    + rewrite andb_true_iff, N.eqb_eq, IH. split.
      * intros [-> [rest ->]]. exists rest. reflexivity.
      * intros [rest H]. injection H as -> ->. split; eauto.
Qed.

(** X19.  The route guard redirects to the verification page, carrying the
    requested path, exactly the requests that have no [session_id] cookie
    and whose path is [/dashboard] or starts with [/dashboard/]; a path
    that merely begins with the letters of [/dashboard] is not guarded,
    and a request with a cookie passes whatever the cookie holds. *)
Theorem middleware_guard (path : jsstring) (sessionCookie : option jsstring) :
  let protected :=
    path = js "/dashboard" \/ exists rest, path = js "/dashboard/" ++ rest in
  (Request.middleware path sessionCookie = Request.RedirectToVerify path
   <-> protected /\ sessionCookie = None)
  /\ (Request.middleware path sessionCookie = Request.Next
      <-> ~ protected \/ sessionCookie <> None)
  /\ (forall value, Request.middleware path (Some value) = Request.Next)
  /\ (forall c rest,
        path = js "/dashboard" ++ c :: rest -> c <> 47%N ->
        Request.middleware path sessionCookie = Request.Next).
Proof.
  cbv zeta. unfold Request.middleware, Request.PROTECTED_PATHS.
  cbn [existsb]. rewrite orb_false_r.
  assert (str_eqb path (js "/dashboard")
          || Request.startsWith path (js "/dashboard" ++ js "/") = true
          <-> path = js "/dashboard"
              \/ exists rest, path = js "/dashboard/" ++ rest) as Hp.
  { rewrite orb_true_iff, str_eqb_eq, startsWith_iff. reflexivity. }
  destruct (str_eqb path (js "/dashboard")
            || Request.startsWith path (js "/dashboard" ++ js "/")) eqn:E;
    cbn [negb].
  - assert (path = js "/dashboard"
            \/ exists rest, path = js "/dashboard/" ++ rest) as Hprot
      by (now apply Hp).
    split; [| split; [| split]].
    + destruct sessionCookie as [value |]; cbn [negb].
      * split; [discriminate | intros [_ H]; discriminate].
      * split; [intros _; split; [exact Hprot | reflexivity] | reflexivity].
    + destruct sessionCookie as [value |]; cbn [negb].
      * split; [intros _; right; discriminate | reflexivity].
      * split; [discriminate | intros [H | H]; [tauto | congruence]].
    + reflexivity.
    + intros c rest Hpath Hc. exfalso.
      destruct Hprot as [H | [rest' H]]; rewrite H in Hpath.
      * apply (f_equal (@List.length _)) in Hpath.
        rewrite length_app in Hpath. cbn in Hpath. lia.
      * cbn in Hpath. injection Hpath as Hc' _. congruence.
  - assert (~ (path = js "/dashboard"
               \/ exists rest, path = js "/dashboard/" ++ rest)) as Hprot
      by (intro H; apply Hp in H; discriminate).
    split; [| split; [| split]].
    + split; [discriminate | tauto].
    + split; [tauto | reflexivity].
    + reflexivity.
    + reflexivity.
Qed.

Lemma existsb_normalized (env : Request.Env) (n s : jsstring) :
  existsb (str_eqb n) (Request.normalizedList env s) = true
  <-> n <> []
      /\ exists entry,
           In entry (Request.split_comma s)
           /\ Request.toLowerCase env (Request.trim entry) = n.
Proof.
  unfold Request.normalizedList. rewrite existsb_exists. split.
  - intros (x & Hin & Hx). apply str_eqb_eq in Hx. subst x.
    apply filter_In in Hin as [Hin Hlen].
    apply in_map_iff in Hin as (entry & He & Hentry).
    split; [| eauto].
    intro Hn. rewrite Hn in Hlen. discriminate.
  - intros (Hn & entry & Hentry & He). exists n.
    split; [| apply str_eqb_refl].
    apply filter_In. split.
    + apply in_map_iff. eauto.
    + destruct n; [contradiction | reflexivity].
Qed.

(** X20.  [isAuthorizedEmail] accepts an email exactly when it is not
    empty, its trimmed, lower-cased form is not empty and equals the
    trimmed, lower-cased form of one of the comma-separated entries of the
    configured list ([NEXT_PUBLIC_AUTHORIZED_EMAILS], else
    [AUTHORIZED_EMAILS]); blank entries authorize nobody.  The route's own
    check accepts, besides the entries of [AUTHORIZED_EMAILS], one fixed
    address whatever is configured; so with [NEXT_PUBLIC_AUTHORIZED_EMAILS]
    unset, whoever the first check accepts the second accepts too. *)
Theorem authorized_emails (env : Request.Env) (email : jsstring) :
  let n := Request.toLowerCase env (Request.trim email) in
  let configured :=
    Request.orElse (Request.NEXT_PUBLIC_AUTHORIZED_EMAILS env)
      (Request.orElse (Request.AUTHORIZED_EMAILS env) []) in
  (Request.isAuthorizedEmail env email = true
   <-> email <> [] /\ n <> []
       /\ exists entry,
            In entry (Request.split_comma configured)
            /\ Request.toLowerCase env (Request.trim entry) = n)
  /\ (email <> [] -> n = js "stoicgreek2006@gmail.com" ->
      Request.serverCheckAuthorizedEmail env email = true)
  /\ (Request.NEXT_PUBLIC_AUTHORIZED_EMAILS env = None ->
      Request.isAuthorizedEmail env email = true ->
      Request.serverCheckAuthorizedEmail env email = true).
Proof.
  cbv zeta. split; [| split].
  - unfold Request.isAuthorizedEmail.
    destruct email as [| c email'] eqn:Ee.
    + split; [discriminate | intros [H _]; congruence].
    + rewrite existsb_normalized. split.
      * intros [H1 H2]. split; [discriminate | split; assumption].
      * intros (_ & H1 & H2). split; assumption.
  - intros He Hn. unfold Request.serverCheckAuthorizedEmail.
    destruct email as [| c email']; [congruence |].
    rewrite Hn, str_eqb_refl. apply orb_true_r.
  - intros Hpub H.
    unfold Request.isAuthorizedEmail, Request.serverCheckAuthorizedEmail in *.
    destruct email as [| c email']; [discriminate |].
    rewrite Hpub in H. cbn [Request.orElse] in H. rewrite H. reflexivity.
Qed.

(** X21.  A request inside the rate-limit window changes nothing: when the
    last accepted request for the (trimmed) email was less than thirty
    seconds ago, no code is generated, stored or mailed and the window is
    not restarted; an authorized caller is told that a code was already
    sent if an unexpired one is on file, and to wait otherwise. *)
Theorem rate_limited_request_changes_nothing
    (env : Request.Env) (st : Request.State) (email : jsstring) (now : Z)
    (generated : jsstring) (sendOk : bool) (last : Z) :
  Request.rateLimitMap st (Request.trim email) = Some last ->
  last <> 0%Z ->
  (now - last < 30000)%Z ->
  let result := Request.POST env st email now generated sendOk in
  snd result = st
  /\ (forall mailed,
        fst result <> Request.Sent mailed
        /\ fst result <> Request.SendFailed mailed)
  /\ (fst result <> Request.EmailRequired ->
      fst result <> Request.NotAuthorized ->
      fst result
      = if Otp.checkExistingValidOTP (Request.otps st) (Request.trim email) now
        then Request.AlreadySent
        else Request.TooManyRequests).
Proof.
  intros Hlast Hnz Hwin. cbv zeta. unfold Request.POST.
  destruct (match Request.trim email with [] => true | _ :: _ => false end
            || negb (includesAt (Request.trim email)));
    [cbn [fst snd]; repeat split; try discriminate; congruence |].
  destruct (negb _);
    [cbn [fst snd]; repeat split; try discriminate; congruence |].
  rewrite Hlast.
  assert (negb (last =? 0)%Z = true) as ->
    by (apply negb_true_iff, Z.eqb_neq; exact Hnz).
  assert ((now - last <? Request.RATE_LIMIT_WINDOW_MS)%Z = true) as ->
    by (apply Z.ltb_lt; exact Hwin).
  cbn [andb].
  destruct (Otp.checkExistingValidOTP (Request.otps st) (Request.trim email)
              now); cbn [fst snd]; repeat split; discriminate.
Qed.

Lemma rate_limited_request_changes_nothing_witness :
  let result :=
    Request.POST Scenario21.env Scenario21.st1 (js "a@b.c") 9000
      (js "654321") true in
  fst result = Request.AlreadySent
  /\ snd result = Scenario21.st1
  /\ (forall mailed,
        fst result <> Request.Sent mailed
        /\ fst result <> Request.SendFailed mailed)
  /\ (fst result <> Request.EmailRequired ->
      fst result <> Request.NotAuthorized ->
      fst result
      = if Otp.checkExistingValidOTP (Request.otps Scenario21.st1)
             (Request.trim (js "a@b.c")) 9000
        then Request.AlreadySent
        else Request.TooManyRequests).
Proof.
  split; [reflexivity |].
  apply (rate_limited_request_changes_nothing Scenario21.env Scenario21.st1
           (js "a@b.c") 9000 (js "654321") true 1000).
  - reflexivity.
  - discriminate.
  - reflexivity.
Defined.

(** X22.  Asking again after the window but before the code expires: when
    a request accepted at time [t] stored its code, a further request for
    the same email between thirty seconds and ten minutes later is
    accepted and mails the newly generated code, but the code on file
    stays the first one.  Unless the two codes are equal, the code just
    mailed is refused by [verifyOTP] at any time, and only the first code
    verifies. *)
Theorem second_request_mails_code_that_fails
    (env : Request.Env) (st : Request.State) (email : jsstring)
    (t t' : Z) (first second : jsstring) (sendOk : bool) :
  fst (Request.POST env st email t first true) = Request.Sent first ->
  Otp.checkExistingValidOTP (Request.otps st) (Request.trim email) t = false ->
  t <> 0%Z ->
  (30000 <= t' - t)%Z -> (t' < t + 600000)%Z ->
  first <> second ->
  let st1 := snd (Request.POST env st email t first true) in
  let result := Request.POST env st1 email t' second sendOk in
  fst result = (if sendOk then Request.Sent second
                else Request.SendFailed second)
  /\ Request.otps (snd result) = Request.otps st1
  /\ Request.rateLimitMap (snd result) (Request.trim email) = Some t'
  /\ (forall now,
        fst (Otp.verifyOTP (Request.otps (snd result)) (Request.trim email)
               second now) = false)
  /\ (forall now, (now <= t + 600000)%Z ->
        fst (Otp.verifyOTP (Request.otps (snd result)) (Request.trim email)
               first now) = true).
Proof.
  intros Hfirst Hnone Hnz Hwin Hvalid Hne. cbv zeta.
  set (e := Request.trim email) in *.
  assert (Request.POST env st email t first true
          = (Request.Sent first,
             Request.mkState (Request.setLimit (Request.rateLimitMap st) e t)
               (Otp.deleteByEmail (Request.otps st) e
                ++ [Otp.mkOtpRow e first (t + 600000)]))
          /\ (match e with [] => true | _ :: _ => false end
              || negb (includesAt e)) = false
          /\ negb (Request.isAuthorizedEmail env e
                   || Request.serverCheckAuthorizedEmail env e
                   || str_eqb (Request.toLowerCase env e)
                        (js "stoicgreek2006@gmail.com")) = false)
    as (E1 & Hemail & Hauth).
  { revert Hfirst. unfold Request.POST. fold e.
    destruct (match e with [] => true | _ :: _ => false end
              || negb (includesAt e)); [discriminate |].
    destruct (negb _); [discriminate |].
    destruct (match Request.rateLimitMap st e with
              | Some last => _
              | None => false
              end).
    - destruct (Otp.checkExistingValidOTP (Request.otps st) e t);
        discriminate.
    - unfold Otp.requestOTP, Otp.storeOTP. rewrite Hnone.
      cbn [negb fst snd]. intros _. repeat split. }
  rewrite E1. cbn [snd fst].
  set (row := Otp.mkOtpRow e first (t + 600000)).
  set (table := Otp.deleteByEmail (Request.otps st) e ++ [row]).
  assert (Otp.selectSingle table e = Some row) as Hsel.
  { unfold Otp.selectSingle, table, row. now rewrite otp_stored_table. }
  assert (Request.POST env
            (Request.mkState (Request.setLimit (Request.rateLimitMap st) e t)
               table) email t' second sendOk
          = (if sendOk then Request.Sent second else Request.SendFailed second,
             Request.mkState
               (Request.setLimit
                  (Request.setLimit (Request.rateLimitMap st) e t) e t')
               table)) as E2.
  { unfold Request.POST. fold e. rewrite Hemail, Hauth.
    cbn [Request.rateLimitMap Request.otps].
    unfold Request.setLimit at 1. rewrite str_eqb_refl.
    assert (negb (t =? 0)%Z = true) as ->
      by (apply negb_true_iff, Z.eqb_neq; exact Hnz).
    assert ((t' - t <? Request.RATE_LIMIT_WINDOW_MS)%Z = false) as ->
      by (apply Z.ltb_ge; exact Hwin).
    cbn [andb].
    unfold Otp.requestOTP, Otp.storeOTP, Otp.checkExistingValidOTP.
    rewrite Hsel. cbn [Otp.expires_at row].
    assert ((t' <? t + 600000)%Z = true) as ->
      by (apply Z.ltb_lt; exact Hvalid).
    destruct sendOk; reflexivity. }
  rewrite E2. cbn [fst snd Request.otps Request.rateLimitMap].
  split; [reflexivity |]. split; [reflexivity |].
  split; [unfold Request.setLimit; now rewrite str_eqb_refl |].
  split.
  - intro now. unfold Otp.verifyOTP. rewrite Hsel. cbn [Otp.expires_at row].
    destruct (t + 600000 <? now)%Z; [reflexivity |].
    cbn [Otp.otp row]. now rewrite (str_eqb_neq _ _ Hne).
  - intros now H. unfold Otp.verifyOTP. rewrite Hsel.
    cbn [Otp.expires_at Otp.otp row].
    assert ((t + 600000 <? now)%Z = false) as -> by (apply Z.ltb_ge; lia).
    now rewrite str_eqb_refl.
Qed.

Lemma second_request_mails_code_that_fails_witness :
  let e := Request.trim (js " a@b.c ") in
  let result :=
    Request.POST Scenario21.env Scenario21.st1 (js " a@b.c ") 61000
      (js "654321") true in
  e = js "a@b.c"
  /\ fst result = Request.Sent (js "654321")
  /\ Request.otps (snd result) = Request.otps Scenario21.st1
  /\ Request.rateLimitMap (snd result) e = Some 61000%Z
  /\ (forall now,
        fst (Otp.verifyOTP (Request.otps (snd result)) e (js "654321") now)
        = false)
  /\ (forall now, (now <= 1000 + 600000)%Z ->
        fst (Otp.verifyOTP (Request.otps (snd result)) e (js "123456") now)
        = true).
Proof.
  split; [reflexivity |].
  apply (second_request_mails_code_that_fails Scenario21.env Scenario21.st0
           (js " a@b.c ") 1000 61000 (js "123456") (js "654321") true).
  - reflexivity.
  - reflexivity.
  - discriminate.
  - vm_compute; discriminate.
  - reflexivity.
  - vm_compute. discriminate.
Defined.
